(** * AI College Recommender: the tool functions and the chat turn of main.py

    A shallow embedding of [get_college_data], [search_scholarships],
    [validate_input], [call_tool] and the per-turn orchestration code of
    [src/main.py], with the properties of the specification stated and
    proved over it.

    Modelling conventions.
    - Python [str] is [string]; the fixture is plain ASCII and [str.lower] is
      modelled on ASCII letters (bytes outside 'A'..'Z' are left unchanged).
    - Python [int] is [Z]; a finite [float] is the rational [Q] it denotes
      (Python orders an [int] against a [float] exactly), [nan] and the
      infinities are left out.
    - The values that reach the tools through [**kwargs] are dynamically
      typed; they are [pyval]s, and every operation the source applies to them
      raises what Python raises when the value has the wrong type.
    - A call either returns or raises: [result].
    - [kwargs] is a Python [dict] with string keys: [gmap string pyval].
    - The Streamlit calls ([st.info], [st.warning], [st.markdown]) only
      display text and are left out. *)

From stdpp Require Import gmap strings list fin_maps.
From Stdlib Require Import ZArith QArith_base String Ascii Sorting.Sorted
  Permutation DecimalString DecimalZ.

Open Scope string_scope.
Open Scope Z_scope.

Set Warnings "-register-all".

(** ** Strings *)

Module Str.

(** [c.lower()] for one ASCII character. *)
Definition lower_ascii (c : ascii) : ascii :=
  let n := N_of_ascii c in
  if ((65 <=? n) && (n <=? 90))%N then ascii_of_N (n + 32) else c.

(** [s.lower()] on ASCII text: the letters A to Z become a to z and every
    other character stays. Python also folds letters outside ASCII (the
    Kelvin sign becomes k); the theorems that compare a query with the
    specification are stated for ASCII text. *)
Fixpoint lower (s : string) : string :=
  match s with
  | EmptyString => EmptyString
  | String c s' => String (lower_ascii c) (lower s')
  end.

(** [s.startswith(p)] *)
Fixpoint starts_with (p s : string) : bool :=
  match p, s with
  | EmptyString, _ => true
  | String _ _, EmptyString => false
  | String a p', String b s' => Ascii.eqb a b && starts_with p' s'
  end.

(** [sub in s] for two Python strings: [sub] occurs in [s] at some offset. *)
Fixpoint contains (sub s : string) : bool :=
  starts_with sub s ||
  match s with
  | EmptyString => false
  | String _ s' => contains sub s'
  end.

(** [x in l] for a Python list of strings. *)
Fixpoint mem (x : string) (l : list string) : bool :=
  match l with
  | [] => false
  | y :: l' => String.eqb x y || mem x l'
  end.

(** The characters of a string, each as a string of length one: what
    iterating over a Python [str] yields. *)
Fixpoint chars (s : string) : list string :=
  match s with
  | EmptyString => []
  | String c s' => String c EmptyString :: chars s'
  end.

(** The property the executable [contains] decides. *)
Definition substring_of (sub s : string) : Prop :=
  exists pre post : string, s = pre ++ sub ++ post.

(** [a] and [b] are equal up to letter case. *)
Definition eq_nocase (a b : string) : Prop := lower a = lower b.

(** [sub] occurs in [s] up to letter case. *)
Definition substring_nocase (sub s : string) : Prop :=
  substring_of (lower sub) (lower s).

End Str.

(** ** Python values, exceptions and results *)

(** The dynamically typed values a tool can receive as an argument: what
    the arguments of a function call can hold ([None], text, numbers, truth
    values, lists, and dictionaries with text keys in insertion order). *)
Inductive pyval : Type :=
  | PyNone
  | PyStr (s : string)
  | PyInt (z : Z)
  | PyList (l : list pyval)
  | PyBool (b : bool)
  | PyFloat (q : Q)
  | PyDict (d : list (string * pyval)).

(** The exceptions the modelled code can raise: Python's own [TypeError] and
    [AttributeError], and any other exception, raised by the chat service. *)
Inductive exn : Type :=
  | TypeError
  | AttributeError
  | OtherError (msg : string).

Inductive result (A : Type) : Type :=
  | Ok (a : A)
  | Raise (e : exn).

Arguments Ok {A} a.
Arguments Raise {A} e.

(** Sequencing: an exception raised by [m] ends the computation. *)
Definition bind {A B : Type} (m : result A) (f : A -> result B) : result B :=
  match m with
  | Ok a => f a
  | Raise e => Raise e
  end.

Notation "x <- m ;; k" := (bind m (fun x => k))
  (at level 20, m at level 99, k at level 200, only parsing).

Module Py.

(** [bool(v)]: the truth value Python gives [v] in a condition. *)
Definition truthy (v : pyval) : bool :=
  match v with
  | PyNone => false
  | PyStr s => negb (String.eqb s "")
  | PyInt z => negb (z =? 0)
  | PyList l => match l with [] => false | _ :: _ => true end
  | PyBool b => b
  | PyFloat q => negb (Qeq_bool q (inject_Z 0))
  | PyDict d => match d with [] => false | _ :: _ => true end
  end.

(** [v is None] *)
Definition is_none (v : pyval) : bool :=
  match v with PyNone => true | _ => false end.

(** [v.lower()]: only [str] has the method. *)
Definition lower (v : pyval) : result string :=
  match v with
  | PyStr s => Ok (Str.lower s)
  | _ => Raise AttributeError
  end.

(** [n < v] for an [int] [n]: an [int] is ordered against an [int], a
    [bool] (which counts as 0 or 1) and a [float]; ordering it against
    [None], a [str], a [list] or a [dict] is a [TypeError]. *)
Definition int_lt (n : Z) (v : pyval) : result bool :=
  match v with
  | PyInt z => Ok (n <? z)
  | PyBool b => Ok (n <? Z.b2z b)
  | PyFloat q => Ok (negb (Qle_bool q (inject_Z n)))
  | PyNone | PyStr _ | PyList _ | PyDict _ => Raise TypeError
  end.

(** [n > v] for an [int] [n]. *)
Definition int_gt (n : Z) (v : pyval) : result bool :=
  match v with
  | PyInt z => Ok (n >? z)
  | PyBool b => Ok (n >? Z.b2z b)
  | PyFloat q => Ok (negb (Qle_bool (inject_Z n) q))
  | PyNone | PyStr _ | PyList _ | PyDict _ => Raise TypeError
  end.

(** [for x in v]: the items the loop visits; a [str] gives its characters
    and a [dict] its keys. *)
Definition iter (v : pyval) : result (list pyval) :=
  match v with
  | PyStr s => Ok (map PyStr (Str.chars s))
  | PyList l => Ok l
  | PyDict d => Ok (map (fun kv => PyStr (fst kv)) d)
  | PyNone | PyInt _ | PyBool _ | PyFloat _ => Raise TypeError
  end.

End Py.

(** The embedding of arguments that have the types of the annotations
    ([str], [int], [list] of [str], each [None] by default). *)
Definition of_int (o : option Z) : pyval :=
  match o with None => PyNone | Some z => PyInt z end.

Definition of_str (o : option string) : pyval :=
  match o with None => PyNone | Some s => PyStr s end.

Definition of_strs (o : option (list string)) : pyval :=
  match o with None => PyNone | Some l => PyList (map PyStr l) end.

(** ** JSON encoding: [json.dumps] with its default settings *)

Module Json.

(** [JTenths z] is the float [z / 10], as the fixture writes its grade point
    averages ([3.8], [4.0]). *)
Inductive json : Type :=
  | JNull
  | JBool (b : bool)
  | JInt (z : Z)
  | JTenths (z : Z)
  | JStr (s : string)
  | JArr (l : list json)
  | JObj (l : list (string * json)).

Definition dec (z : Z) : string := NilZero.string_of_int (Z.to_int z).

Definition tenths (z : Z) : string :=
  (if z <? 0 then "-" else "") ++
  dec (Z.abs z / 10) ++ "." ++ dec (Z.abs z mod 10).

Definition hex_digit (n : N) : ascii :=
  if (n <? 10)%N then ascii_of_N (48 + n) else ascii_of_N (87 + n).

Definition quote_char : ascii := "034"%char.

(** The escape of one character, as [ensure_ascii=True] writes it. *)
Definition escape (c : ascii) : string :=
  let n := N_of_ascii c in
  if (n =? 34)%N then "\" ++ String quote_char ""
  else if (n =? 92)%N then "\\"
  else if (n =? 10)%N then "\n"
  else if (n =? 13)%N then "\r"
  else if (n =? 9)%N then "\t"
  else if (n =? 8)%N then "\b"
  else if (n =? 12)%N then "\f"
  else if ((n <? 32) || (126 <? n))%N then
    "\u00" ++ String (hex_digit (n / 16)) (String (hex_digit (n mod 16)) "")
  else String c "".

Fixpoint escape_all (s : string) : string :=
  match s with
  | EmptyString => ""
  | String c s' => escape c ++ escape_all s'
  end.

Definition quote (s : string) : string :=
  String quote_char (escape_all s ++ String quote_char "").

Fixpoint join (sep : string) (l : list string) : string :=
  match l with
  | [] => ""
  | [x] => x
  | x :: l' => x ++ sep ++ join sep l'
  end.

(** [json.dumps(v)]: items separated by [", "], keys by [": "], object keys
    in insertion order. *)
Fixpoint dumps (v : json) : string :=
  match v with
  | JNull => "null"
  | JBool b => if b then "true" else "false"
  | JInt z => dec z
  | JTenths z => tenths z
  | JStr s => quote s
  | JArr l => "[" ++ join ", " (map dumps l) ++ "]"
  | JObj l =>
      "{" ++ join ", " (map (fun kv => quote (fst kv) ++ ": " ++ dumps (snd kv)) l) ++ "}"
  end.

Definition head (s : string) : option ascii :=
  match s with
  | EmptyString => None
  | String c _ => Some c
  end.

(** A reader of the text that [dumps] writes: the JSON grammar with the
    separators [", "] and [": "], numbers as integers or with one decimal,
    and the escapes of [escape]. *)

(** [strip p s] is [s] without its prefix [p]. *)
Fixpoint strip (p s : string) : option string :=
  match p with
  | EmptyString => Some s
  | String a p' =>
      match s with
      | String b s' => if Ascii.eqb a b then strip p' s' else None
      | EmptyString => None
      end
  end.

Definition digit_of (c : ascii) : option (Decimal.uint -> Decimal.uint) :=
  let n := N_of_ascii c in
  if (n =? 48)%N then Some Decimal.D0
  else if (n =? 49)%N then Some Decimal.D1
  else if (n =? 50)%N then Some Decimal.D2
  else if (n =? 51)%N then Some Decimal.D3
  else if (n =? 52)%N then Some Decimal.D4
  else if (n =? 53)%N then Some Decimal.D5
  else if (n =? 54)%N then Some Decimal.D6
  else if (n =? 55)%N then Some Decimal.D7
  else if (n =? 56)%N then Some Decimal.D8
  else if (n =? 57)%N then Some Decimal.D9
  else None.

(** The longest run of digits at the start of [s]. *)
Fixpoint read_uint (s : string) : Decimal.uint * string :=
  match s with
  | EmptyString => (Decimal.Nil, s)
  | String c s' =>
      match digit_of c with
      | Some d => let (u, rest) := read_uint s' in (d u, rest)
      | None => (Decimal.Nil, s)
      end
  end.

(** An integer, or a number with one decimal. *)
Definition read_number (s : string) : option (json * string) :=
  let (negative, s1) :=
    match strip "-" s with Some s' => (true, s') | None => (false, s) end in
  let sign (z : Z) := if negative then - z else z in
  let (u, s2) := read_uint s1 in
  match u with
  | Decimal.Nil => None
  | _ =>
      match strip "." s2 with
      | Some (String c s3) =>
          match digit_of c with
          | Some d =>
              Some (JTenths (sign (10 * Z.of_uint u + Z.of_uint (d Decimal.Nil))), s3)
          | None => None
          end
      | Some EmptyString => None
      | None => Some (JInt (sign (Z.of_uint u)), s2)
      end
  end.

Definition hex_value (c : ascii) : option N :=
  let n := N_of_ascii c in
  if ((48 <=? n) && (n <=? 57))%N then Some (n - 48)%N
  else if ((97 <=? n) && (n <=? 102))%N then Some (n - 87)%N
  else None.

(** What a string literal starts with: its closing quote, or one character,
    written as it is or as an escape. *)
Inductive piece : Type :=
  | Closing (rest : string)
  | Char (c : ascii) (rest : string)
  | Malformed.

Definition read_piece (s : string) : piece :=
  match s with
  | EmptyString => Malformed
  | String c s' =>
      if Ascii.eqb c quote_char then Closing s'
      else if Ascii.eqb c "\" then
        match s' with
        | EmptyString => Malformed
        | String e s'' =>
            if Ascii.eqb e quote_char then Char quote_char s''
            else if Ascii.eqb e "\" then Char "\" s''
            else if Ascii.eqb e "n" then Char "010" s''
            else if Ascii.eqb e "r" then Char "013" s''
            else if Ascii.eqb e "t" then Char "009" s''
            else if Ascii.eqb e "b" then Char "008" s''
            else if Ascii.eqb e "f" then Char "012" s''
            else if Ascii.eqb e "u" then
              match strip "00" s'' with
              | Some (String h (String l rest)) =>
                  match hex_value h, hex_value l with
                  | Some a, Some b => Char (ascii_of_N (16 * a + b)) rest
                  | _, _ => Malformed
                  end
              | _ => Malformed
              end
            else Malformed
        end
      else Char c s'
  end.

(** The characters of a string literal, after its opening quote. *)
Fixpoint read_text (fuel : nat) (s : string) : option (string * string) :=
  match fuel with
  | O => None
  | S fuel =>
      match read_piece s with
      | Closing rest => Some (EmptyString, rest)
      | Char c s' =>
          match read_text fuel s' with
          | Some (t, rest) => Some (String c t, rest)
          | None => None
          end
      | Malformed => None
      end
  end.

(** [read_value] reads one value at the start of [s]; [read_items] the items
    of an array after its opening bracket, and [read_members] the members of
    an object after its opening brace ([first] says that none was read yet,
    so that the closing bracket may come at once). *)
Fixpoint read_value (fuel : nat) (s : string) : option (json * string) :=
  match fuel with
  | O => None
  | S fuel =>
      match read_number s with
      | Some r => Some r
      | None =>
      match strip "null" s with
      | Some rest => Some (JNull, rest)
      | None =>
      match strip "true" s with
      | Some rest => Some (JBool true, rest)
      | None =>
      match strip "false" s with
      | Some rest => Some (JBool false, rest)
      | None =>
      match strip (String quote_char "") s with
      | Some s' =>
          match read_text fuel s' with
          | Some (t, rest) => Some (JStr t, rest)
          | None => None
          end
      | None =>
      match strip "[" s with
      | Some s' =>
          match read_items fuel true s' with
          | Some (l, rest) => Some (JArr l, rest)
          | None => None
          end
      | None =>
      match strip "{" s with
      | Some s' =>
          match read_members fuel true s' with
          | Some (l, rest) => Some (JObj l, rest)
          | None => None
          end
      | None => None
      end end end end end end end
  end
with read_items (fuel : nat) (first : bool) (s : string)
    : option (list json * string) :=
  match fuel with
  | O => None
  | S fuel =>
      match read_value fuel s with
      | Some (v, s1) =>
          match strip ", " s1 with
          | Some s2 =>
              match read_items fuel false s2 with
              | Some (l, rest) => Some (v :: l, rest)
              | None => None
              end
          | None =>
              match strip "]" s1 with
              | Some rest => Some ([v], rest)
              | None => None
              end
          end
      | None =>
          if first then
            match strip "]" s with
            | Some rest => Some ([], rest)
            | None => None
            end
          else None
      end
  end
with read_members (fuel : nat) (first : bool) (s : string)
    : option (list (string * json) * string) :=
  match fuel with
  | O => None
  | S fuel =>
      match strip (String quote_char "") s with
      | Some s0 =>
          match read_text fuel s0 with
          | Some (k, s1) =>
              match strip ": " s1 with
              | Some s2 =>
                  match read_value fuel s2 with
                  | Some (v, s3) =>
                      match strip ", " s3 with
                      | Some s4 =>
                          match read_members fuel false s4 with
                          | Some (l, rest) => Some ((k, v) :: l, rest)
                          | None => None
                          end
                      | None =>
                          match strip "}" s3 with
                          | Some rest => Some ([(k, v)], rest)
                          | None => None
                          end
                      end
                  | None => None
                  end
              | None => None
              end
          | None => None
          end
      | None =>
          if first then
            match strip "}" s with
            | Some rest => Some ([], rest)
            | None => None
            end
          else None
      end
  end.

(** [json.loads] on the text that [dumps] writes: the value that the whole
    of [s] spells, if it spells one. *)
Definition loads (s : string) : option json :=
  match read_value (S (String.length s)) s with
  | Some (v, EmptyString) => Some v
  | _ => None
  end.

(** The text does not start with a digit. *)
Definition no_digit (s : string) : Prop :=
  match s with
  | EmptyString => True
  | String c _ => digit_of c = None
  end.

(** The text after a number does not start with a digit or a point. *)
Definition delimited (rest : string) : bool :=
  match rest with
  | EmptyString => true
  | String c _ =>
      match digit_of c with
      | Some _ => false
      | None => negb (Ascii.eqb c ".")
      end
  end.

(** Fuel that suffices to read back the encoding of [v]. *)
Fixpoint need (v : json) : nat :=
  match v with
  | JStr s => 2 + String.length s
  | JArr l => S (fold_right (fun x n => S (Nat.max (need x) n)) 1%nat l)
  | JObj l =>
      S (fold_right
           (fun kv n =>
              S (Nat.max (S (String.length (fst kv)))
                         (Nat.max (need (snd kv)) n))) 1%nat l)
  | _ => 1%nat
  end.

Definition need_items (l : list json) : nat :=
  fold_right (fun x n => S (Nat.max (need x) n)) 1%nat l.

Definition need_members (l : list (string * json)) : nat :=
  fold_right
    (fun kv n =>
       S (Nat.max (S (String.length (fst kv))) (Nat.max (need (snd kv)) n)))
    1%nat l.

(** One member of an object, as [dumps] writes it. *)
Definition member (kv : string * json) : string :=
  quote (fst kv) ++ ": " ++ dumps (snd kv).

(** The encoding of [v], followed by any delimited text, reads back as [v]
    with any fuel that suffices. *)
Definition reads_back (v : json) : Prop :=
  forall fuel rest,
    (need v <= fuel)%nat -> delimited rest = true ->
    read_value fuel (dumps v ++ rest) = Some (v, rest).

End Json.

(** ** The college catalog and [get_college_data] *)

(** One entry of the [colleges] list: the eight keys of the dictionary, in
    the order they are written. [min_gpa] is kept in tenths. *)
Record College : Type := mkCollege {
  c_name : string;
  c_major : string;
  c_rank : Z;
  c_location : string;
  c_scholarships : list string;
  c_notes : string;
  c_min_gpa : Z;
  c_skills_preferred : list string
}.

Definition colleges : list College := [
  mkCollege "Tech University" "Computer Science" 5 "California, USA"
    ["Merit Scholarship"; "Research Grant"]
    "Strong in AI and ML. High research output." 38
    ["coding"; "algorithms"];
  mkCollege "Global Business School" "Business" 12 "New York, USA"
    ["Dean's Scholarship"; "Diversity Scholarship"]
    "Excellent MBA program. Strong industry connections." 35
    ["leadership"; "finance"];
  mkCollege "Arts Institute" "Fine Arts" 8 "London, UK"
    ["Creative Arts Award"]
    "Renowned for painting and sculpture." 30
    ["drawing"; "painting"];
  mkCollege "National Engineering College" "Mechanical Engineering" 25 "Hyderabad, India"
    ["State Aid"; "Innovation Fund"]
    "Hands-on projects, good industry ties in India." 32
    ["robotics"; "CAD"];
  mkCollege "Green Earth University" "Environmental Science" 30 "Oregon, USA"
    ["Sustainability Grant"]
    "Focus on renewable energy and conservation." 33
    ["research"; "environmental analysis"];
  mkCollege "City Medical School" "Medicine" 3 "Boston, USA"
    ["Medical Research Fellowship"]
    "Highly competitive, excellent hospital affiliations." 39
    ["biology"; "chemistry"; "research"];
  mkCollege "Elite Tech Institute" "Computer Science" 2 "California, USA"
    ["Presidential Scholarship"; "Engineering Grant"]
    "World-leading in AI and data science. Very competitive." 40
    ["coding"; "data structures"; "machine learning"];
  mkCollege "Global Business School" "Economics" 10 "New York, USA"
    ["Fellowship for Global Studies"]
    "Strong quantitative economics program." 37
    ["mathematics"; "analytical thinking"];
  mkCollege "Indian Institute of Technology Bombay" "Computer Science" 1 "Mumbai, India"
    ["Institute Scholarship"; "Private Grants"]
    "Premier engineering institute in India." 39
    ["coding"; "algorithms"; "problem solving"];
  mkCollege "University of Delhi" "History" 50 "Delhi, India"
    ["University Grants"]
    "Strong humanities programs." 30
    ["research"; "writing"; "critical thinking"]
].

(** The JSON object [json.dumps] writes for one college. *)
Definition college_json (c : College) : Json.json :=
  Json.JObj [
    ("name", Json.JStr (c_name c));
    ("major", Json.JStr (c_major c));
    ("rank", Json.JInt (c_rank c));
    ("location", Json.JStr (c_location c));
    ("scholarships", Json.JArr (map Json.JStr (c_scholarships c)));
    ("notes", Json.JStr (c_notes c));
    ("min_gpa", Json.JTenths (c_min_gpa c));
    ("skills_preferred", Json.JArr (map Json.JStr (c_skills_preferred c)))
  ].

Definition no_colleges_message : string :=
  "No colleges found matching the criteria in the simulated database. Please try broadening your search or modifying criteria.".

(** Lines 115-118: the loop over [academic_skills]; [skill_match] becomes
    true at the first skill found among the lowered preferred skills. *)
Fixpoint skill_match (college : College) (academic_skills : list pyval)
  : result bool :=
  match academic_skills with
  | [] => Ok false
  | skill :: rest =>
      s <- Py.lower skill;;
      if Str.mem s (map Str.lower (c_skills_preferred college))
      then Ok true
      else skill_match college rest
  end.

(** Lines 105-121, the body of the loop for one college: [Ok true] when the
    college reaches [results.append], [Ok false] when a [continue] is taken. *)
Definition college_passes (college : College)
    (major min_rank max_rank location_preference academic_skills : pyval)
  : result bool :=
  m <- Py.lower major;;
  if negb (String.eqb (Str.lower (c_major college)) m) then Ok false else
  below <- (if negb (Py.is_none min_rank)
           then Py.int_lt (c_rank college) min_rank else Ok false);;
  if below then Ok false else
  above <- (if negb (Py.is_none max_rank)
           then Py.int_gt (c_rank college) max_rank else Ok false);;
  if above then Ok false else
  elsewhere <- (if Py.truthy location_preference
               then l <- Py.lower location_preference;;
                    Ok (negb (Str.contains l (Str.lower (c_location college))))
               else Ok false);;
  if elsewhere then Ok false else
  if Py.truthy academic_skills then
    skills <- Py.iter academic_skills;;
    found <- skill_match college skills;;
    Ok found
  else Ok true.

(** Lines 103-121: the scan, with [results] threaded through. *)
Fixpoint college_scan (catalog : list College)
    (major min_rank max_rank location_preference academic_skills : pyval)
    (results : list College) : result (list College) :=
  match catalog with
  | [] => Ok results
  | college :: rest =>
      keep <- college_passes college major min_rank max_rank
               location_preference academic_skills;;
      college_scan rest major min_rank max_rank location_preference
        academic_skills (if keep then results ++ [college] else results)
  end.

(** [results.sort(key=lambda x: x["rank"])]: Python's sort is stable, so it
    is the insertion sort that keeps equal ranks in their order. *)
Fixpoint insert_by_rank (c : College) (l : list College) : list College :=
  match l with
  | [] => [c]
  | d :: l' =>
      if c_rank c <=? c_rank d then c :: d :: l' else d :: insert_by_rank c l'
  end.

Fixpoint sort_by_rank (l : list College) : list College :=
  match l with
  | [] => []
  | c :: l' => insert_by_rank c (sort_by_rank l')
  end.

(** [get_college_data] over a given catalog. *)
Definition get_college_data_in (catalog : list College)
    (major min_rank max_rank location_preference academic_skills
     extra_curriculars : pyval) : result string :=
  results <- college_scan catalog major min_rank max_rank location_preference
              academic_skills [];;
  match results with
  | [] => Ok no_colleges_message
  | _ :: _ =>
      Ok (Json.dumps (Json.JArr (map college_json (take 5 (sort_by_rank results)))))
  end.

(** [get_college_data], lines 85-127. *)
Definition get_college_data
    (major min_rank max_rank location_preference academic_skills
     extra_curriculars : pyval) : result string :=
  get_college_data_in colleges major min_rank max_rank location_preference
    academic_skills extra_curriculars.

(** ** The scholarship catalog and [search_scholarships] *)

Record Scholarship : Type := mkScholarship {
  s_name : string;
  s_college : string;
  s_major : string;
  s_criteria : string;
  s_amount : string
}.

Definition scholarships : list Scholarship := [
  mkScholarship "University Merit Scholarship" "Tech University" "Any"
    "GPA 3.8+, leadership" "$10,000/year";
  mkScholarship "AI Research Fellowship" "Tech University" "Computer Science"
    "Research experience in AI, strong coding skills" "$5,000 one-time";
  mkScholarship "Global Leader Award" "Global Business School" "Business"
    "Exceptional leadership, international experience" "$15,000/year";
  mkScholarship "STEM Innovator Grant" "National Engineering College" "Engineering"
    "Demonstrated innovation in robotics or sustainability projects" "$7,500 one-time";
  mkScholarship "Environmental Champion Grant" "Green Earth University"
    "Environmental Science"
    "Community involvement in environmental causes" "$8,000/year";
  mkScholarship "General Excellence Scholarship" "Any" "Any"
    "GPA 3.5+, strong essays" "Varies";
  mkScholarship "Dean's Excellence Award" "Elite Tech Institute" "Computer Science"
    "Top academic performance, competitive" "$20,000/year";
  mkScholarship "Indian STEM Scholarship" "Indian Institute of Technology Bombay"
    "Any STEM"
    "High scores in JEE Advanced, research aptitude" "Full Tuition";
  mkScholarship "Humanities Research Grant" "University of Delhi" "History"
    "Excellent academic record in humanities, research proposal" "Rs. 50,000 one-time"
].

Definition scholarship_json (s : Scholarship) : Json.json :=
  Json.JObj [
    ("name", Json.JStr (s_name s));
    ("college", Json.JStr (s_college s));
    ("major", Json.JStr (s_major s));
    ("criteria", Json.JStr (s_criteria s));
    ("amount", Json.JStr (s_amount s))
  ].

Definition no_scholarships_message : string :=
  "No scholarships found matching your criteria in the simulated database. Try broadening your search.".

(** Lines 158-161: the loop over [skills]; [skill_found] becomes true at the
    first skill that occurs in the lowered criteria text. *)
Fixpoint skill_found (scholarship : Scholarship) (skills : list pyval)
  : result bool :=
  match skills with
  | [] => Ok false
  | s :: rest =>
      l <- Py.lower s;;
      if Str.contains l (Str.lower (s_criteria scholarship))
      then Ok true
      else skill_found scholarship rest
  end.

(** Lines 148-165, the body of the loop for one scholarship: the final value
    of [match]. No test is skipped when an earlier one has failed. *)
Definition scholarship_matches (scholarship : Scholarship)
    (college_name major academic_profile skills : pyval) : result bool :=
  let match_ := true in
  other_college <-
    (if Py.truthy college_name then
       l <- Py.lower college_name;;
       if negb (String.eqb l "any") then
         l' <- Py.lower college_name;;
         Ok (negb (Str.contains l' (Str.lower (s_college scholarship))))
       else Ok false
     else Ok false);;
  let match_ := if other_college then false else match_ in
  other_major <-
    (if Py.truthy major then
       l <- Py.lower major;;
       if negb (String.eqb l "any") then
         l' <- Py.lower major;;
         Ok (negb (Str.contains l' (Str.lower (s_major scholarship))))
       else Ok false
     else Ok false);;
  let match_ := if other_major then false else match_ in
  other_profile <-
    (if Py.truthy academic_profile then
       l <- Py.lower academic_profile;;
       Ok (negb (Str.contains l (Str.lower (s_criteria scholarship))))
     else Ok false);;
  let match_ := if other_profile then false else match_ in
  if Py.truthy skills then
    items <- Py.iter skills;;
    found <- skill_found scholarship items;;
    Ok (if negb found then false else match_)
  else Ok match_.

(** Lines 146-166: the scan, with [results] threaded through. *)
Fixpoint scholarship_scan (catalog : list Scholarship)
    (college_name major academic_profile skills : pyval)
    (results : list Scholarship) : result (list Scholarship) :=
  match catalog with
  | [] => Ok results
  | scholarship :: rest =>
      keep <- scholarship_matches scholarship college_name major
                academic_profile skills;;
      scholarship_scan rest college_name major academic_profile skills
        (if keep then results ++ [scholarship] else results)
  end.

(** [search_scholarships] over a given catalog. *)
Definition search_scholarships_in (catalog : list Scholarship)
    (college_name major academic_profile skills : pyval) : result string :=
  results <- scholarship_scan catalog college_name major academic_profile
               skills [];;
  match results with
  | [] => Ok no_scholarships_message
  | _ :: _ => Ok (Json.dumps (Json.JArr (map scholarship_json (take 3 results))))
  end.

(** [search_scholarships], lines 129-171. *)
Definition search_scholarships
    (college_name major academic_profile skills : pyval) : result string :=
  search_scholarships_in scholarships college_name major academic_profile skills.

(** ** [validate_input] and the dispatcher [call_tool] *)

(** [validate_input], lines 173-176. *)
Definition validate_input (required_info message_to_user : pyval) : pyval :=
  message_to_user.

(** Calling [f] with the keywords of [kwargs]: Python binds the keywords to the parameters of [f]
    before the body runs, and raises [TypeError] when a keyword is not a
    parameter or a parameter without a default has no keyword. *)
Definition binds (params required : list string) (kwargs : gmap string pyval)
  : bool :=
  forallb (fun k => Str.mem k params) (map fst (map_to_list kwargs)) &&
  forallb (fun k => bool_decide (is_Some (kwargs !! k))) required.

(** The value bound to a parameter whose default is [None]. *)
Definition arg (kwargs : gmap string pyval) (k : string) : pyval :=
  default PyNone (kwargs !! k).

Definition apply_get_college_data (kwargs : gmap string pyval) : result pyval :=
  if binds ["major"; "min_rank"; "max_rank"; "location_preference";
            "academic_skills"; "extra_curriculars"] ["major"] kwargs
  then
    s <- get_college_data (arg kwargs "major") (arg kwargs "min_rank")
           (arg kwargs "max_rank") (arg kwargs "location_preference")
           (arg kwargs "academic_skills") (arg kwargs "extra_curriculars");;
    Ok (PyStr s)
  else Raise TypeError.

Definition apply_search_scholarships (kwargs : gmap string pyval) : result pyval :=
  if binds ["college_name"; "major"; "academic_profile"; "skills"] [] kwargs
  then
    s <- search_scholarships (arg kwargs "college_name") (arg kwargs "major")
           (arg kwargs "academic_profile") (arg kwargs "skills");;
    Ok (PyStr s)
  else Raise TypeError.

Definition apply_validate_input (kwargs : gmap string pyval) : result pyval :=
  if binds ["required_info"; "message_to_user"]
           ["required_info"; "message_to_user"] kwargs
  then Ok (validate_input (arg kwargs "required_info")
                          (arg kwargs "message_to_user"))
  else Raise TypeError.

(** The dictionary [tool_functions] of [call_tool]; each function is held
    with the way it is called, [f] with the keywords of [kwargs]. *)
Definition tool_functions : gmap string (gmap string pyval -> result pyval) :=
  <["get_college_data" := apply_get_college_data]>
  (<["search_scholarships" := apply_search_scholarships]>
  (<["validate_input" := apply_validate_input]> ∅)).

Definition tool_not_found (tool_name : string) : string :=
  "Error: Tool '" ++ tool_name ++ "' not found.".

(** [call_tool], lines 198-208, called with a name and the keywords of
    [kwargs]. The first parameter is itself named [tool_name]: a keyword of
    that name gives the parameter a second value, which Python refuses with
    a [TypeError] before the body runs. All other keywords are collected by
    [**kwargs]. *)
Definition call_tool (tool_name : string) (kwargs : gmap string pyval)
  : result pyval :=
  if bool_decide (is_Some (kwargs !! "tool_name")) then Raise TypeError
  else
    match tool_functions !! tool_name with
    | Some f => f kwargs
    | None => Ok (PyStr (tool_not_found tool_name))
    end.

(** ** One user turn, lines 224-267 *)

(** What [send_message] is given: the user's text, or the result of a tool
    wrapped as a function response. *)
Inductive content : Type :=
  | UserText (text : string)
  | FunctionResponse (name : string) (tool_output : pyval).

(** A part of a reply: text, or a part that carries a function call, with
    its name and its arguments. *)
Inductive part : Type :=
  | TextPart (text : string)
  | FunctionCallPart (name : string) (args : gmap string pyval).

Record response : Type := mkResponse { parts : list part }.

(** [response.parts and response.parts[0].function_call]: the test is on
    the truth value of the function call of the first part, which is false
    when nothing is set in it, that is when the name is empty and there is
    no argument. *)
Definition function_call (r : response) : option (string * gmap string pyval) :=
  match parts r with
  | FunctionCallPart name args :: _ =>
      if String.eqb name "" && bool_decide (map_to_list args = [])
      then None
      else Some (name, args)
  | _ => None
  end.

Inductive role : Type := User | Model.

Record message : Type := mkMessage { msg_role : role; msg_parts : list string }.

(** What a turn does that can be observed from outside: calls of
    [send_message] and entries into [call_tool]. *)
Inductive event : Type :=
  | Sent (c : content)
  | Dispatched (tool_name : string) (kwargs : gmap string pyval).

Definition is_sent (e : event) : bool :=
  match e with Sent _ => true | Dispatched _ _ => false end.

Definition is_dispatched (e : event) : bool :=
  match e with Sent _ => false | Dispatched _ _ => true end.

Definition sends (trace : list event) : nat :=
  List.length (List.filter is_sent trace).

Definition dispatches (trace : list event) : nat :=
  List.length (List.filter is_dispatched trace).

Definition apology (error_text : string) : string :=
  "I apologize, I encountered an error: " ++ error_text ++
  ". Please try again or rephrase your request.".

Section Turn.

(** The chat service is outside the program: the state of the chat session
    object, what [send_message] does to it and replies, the [text] of a
    reply, the text of the last reply read off the session, and the text
    Python shows for an exception. *)
Variable Session : Type.
Variable send_message : Session -> content -> Session * result response.
Variable response_text : response -> result string.
Variable last_text : Session -> result string.
Variable exn_text : exn -> string.

Record State : Type := mkState {
  chat_history : list message;
  chat_session : Session
}.

(** Lines 242-259: the branch taken when the reply asks for a tool. The
    body of [call_tool] is entered unless the call is refused for a keyword
    named [tool_name]. *)
Definition tool_branch (session : Session) (tool_name : string)
    (tool_args : gmap string pyval)
  : Session * list event * result string :=
  let entered :=
    if bool_decide (is_Some (tool_args !! "tool_name")) then []
    else [Dispatched tool_name tool_args] in
  match call_tool tool_name tool_args with
  | Raise e => (session, entered, Raise e)
  | Ok tool_output =>
      let c := FunctionResponse tool_name tool_output in
      let '(session', r) := send_message session c in
      (session', (entered ++ [Sent c])%list,
       match r with
       | Raise e => Raise e
       | Ok _ => last_text session'
       end)
  end.

(** Lines 232-263: the body of [try], up to the text to show. *)
Definition try_body (session : Session) (user_query : string)
  : Session * list event * result string :=
  let '(session', r) := send_message session (UserText user_query) in
  match r with
  | Raise e => (session', [Sent (UserText user_query)], Raise e)
  | Ok reply =>
      match function_call reply with
      | Some (tool_name, tool_args) =>
          let '(session'', trace, out) := tool_branch session' tool_name tool_args in
          (session'', Sent (UserText user_query) :: trace, out)
      | None => (session', [Sent (UserText user_query)], response_text reply)
      end
  end.

(** Lines 224-267: one run of the script with [user_query] typed in. *)
Definition handle_turn (st : State) (user_query : string)
  : State * list event :=
  if String.eqb user_query "" then (st, [])
  else
    let history := (chat_history st ++ [mkMessage User [user_query]])%list in
    let '(session, trace, out) := try_body (chat_session st) user_query in
    let shown :=
      match out with
      | Ok text => text
      | Raise e => apology (exn_text e)
      end in
    (mkState (history ++ [mkMessage Model [shown]])%list session, trace).

(** The reply to the first [send_message] of the turn. *)
Definition first_reply (st : State) (user_query : string) : result response :=
  snd (send_message (chat_session st) (UserText user_query)).

End Turn.

Arguments mkState {Session} _ _.
Arguments chat_history {Session} _.
Arguments chat_session {Session} _.

(** A chat service that replies from a script, one entry per call, and
    raises once the script is used up. *)
Module Scripted.

Definition send_message (script : list (result response)) (c : content)
  : list (result response) * result response :=
  match script with
  | [] => ([], Raise (OtherError "no reply"))
  | r :: rest => (rest, r)
  end.

Definition response_text (r : response) : result string :=
  match parts r with
  | [TextPart text] => Ok text
  | _ => Raise (OtherError "no text")
  end.

Definition last_text (script : list (result response)) : result string :=
  Ok "done".

Definition exn_text (e : exn) : string :=
  match e with
  | TypeError => "TypeError"
  | AttributeError => "AttributeError"
  | OtherError msg => msg
  end.

Definition handle_turn :=
  handle_turn (list (result response)) send_message response_text last_text exn_text.

End Scripted.

(** ** The conditions of the specification *)

Section CollegeCriteria.

Variable major : string.
Variables min_rank max_rank : option Z.
Variable location_preference : option string.
Variable academic_skills : option (list string).

(** The condition of the specification for one record: every filter is
    either absent or satisfied; a skill list that is absent or empty filters
    nothing, otherwise one supplied skill must equal one preferred skill up
    to letter case. *)
Definition college_passes_spec (c : College) : Prop :=
  Str.eq_nocase (c_major c) major /\
  match min_rank with None => True | Some m => c_rank c >= m end /\
  match max_rank with None => True | Some m => c_rank c <= m end /\
  match location_preference with
  | None => True
  | Some l => Str.substring_nocase l (c_location c)
  end /\
  match academic_skills with
  | None => True
  | Some [] => True
  | Some skills =>
      exists skill preferred,
        In skill skills /\ In preferred (c_skills_preferred c) /\
        Str.eq_nocase skill preferred
  end.

(** What the loop body computes on such arguments. *)
Definition college_kept (c : College) : bool :=
  String.eqb (Str.lower (c_major c)) (Str.lower major)
  && match min_rank with None => true | Some m => m <=? c_rank c end
  && match max_rank with None => true | Some m => c_rank c <=? m end
  && match location_preference with
     | None => true
     | Some l => Str.contains (Str.lower l) (Str.lower (c_location c))
     end
  && match academic_skills with
     | None => true
     | Some [] => true
     | Some skills =>
         existsb (fun s => Str.mem (Str.lower s)
                             (map Str.lower (c_skills_preferred c))) skills
     end.

End CollegeCriteria.

(** The reserved word that switches a filter off, in any letter case. *)
Definition is_any (s : string) : Prop := Str.lower s = "any".

Section ScholarshipCriteria.

Variables college_name major academic_profile : option string.
Variable skills : option (list string).

(** The condition of the specification for one record. *)
Definition scholarship_passes_spec (s : Scholarship) : Prop :=
  match college_name with
  | None => True
  | Some n => is_any n \/ Str.substring_nocase n (s_college s)
  end /\
  match major with
  | None => True
  | Some m => is_any m \/ Str.substring_nocase m (s_major s)
  end /\
  match academic_profile with
  | None => True
  | Some p => Str.substring_nocase p (s_criteria s)
  end /\
  match skills with
  | None => True
  | Some [] => True
  | Some supplied =>
      exists skill, In skill supplied /\ Str.substring_nocase skill (s_criteria s)
  end.

Definition name_ok (o : option string) (field : string) : bool :=
  match o with
  | None => true
  | Some n =>
      String.eqb (Str.lower n) "any" || Str.contains (Str.lower n) (Str.lower field)
  end.

(** What the loop body computes on such arguments. *)
Definition scholarship_kept (s : Scholarship) : bool :=
  name_ok college_name (s_college s)
  && name_ok major (s_major s)
  && match academic_profile with
     | None => true
     | Some p => Str.contains (Str.lower p) (Str.lower (s_criteria s))
     end
  && match skills with
     | None => true
     | Some [] => true
     | Some supplied =>
         existsb (fun k => Str.contains (Str.lower k) (Str.lower (s_criteria s)))
           supplied
     end.

End ScholarshipCriteria.

(** Ascending order of rank. *)
Definition rank_le (c d : College) : Prop := c_rank c <= c_rank d.

(** The characters an encoded value can start with. *)
Definition json_start (c : ascii) : bool :=
  let n := N_of_ascii c in
  ((n =? 91) || (n =? 123) || (n =? 34) || (n =? 45) || ((48 <=? n) && (n <=? 57))
   || (n =? 110) || (n =? 116) || (n =? 102))%N.

(** Records used in the examples. *)
Definition tech_university : College :=
  mkCollege "Tech University" "Computer Science" 5 "California, USA"
    ["Merit Scholarship"; "Research Grant"]
    "Strong in AI and ML. High research output." 38
    ["coding"; "algorithms"].

Definition general_excellence : Scholarship :=
  mkScholarship "General Excellence Scholarship" "Any" "Any"
    "GPA 3.5+, strong essays" "Varies".

(** A catalog in which six records pass: five are returned, the best ranks
    first, and records of equal rank in catalog order. *)
Definition six_colleges : list College :=
  map (fun nr => mkCollege (fst nr) "History" (snd nr) "Delhi, India" [] "" 30 [])
    [("A", 9); ("B", 3); ("C", 7); ("D", 3); ("E", 1); ("F", 8)].

(** ** The conditions under which one query returns no less than another *)

(** [relaxes o o']: the filter [o'] is [o] or is absent. *)
Definition relaxes {A : Type} (o o' : option A) : Prop := o' = None \/ o' = o.

(** ** The tool declarations of [get_gemini_model], lines 28-77 *)

(** The types the declarations give to parameters: [string], [integer], and
    [array] with [string] items. *)
Inductive schema_type : Type := TString | TInteger | TStringArray.

(** One entry of [function_declarations]: the name, the properties with
    their types in the order written, and the [required] list. The
    descriptions are text for the model and are left out. *)
Record declaration : Type := mkDeclaration {
  d_name : string;
  d_properties : list (string * schema_type);
  d_required : list string
}.

Definition tools : list declaration := [
  mkDeclaration "get_college_data"
    [("major", TString); ("min_rank", TInteger); ("max_rank", TInteger);
     ("location_preference", TString); ("academic_skills", TStringArray);
     ("extra_curriculars", TStringArray)]
    ["major"];
  mkDeclaration "search_scholarships"
    [("college_name", TString); ("major", TString);
     ("academic_profile", TString); ("skills", TStringArray)]
    [];
  mkDeclaration "validate_input"
    [("required_info", TStringArray); ("message_to_user", TString)]
    ["required_info"; "message_to_user"]
].

Definition is_str (v : pyval) : bool :=
  match v with PyStr _ => true | _ => false end.

(** A value of a declared type. *)
Definition has_type (v : pyval) (ty : schema_type) : bool :=
  match ty, v with
  | TString, PyStr _ => true
  | TInteger, PyInt _ => true
  | TStringArray, PyList l => forallb is_str l
  | _, _ => false
  end.

Fixpoint property_type (properties : list (string * schema_type)) (k : string)
  : option schema_type :=
  match properties with
  | [] => None
  | (k', ty) :: rest => if String.eqb k k' then Some ty else property_type rest k
  end.

(** An argument map that follows a declaration: every key is a declared
    property with a value of its type, and every required property is
    there. *)
Definition conforms (d : declaration) (kwargs : gmap string pyval) : bool :=
  forallb (fun kv => match property_type (d_properties d) (fst kv) with
                     | Some ty => has_type (snd kv) ty
                     | None => false
                     end) (map_to_list kwargs)
  && forallb (fun k => bool_decide (is_Some (kwargs !! k))) (d_required d).

(** ** The script around the turn: lines 183-194, 211-218 and 270-275 *)

Definition welcome_message : string :=
  "Hello! I'm your AI College Recommender. Tell me about your academic interests, skills, desired major, preferred college rank, or anything else to help me find the best institutes for you.".

Definition reset_message : string :=
  "Chat has been reset! How can I help you today?".

(** Lines 212-218: what is shown for the history, one chat bubble per
    message, as the speaker and the text [message["parts"][0]]; [None] stands
    for the [IndexError] of a message without parts. *)
Fixpoint display (history : list message) : option (list (string * string)) :=
  match history with
  | [] => Some []
  | m :: rest =>
      match msg_parts m with
      | [] => None
      | text :: _ =>
          match display rest with
          | None => None
          | Some shown =>
              Some ((match msg_role m with User => "user" | Model => "assistant" end,
                     text) :: shown)
          end
      end
  end.

(** A history as the script builds it: one message of the model, then the
    turns, each a message of the user and a message of the model; every
    message has one part. *)
Inductive conversation : list message -> Prop :=
  | conversation_opening (text : string) :
      conversation [mkMessage Model [text]]
  | conversation_turn (h : list message) (question answer : string) :
      conversation h ->
      conversation (h ++ [mkMessage User [question]; mkMessage Model [answer]]).

Section Script.

Variable Session : Type.
Variable send_message : Session -> content -> Session * result response.
Variable response_text : response -> result string.
Variable last_text : Session -> result string.
Variable exn_text : exn -> string.

(** [model.start_chat(history=...)] and [chat_session.history.append]. *)
Variable start_chat : list message -> Session.
Variable append_history : Session -> message -> Session.

(** [st.session_state] between two runs of the script: each of the two keys
    is there or not. *)
Record Store : Type := mkStore {
  stored_history : option (list message);
  stored_session : option Session
}.

(** Lines 183-194: the two keys are set when they are missing; a new chat
    session is given the messages of the history. *)
Definition init_state (store : Store) : State Session :=
  let history :=
    match stored_history store with
    | Some h => h
    | None => [mkMessage Model [welcome_message]]
    end in
  let session :=
    match stored_session store with
    | Some s => s
    | None => fold_left append_history history (start_chat [])
    end in
  mkState history session.

(** Lines 271-275: the reset button. *)
Definition reset_chat : State Session :=
  mkState [mkMessage Model [reset_message]] (start_chat []).

(** One run of the script, from top to bottom: [user_query] is what
    [st.chat_input] returns and [reset_clicked] what [st.button] returns. An
    exception of the display loop ends the run. *)
Definition script_run (store : Store) (user_query : option string)
    (reset_clicked : bool) : State Session :=
  let st := init_state store in
  match display (chat_history st) with
  | None => st
  | Some _ =>
      let st' :=
        match user_query with
        | Some q =>
            fst (handle_turn Session send_message response_text last_text
                   exn_text st q)
        | None => st
        end in
      if reset_clicked then reset_chat else st'
  end.

Definition store_of (st : State Session) : Store :=
  mkStore (Some (chat_history st)) (Some (chat_session st)).

(** A browser session: the runs of the script one after the other, from an
    empty [st.session_state]. *)
Definition session_runs (inputs : list (option string * bool)) : Store :=
  fold_left (fun store i => store_of (script_run store (fst i) (snd i)))
    inputs (mkStore None None).

(** What is kept between two runs: a stored history is a conversation. *)
Definition store_ok (store : Store) : Prop :=
  match stored_history store with
  | None => True
  | Some h => conversation h
  end.

End Script.

Arguments mkStore {Session} _ _.
Arguments stored_history {Session} _.
Arguments stored_session {Session} _.
Arguments store_ok {Session} _.
Arguments store_of {Session} _.

(** ** Arguments that are not text *)

(** A value that Python takes for true and that is not a string: calling
    [lower] on it is an [AttributeError]. *)
Definition not_text (v : pyval) : bool := Py.truthy v && negb (is_str v).

(** A value that an [int] cannot be ordered against: text, a list or a
    dictionary. Numbers, also a [float] or a [bool], are ordered. *)
Definition unordered (v : pyval) : bool :=
  match v with
  | PyStr _ | PyList _ | PyDict _ => true
  | PyNone | PyInt _ | PyBool _ | PyFloat _ => false
  end.

(** ** Letter case and plain text, stated without [lower] *)

Module Letters.

Definition capitals : list ascii :=
  list_ascii_of_string "ABCDEFGHIJKLMNOPQRSTUVWXYZ".

Definition smalls : list ascii :=
  list_ascii_of_string "abcdefghijklmnopqrstuvwxyz".

(** The twenty-six capital letters, each with its small letter. *)
Definition case_pairs : list (ascii * ascii) := combine capitals smalls.

(** [c] and [d] are the same character, or one letter in its two cases. *)
Definition same_letter (c d : ascii) : Prop :=
  c = d \/ In (c, d) case_pairs \/ In (d, c) case_pairs.

(** Two texts that differ at most in the case of their letters. *)
Inductive same_text : string -> string -> Prop :=
  | same_text_empty : same_text "" ""
  | same_text_char (c d : ascii) (s t : string) :
      same_letter c d -> same_text s t -> same_text (String c s) (String d t).

(** [sub] occurs in [s] when the case of the letters is disregarded: a
    piece of [s] differs from [sub] at most in the case of its letters. *)
Definition occurs_in (sub s : string) : Prop :=
  exists pre mid post, s = pre ++ mid ++ post /\ same_text sub mid.

(** A text of ASCII characters only. On such text [str.lower] changes the
    capital letters A to Z and nothing else. *)
Definition is_ascii (s : string) : bool :=
  forallb (fun c => (N_of_ascii c <? 128)%N) (list_ascii_of_string s).

Definition same_letterb (c d : ascii) : bool :=
  Ascii.eqb c d
  || existsb (fun p => Ascii.eqb (fst p) c && Ascii.eqb (snd p) d) case_pairs
  || existsb (fun p => Ascii.eqb (fst p) d && Ascii.eqb (snd p) c) case_pairs.

(** A test that holds of both truth values, and one that holds of all 256
    characters. *)
Definition forall_bool (f : bool -> bool) : bool := f false && f true.

Definition forall_ascii (f : ascii -> bool) : bool :=
  forall_bool (fun b0 => forall_bool (fun b1 => forall_bool (fun b2 =>
  forall_bool (fun b3 => forall_bool (fun b4 => forall_bool (fun b5 =>
  forall_bool (fun b6 => forall_bool (fun b7 =>
    f (Ascii b0 b1 b2 b3 b4 b5 b6 b7))))))))).

End Letters.

(** The optional text arguments of a query are ASCII. *)
Definition ascii_option (o : option string) : bool :=
  match o with None => true | Some s => Letters.is_ascii s end.

Definition ascii_options (o : option (list string)) : bool :=
  match o with None => true | Some l => forallb Letters.is_ascii l end.

(** ** The conditions of the specification, stated without [lower] *)

Section CollegeCriteriaPlain.

Variable major : string.
Variables min_rank max_rank : option Z.
Variable location_preference : option string.
Variable academic_skills : option (list string).

(** A record passes if and only if: its major is the major asked for, the
    case of letters disregarded; and [min_rank] is absent or the rank is at
    least [min_rank]; and [max_rank] is absent or the rank is at most
    [max_rank]; and [location_preference] is absent or occurs in the
    location, the case of letters disregarded; and [academic_skills] is
    absent, or empty, or one supplied skill is one of the preferred skills,
    the case of letters disregarded. *)
Definition college_criteria (c : College) : Prop :=
  Letters.same_text (c_major c) major
  /\ (min_rank = None \/ exists m, min_rank = Some m /\ c_rank c >= m)
  /\ (max_rank = None \/ exists m, max_rank = Some m /\ c_rank c <= m)
  /\ (location_preference = None
      \/ exists l, location_preference = Some l
                   /\ Letters.occurs_in l (c_location c))
  /\ (academic_skills = None \/ academic_skills = Some []
      \/ exists skills skill preferred,
           academic_skills = Some skills
           /\ In skill skills /\ In preferred (c_skills_preferred c)
           /\ Letters.same_text skill preferred).

End CollegeCriteriaPlain.

(** The reserved word any, the case of letters disregarded. *)
Definition any_word (s : string) : Prop := Letters.same_text s "any".

Section ScholarshipCriteriaPlain.

Variables college_name major academic_profile : option string.
Variable skills : option (list string).

(** A record passes if and only if: [college_name] is absent, or the word
    any, or occurs in the college of the record; and the same for [major]
    and the major of the record; and [academic_profile] is absent or occurs
    in the criteria text; and [skills] is absent, or empty, or one supplied
    skill occurs in the criteria text; each time the case of letters
    disregarded. *)
Definition scholarship_criteria (s : Scholarship) : Prop :=
  (college_name = None
   \/ exists n, college_name = Some n
                /\ (any_word n \/ Letters.occurs_in n (s_college s)))
  /\ (major = None
      \/ exists m, major = Some m
                   /\ (any_word m \/ Letters.occurs_in m (s_major s)))
  /\ (academic_profile = None
      \/ exists p, academic_profile = Some p
                   /\ Letters.occurs_in p (s_criteria s))
  /\ (skills = None \/ skills = Some []
      \/ exists supplied skill,
           skills = Some supplied /\ In skill supplied
           /\ Letters.occurs_in skill (s_criteria s)).

End ScholarshipCriteriaPlain.

(** * Properties *)

(** ** Strings *)

Module StrFacts.

Import Str.

Lemma starts_with_spec p s :
  starts_with p s = true <-> exists post, s = p ++ post.
Proof.
  revert s. induction p as [|a p IH]; intros s; simpl.
  - split; [intros _; now exists s | reflexivity].
  - destruct s as [|b s]; simpl.
    + split; [discriminate | intros [post H]; discriminate].
    + rewrite andb_true_iff, Ascii.eqb_eq, IH. split.
      * intros [-> [post ->]]. now exists post.
      * intros [post H]. injection H as -> ->. split; [reflexivity | now exists post].
Qed.

Lemma contains_spec sub s :
  contains sub s = true <-> substring_of sub s.
Proof.
  unfold substring_of. induction s as [|b s IH].
  - simpl. rewrite orb_false_r, starts_with_spec. split.
    + intros [post H]. now exists "", post.
    + intros [pre [post H]]. destruct pre; [now exists post | discriminate].
  - cbn [contains]. rewrite orb_true_iff, starts_with_spec, IH. split.
    + intros [[post H] | [pre [post H]]].
      * now exists "", post.
      * exists (String b pre), post. simpl. now rewrite H.
    + intros [pre [post H]]. destruct pre as [|c pre].
      * left. now exists post.
      * right. simpl in H. injection H as _ H. now exists pre, post.
Qed.

Lemma mem_spec x l : mem x l = true <-> In x l.
Proof.
  induction l as [|y l IH]; simpl.
  - split; [discriminate | tauto].
  - rewrite orb_true_iff, String.eqb_eq, IH. split; intros [H | H]; auto.
Qed.

Lemma contains_empty s : contains "" s = true.
Proof. destruct s; reflexivity. Qed.

Lemma append_empty_r s : s ++ "" = s.
Proof.
  induction s as [|c s IH]; [reflexivity|].
  change (String c s ++ "") with (String c (s ++ "")). now rewrite IH.
Qed.

Lemma contains_refl s : contains s s = true.
Proof.
  apply contains_spec. exists "", "".
  change ("" ++ s ++ "") with (s ++ ""). now rewrite append_empty_r.
Qed.

Lemma contains_app pre sub post : contains sub (pre ++ sub ++ post) = true.
Proof. apply contains_spec. now exists pre, post. Qed.

End StrFacts.

(** ** Lists *)

Lemma filter_sublist {A : Type} (f : A -> bool) (l : list A) :
  sublist (List.filter f l) l.
Proof.
  induction l as [|x l IH]; cbn [List.filter].
  - constructor.
  - destruct (f x); now constructor.
Qed.

Lemma take_In {A : Type} (n : nat) (l : list A) (x : A) :
  In x (take n l) -> In x l.
Proof.
  revert n. induction l as [|y l IH]; intros [|n]; simpl; try tauto.
  intros [H | H]; [now left | right; eauto].
Qed.

(** ** Calls of [get_college_data] with arguments of the annotated types *)

Section CollegeQuery.

Variable major : string.
Variables min_rank max_rank : option Z.
Variable location_preference : option string.
Variable academic_skills : option (list string).

Local Abbreviation kept :=
  (college_kept major min_rank max_rank location_preference academic_skills).
Local Abbreviation passes_spec :=
  (college_passes_spec major min_rank max_rank location_preference academic_skills).

Lemma skill_match_typed (c : College) (skills : list string) :
  skill_match c (map PyStr skills) =
  Ok (existsb (fun s => Str.mem (Str.lower s)
                          (map Str.lower (c_skills_preferred c))) skills).
Proof.
  induction skills as [|s skills IH]; [reflexivity|].
  cbn [map skill_match existsb Py.lower bind].
  destruct (Str.mem _ _); [reflexivity | exact IH].
Qed.

Lemma college_passes_typed (c : College) :
  college_passes c (PyStr major) (of_int min_rank) (of_int max_rank)
    (of_str location_preference) (of_strs academic_skills)
  = Ok (kept c).
Proof.
  unfold college_passes, college_kept. cbn [Py.lower bind].
  destruct (String.eqb _ _); [|reflexivity]. cbn [negb andb].
  destruct min_rank as [mn|]; cbn [of_int Py.is_none negb Py.int_lt bind];
    [rewrite Z.leb_antisym; destruct (c_rank c <? mn); [reflexivity|] | ];
    cbn [negb andb];
    (destruct max_rank as [mx|]; cbn [of_int Py.is_none negb Py.int_gt bind];
     [rewrite Z.gtb_ltb, Z.leb_antisym; destruct (mx <? c_rank c); [reflexivity|] | ]);
    cbn [negb andb].
  all: destruct location_preference as [l|]; cbn [of_str Py.truthy Py.lower bind];
    [destruct (String.eqb_spec l "") as [->|_]; cbn [negb bind];
     [change (Str.lower "") with ""; rewrite StrFacts.contains_empty
     |destruct (Str.contains _ _); cbn [negb andb]; [|reflexivity]] |];
    cbn [andb];
    (destruct academic_skills as [[|s sk]|];
     cbn [of_strs map Py.truthy Py.iter bind]; [reflexivity| |reflexivity]);
    change (PyStr s :: map PyStr sk) with (map PyStr (s :: sk));
    rewrite skill_match_typed; reflexivity.
Qed.

Lemma skills_overlap_spec (preferred skills : list string) :
  existsb (fun s => Str.mem (Str.lower s) (map Str.lower preferred)) skills = true
  <-> exists skill p,
        In skill skills /\ In p preferred /\ Str.eq_nocase skill p.
Proof.
  unfold Str.eq_nocase. rewrite existsb_exists. split.
  - intros [skill [Hin Hmem]]. apply StrFacts.mem_spec, in_map_iff in Hmem.
    destruct Hmem as [p [Heq Hp]]. now exists skill, p.
  - intros [skill [p [Hin [Hp Heq]]]]. exists skill. split; [exact Hin|].
    apply StrFacts.mem_spec, in_map_iff. now exists p.
Qed.

Lemma college_kept_spec (c : College) :
  kept c = true <-> passes_spec c.
Proof.
  unfold college_kept, college_passes_spec, Str.substring_nocase.
  rewrite !andb_true_iff, String.eqb_eq.
  assert (Hmin : match min_rank with Some m => m <=? c_rank c | None => true end = true
                 <-> match min_rank with Some m => c_rank c >= m | None => True end)
    by (destruct min_rank; [rewrite Z.leb_le; lia | tauto]).
  assert (Hmax : match max_rank with Some m => c_rank c <=? m | None => true end = true
                 <-> match max_rank with Some m => c_rank c <= m | None => True end)
    by (destruct max_rank; [apply Z.leb_le | tauto]).
  assert (Hloc : match location_preference with
                 | Some l => Str.contains (Str.lower l) (Str.lower (c_location c))
                 | None => true end = true
                 <-> match location_preference with
                     | Some l => Str.substring_of (Str.lower l) (Str.lower (c_location c))
                     | None => True end)
    by (destruct location_preference; [apply StrFacts.contains_spec | tauto]).
  rewrite Hmin, Hmax, Hloc. unfold Str.eq_nocase at 1.
  destruct academic_skills as [[|s sk]|]; [tauto | | tauto].
  rewrite skills_overlap_spec. tauto.
Qed.

Lemma college_scan_typed (catalog results : list College) :
  college_scan catalog (PyStr major) (of_int min_rank) (of_int max_rank)
    (of_str location_preference) (of_strs academic_skills) results
  = Ok (results ++ List.filter kept catalog)%list.
Proof.
  revert results. induction catalog as [|c catalog IH]; intros results.
  - cbn [college_scan List.filter]. now rewrite app_nil_r.
  - cbn [college_scan List.filter]. rewrite college_passes_typed. cbn [bind].
    rewrite IH. destruct (kept c); [|reflexivity].
    now rewrite <- app_assoc.
Qed.

End CollegeQuery.


(** The examples of the specification: any one overlapping skill is enough,
    and the major is compared without regard to letter case. *)
Example skills_or_coding :
  college_passes (mkCollege "X" "Computer Science" 1 "Y" [] "" 30 ["coding"; "algorithms"])
    (PyStr "Computer Science") PyNone PyNone PyNone
    (PyList [PyStr "coding"; PyStr "painting"]) = Ok true.
Proof. reflexivity. Qed.

Example skills_or_painting :
  college_passes (mkCollege "X" "Fine Arts" 1 "Y" [] "" 30 ["painting"; "drawing"])
    (PyStr "Fine Arts") PyNone PyNone PyNone
    (PyList [PyStr "coding"; PyStr "painting"]) = Ok true.
Proof. reflexivity. Qed.

Example major_any_case :
  college_passes (mkCollege "X" "Computer Science" 1 "Y" [] "" 30 [])
    (PyStr "computer science") PyNone PyNone PyNone PyNone = Ok true.
Proof. reflexivity. Qed.

(** ** Calls of [search_scholarships] with arguments of the annotated types *)

Section ScholarshipQuery.

Variables college_name major academic_profile : option string.
Variable skills : option (list string).

Local Abbreviation kept :=
  (scholarship_kept college_name major academic_profile skills).
Local Abbreviation passes_spec :=
  (scholarship_passes_spec college_name major academic_profile skills).

Lemma skill_found_typed (s : Scholarship) (supplied : list string) :
  skill_found s (map PyStr supplied) =
  Ok (existsb (fun k => Str.contains (Str.lower k) (Str.lower (s_criteria s)))
        supplied).
Proof.
  induction supplied as [|k supplied IH]; [reflexivity|].
  cbn [map skill_found existsb Py.lower bind].
  destruct (Str.contains _ _); [reflexivity | exact IH].
Qed.

Lemma sentinel_test_typed (o : option string) (field : string) :
  (if Py.truthy (of_str o) then
     l <- Py.lower (of_str o);;
     if negb (String.eqb l "any") then
       l' <- Py.lower (of_str o);;
       Ok (negb (Str.contains l' (Str.lower field)))
     else Ok false
   else Ok false) = Ok (negb (name_ok o field)).
Proof.
  destruct o as [n|]; cbn [of_str Py.truthy Py.lower bind name_ok]; [|reflexivity].
  destruct (String.eqb_spec n "") as [->|_]; cbn [negb].
  - change (Str.lower "") with "". now rewrite StrFacts.contains_empty, orb_true_r.
  - destruct (String.eqb (Str.lower n) "any"); reflexivity.
Qed.

Lemma profile_test_typed (o : option string) (text : string) :
  (if Py.truthy (of_str o) then
     l <- Py.lower (of_str o);;
     Ok (negb (Str.contains l (Str.lower text)))
   else Ok false)
  = Ok (negb match o with
             | None => true
             | Some p => Str.contains (Str.lower p) (Str.lower text)
             end).
Proof.
  destruct o as [p|]; cbn [of_str Py.truthy Py.lower bind]; [|reflexivity].
  destruct (String.eqb_spec p "") as [->|_]; cbn [negb]; [|reflexivity].
  change (Str.lower "") with "". now rewrite StrFacts.contains_empty.
Qed.

Lemma scholarship_matches_typed (s : Scholarship) :
  scholarship_matches s (of_str college_name) (of_str major)
    (of_str academic_profile) (of_strs skills)
  = Ok (kept s).
Proof.
  unfold scholarship_matches, scholarship_kept.
  rewrite !sentinel_test_typed, profile_test_typed. cbn [bind].
  destruct skills as [[|k ks]|]; cbn [of_strs map Py.truthy Py.iter bind].
  2: change (PyStr k :: map PyStr ks) with (map PyStr (k :: ks));
     rewrite skill_found_typed; cbn [bind]; destruct (existsb _ _).
  all: destruct (name_ok college_name _), (name_ok major _);
    destruct academic_profile as [p|]; try destruct (Str.contains _ _);
    reflexivity.
Qed.

Lemma name_ok_spec (o : option string) (field : string) :
  name_ok o field = true <->
  match o with
  | None => True
  | Some n => is_any n \/ Str.substring_nocase n field
  end.
Proof.
  destruct o as [n|]; cbn [name_ok]; [|tauto].
  unfold is_any, Str.substring_nocase.
  now rewrite orb_true_iff, String.eqb_eq, StrFacts.contains_spec.
Qed.

Lemma skills_occur_spec (text : string) (supplied : list string) :
  existsb (fun k => Str.contains (Str.lower k) (Str.lower text)) supplied = true
  <-> exists skill, In skill supplied /\ Str.substring_nocase skill text.
Proof.
  unfold Str.substring_nocase. rewrite existsb_exists.
  split; intros [k [Hin H]]; exists k; split; auto; now apply StrFacts.contains_spec.
Qed.

Lemma scholarship_kept_spec (s : Scholarship) :
  kept s = true <-> passes_spec s.
Proof.
  unfold scholarship_kept, scholarship_passes_spec.
  rewrite !andb_true_iff, !name_ok_spec.
  assert (Hprof : match academic_profile with
                  | Some p => Str.contains (Str.lower p) (Str.lower (s_criteria s))
                  | None => true end = true
                  <-> match academic_profile with
                      | Some p => Str.substring_nocase p (s_criteria s)
                      | None => True end)
    by (destruct academic_profile; [apply StrFacts.contains_spec | tauto]).
  rewrite Hprof.
  destruct skills as [[|k ks]|]; [tauto | | tauto].
  rewrite skills_occur_spec. tauto.
Qed.

Lemma scholarship_scan_typed (catalog results : list Scholarship) :
  scholarship_scan catalog (of_str college_name) (of_str major)
    (of_str academic_profile) (of_strs skills) results
  = Ok (results ++ List.filter kept catalog)%list.
Proof.
  revert results. induction catalog as [|s catalog IH]; intros results.
  - cbn [scholarship_scan List.filter]. now rewrite app_nil_r.
  - cbn [scholarship_scan List.filter]. rewrite scholarship_matches_typed.
    cbn [bind]. rewrite IH. destruct (kept s); [|reflexivity].
    now rewrite <- app_assoc.
Qed.

Lemma search_scholarships_in_typed (catalog : list Scholarship) :
  search_scholarships_in catalog (of_str college_name) (of_str major)
    (of_str academic_profile) (of_strs skills)
  = Ok (match List.filter kept catalog with
        | [] => no_scholarships_message
        | results =>
            Json.dumps (Json.JArr (map scholarship_json (take 3 results)))
        end).
Proof.
  unfold search_scholarships_in. rewrite scholarship_scan_typed.
  cbn [bind app]. now destruct (List.filter _ _).
Qed.

End ScholarshipQuery.


(** The scenario of the specification: a search for Tech University returns
    its two scholarships, in catalog order. *)
Example tech_university_scholarships :
  scholarship_scan scholarships (PyStr "Tech University") PyNone PyNone PyNone []
  = Ok (take 2 scholarships).
Proof. reflexivity. Qed.

(** ** Sorting by rank *)

Lemma insert_by_rank_In (c x : College) (l : list College) :
  In x (insert_by_rank c l) <-> x = c \/ In x l.
Proof.
  induction l as [|d l IH]; cbn [insert_by_rank].
  - simpl. intuition.
  - destruct (c_rank c <=? c_rank d); simpl in *; intuition.
Qed.

Lemma insert_by_rank_sorted (c : College) (l : list College) :
  StronglySorted rank_le l -> StronglySorted rank_le (insert_by_rank c l).
Proof.
  induction 1 as [|d l Hs IH Hd]; cbn [insert_by_rank].
  - repeat constructor.
  - destruct (Z.leb_spec (c_rank c) (c_rank d)) as [Hle | Hgt].
    + constructor; [now constructor|]. constructor; [exact Hle|].
      rewrite List.Forall_forall in Hd. apply List.Forall_forall. intros x Hx.
      specialize (Hd x Hx). unfold rank_le in *. lia.
    + constructor; [exact IH|]. apply List.Forall_forall. intros x Hx.
      apply insert_by_rank_In in Hx. destruct Hx as [-> | Hx].
      * unfold rank_le. lia.
      * rewrite List.Forall_forall in Hd. now apply Hd.
Qed.

Lemma sort_by_rank_sorted (l : list College) :
  StronglySorted rank_le (sort_by_rank l).
Proof.
  induction l as [|c l IH]; cbn [sort_by_rank]; [constructor|].
  now apply insert_by_rank_sorted.
Qed.

Lemma insert_by_rank_perm (c : College) (l : list College) :
  Permutation (insert_by_rank c l) (c :: l).
Proof.
  induction l as [|d l IH]; cbn [insert_by_rank]; [reflexivity|].
  destruct (c_rank c <=? c_rank d); [reflexivity|].
  rewrite IH. apply perm_swap.
Qed.

Lemma sort_by_rank_perm (l : list College) : Permutation (sort_by_rank l) l.
Proof.
  induction l as [|c l IH]; cbn [sort_by_rank]; [reflexivity|].
  now rewrite insert_by_rank_perm, IH.
Qed.

(** The sort is stable: the records of any one rank keep their order. *)
Lemma insert_by_rank_stable (r : Z) (c : College) (l : list College) :
  List.filter (fun x => c_rank x =? r) (insert_by_rank c l)
  = List.filter (fun x => c_rank x =? r) (c :: l).
Proof.
  induction l as [|d l IH]; cbn [insert_by_rank]; [reflexivity|].
  destruct (Z.leb_spec (c_rank c) (c_rank d)) as [Hle | Hgt]; [reflexivity|].
  cbn [List.filter] in *. rewrite IH.
  destruct (Z.eqb_spec (c_rank c) r), (Z.eqb_spec (c_rank d) r); try reflexivity; lia.
Qed.

Lemma sort_by_rank_stable (r : Z) (l : list College) :
  List.filter (fun x => c_rank x =? r) (sort_by_rank l)
  = List.filter (fun x => c_rank x =? r) l.
Proof.
  induction l as [|c l IH]; cbn [sort_by_rank]; [reflexivity|].
  rewrite insert_by_rank_stable. cbn [List.filter]. now rewrite IH.
Qed.

Lemma take_sorted (n : nat) (l : list College) :
  StronglySorted rank_le l -> StronglySorted rank_le (take n l).
Proof.
  intros H. revert n. induction H as [|d l Hs IH Hd]; intros [|n]; simpl;
    try constructor.
  - apply IH.
  - apply List.Forall_forall. intros x Hx. apply take_In in Hx.
    rewrite List.Forall_forall in Hd. now apply Hd.
Qed.

Lemma take_length_le {A : Type} (n : nat) (l : list A) :
  (List.length (take n l) <= n)%nat.
Proof. rewrite length_take. lia. Qed.

(** ** The shape of an encoded value *)

Lemma dec_head (z : Z) :
  exists c rest, Json.dec z = String c rest /\ json_start c = true.
Proof.
  unfold Json.dec. destruct (Z.to_int z) as [d | d]; destruct d;
    eexists; eexists; (split; [reflexivity | reflexivity]).
Qed.

Lemma dumps_head (v : Json.json) :
  exists c rest, Json.dumps v = String c rest /\ json_start c = true.
Proof.
  destruct v as [|b|z|z|s|l|l]; cbn [Json.dumps].
  - now exists "n"%char, "ull".
  - destruct b; [now exists "t"%char, "rue" | now exists "f"%char, "alse"].
  - apply dec_head.
  - unfold Json.tenths. destruct (z <? 0).
    + eexists; eexists; split; reflexivity.
    + destruct (dec_head (Z.abs z / 10)) as [c [rest [E Hc]]]. rewrite E.
      eexists; eexists; split; [reflexivity | exact Hc].
  - eexists; eexists; split; reflexivity.
  - eexists; eexists; split; reflexivity.
  - eexists; eexists; split; reflexivity.
Qed.

(** Neither message is the encoding of a value. *)
Lemma message_not_json (msg rest : string) (c : ascii) (v : Json.json) :
  msg = String c rest -> json_start c = false -> Json.dumps v <> msg.
Proof.
  intros -> Hc E. destruct (dumps_head v) as [c' [rest' [E' Hc']]].
  rewrite E' in E. injection E as -> _. congruence.
Qed.

Lemma dumps_array_nonempty (v : Json.json) (l : list Json.json) :
  Json.dumps (Json.JArr (v :: l)) <> Json.dumps (Json.JArr []).
Proof.
  cbn [Json.dumps map]. destruct (dumps_head v) as [c [rest [E Hc]]].
  rewrite E. destruct l as [|w l]; cbn [map Json.join]; intros H;
    cbv [String.append] in H; inversion H; subst c; discriminate Hc.
Qed.

(** ** What the two search functions return *)

Lemma get_college_data_in_typed (catalog : list College) (major : string)
    (min_rank max_rank : option Z) (location_preference : option string)
    (academic_skills : option (list string)) (extra_curriculars : pyval) :
  get_college_data_in catalog (PyStr major) (of_int min_rank) (of_int max_rank)
    (of_str location_preference) (of_strs academic_skills) extra_curriculars
  = Ok (match List.filter (college_kept major min_rank max_rank
                             location_preference academic_skills) catalog with
        | [] => no_colleges_message
        | results =>
            Json.dumps (Json.JArr (map college_json (take 5 (sort_by_rank results))))
        end).
Proof.
  unfold get_college_data_in. rewrite college_scan_typed. cbn [bind app].
  now destruct (List.filter _ _).
Qed.

(** Over any catalog: when a record passes, the call returns the encoding of
    at most five passing records in ascending order of rank. *)
Lemma get_college_data_in_sorted_capped (catalog : list College) (major : string)
    (min_rank max_rank : option Z) (location_preference : option string)
    (academic_skills : option (list string)) (extra_curriculars : pyval) :
  (exists c, In c catalog /\
     college_passes_spec major min_rank max_rank location_preference
       academic_skills c) ->
  exists top,
    get_college_data_in catalog (PyStr major) (of_int min_rank) (of_int max_rank)
      (of_str location_preference) (of_strs academic_skills) extra_curriculars
    = Ok (Json.dumps (Json.JArr (map college_json top)))
    /\ StronglySorted rank_le top
    /\ (List.length top <= 5)%nat
    /\ top <> []
    /\ forall c, In c top ->
         In c catalog /\
         college_passes_spec major min_rank max_rank location_preference
           academic_skills c.
Proof.
  intros [c [Hin Hc]].
  set (keep := college_kept major min_rank max_rank location_preference
                 academic_skills).
  assert (Hres : In c (List.filter keep catalog))
    by (apply filter_In; split; [exact Hin | now apply college_kept_spec]).
  exists (take 5 (sort_by_rank (List.filter keep catalog))).
  rewrite get_college_data_in_typed. fold keep.
  split; [destruct (List.filter keep catalog); [destruct Hres | reflexivity]|].
  split; [apply take_sorted, sort_by_rank_sorted|].
  split; [apply take_length_le|].
  split.
  - intros Htop.
    assert (Hsort : sort_by_rank (List.filter keep catalog) = []).
    { destruct (sort_by_rank (List.filter keep catalog)); [reflexivity | discriminate]. }
    pose proof (sort_by_rank_perm (List.filter keep catalog)) as Hp.
    rewrite Hsort in Hp. apply Permutation_nil in Hp. rewrite Hp in Hres.
    destruct Hres.
  - intros d Hd. apply take_In in Hd.
    apply (Permutation_in _ (sort_by_rank_perm _)) in Hd.
    apply filter_In in Hd. destruct Hd as [Hd Hk].
    split; [exact Hd | now apply college_kept_spec].
Qed.

(** C3. When at least one record of the catalog satisfies the criteria,
    [get_college_data] returns the encoding of a list that is in ascending
    order of rank, has at most five entries, and holds only passing records. *)
Theorem college_results_sorted_capped (major : string)
    (min_rank max_rank : option Z) (location_preference : option string)
    (academic_skills : option (list string)) (extra_curriculars : pyval) :
  (exists c, In c colleges /\
     college_passes_spec major min_rank max_rank location_preference
       academic_skills c) ->
  exists top,
    get_college_data (PyStr major) (of_int min_rank) (of_int max_rank)
      (of_str location_preference) (of_strs academic_skills) extra_curriculars
    = Ok (Json.dumps (Json.JArr (map college_json top)))
    /\ StronglySorted rank_le top
    /\ (List.length top <= 5)%nat
    /\ top <> []
    /\ forall c, In c top ->
         In c colleges /\
         college_passes_spec major min_rank max_rank location_preference
           academic_skills c.
Proof. apply get_college_data_in_sorted_capped. Qed.

Lemma college_results_sorted_capped_witness :
  (exists c, In c colleges /\
     college_passes_spec "computer science" None (Some 5) None None c)
  /\ exists top,
    get_college_data (PyStr "computer science") (of_int None) (of_int (Some 5))
      (of_str None) (of_strs None) PyNone
    = Ok (Json.dumps (Json.JArr (map college_json top)))
    /\ StronglySorted rank_le top
    /\ (List.length top <= 5)%nat
    /\ top <> []
    /\ forall c, In c top ->
         In c colleges /\
         college_passes_spec "computer science" None (Some 5) None None c.
Proof.
  assert (H : exists c, In c colleges /\
            college_passes_spec "computer science" None (Some 5) None None c).
  { exists tech_university. split.
    - simpl. tauto.
    - unfold college_passes_spec, Str.eq_nocase. simpl. repeat split. lia. }
  split; [exact H|].
  apply (college_results_sorted_capped "computer science" None (Some 5) None None
           PyNone H).
Defined.

(** The scenario of the specification: Computer Science up to rank 5. *)
Example computer_science_top5 :
  exists rest,
    college_scan colleges (PyStr "Computer Science") PyNone (PyInt 5) PyNone PyNone []
    = Ok rest
    /\ map c_name (take 5 (sort_by_rank rest))
       = ["Indian Institute of Technology Bombay"; "Elite Tech Institute";
          "Tech University"].
Proof. eexists. split; reflexivity. Qed.

(** Six records pass in [six_colleges]; the five of best rank are kept, the
    two of rank 3 in catalog order. *)
Example six_pass_five_returned :
  exists rest,
    college_scan six_colleges (PyStr "history") PyNone PyNone PyNone PyNone [] = Ok rest
    /\ List.length rest = 6%nat
    /\ map c_name (take 5 (sort_by_rank rest)) = ["E"; "B"; "D"; "C"; "F"].
Proof. eexists. repeat split; reflexivity. Qed.

Lemma Ok_inj {A : Type} (a b : A) : Ok a = Ok b -> a = b.
Proof. intros H. now inversion H. Qed.

Lemma top5_nonempty (c : College) (l : list College) :
  exists d top, take 5 (sort_by_rank (c :: l)) = d :: top.
Proof.
  cbn [sort_by_rank]. destruct (sort_by_rank l) as [|e l']; cbn [insert_by_rank].
  - now eexists; eexists.
  - destruct (c_rank c <=? c_rank e); now eexists; eexists.
Qed.

(** ** Results come from the catalog *)

(** Whatever the arguments are, a scan that ends without an exception has
    collected records of the catalog only. *)
Lemma college_scan_sound (catalog : list College)
    (major min_rank max_rank location_preference academic_skills : pyval)
    (acc results : list College) :
  college_scan catalog major min_rank max_rank location_preference
    academic_skills acc = Ok results ->
  forall c, In c results -> In c acc \/ In c catalog.
Proof.
  revert acc. induction catalog as [|d catalog IH]; intros acc H c Hc.
  - cbn [college_scan] in H. apply Ok_inj in H. subst. now left.
  - cbn [college_scan] in H.
    destruct (college_passes d major min_rank max_rank location_preference
                academic_skills) as [keep|e]; [|discriminate].
    cbn [bind] in H. destruct (IH _ H c Hc) as [Hacc | Hcat].
    + destruct keep; [|now left]. apply in_app_or in Hacc.
      destruct Hacc as [Hacc | [-> | []]]; [now left | right; now left].
    + right. now right.
Qed.

Lemma scholarship_scan_sound (catalog : list Scholarship)
    (college_name major academic_profile skills : pyval)
    (acc results : list Scholarship) :
  scholarship_scan catalog college_name major academic_profile skills acc
    = Ok results ->
  forall s, In s results -> In s acc \/ In s catalog.
Proof.
  revert acc. induction catalog as [|d catalog IH]; intros acc H s Hs.
  - cbn [scholarship_scan] in H. apply Ok_inj in H. subst. now left.
  - cbn [scholarship_scan] in H.
    destruct (scholarship_matches d college_name major academic_profile skills)
      as [keep|e]; [|discriminate].
    cbn [bind] in H. destruct (IH _ H s Hs) as [Hacc | Hcat].
    + destruct keep; [|now left]. apply in_app_or in Hacc.
      destruct Hacc as [Hacc | [-> | []]]; [now left | right; now left].
    + right. now right.
Qed.

(** ** Letter case: [lower] against the alphabet *)

(** ** Reading back the text that [dumps] writes *)

Module JsonFacts.
Import Json.

Lemma sapp_cons (c : ascii) (s t : string) : String c s ++ t = String c (s ++ t).
Proof. reflexivity. Qed.

Lemma sapp_empty (s : string) : "" ++ s = s.
Proof. reflexivity. Qed.

Lemma sapp_assoc (a b c : string) : (a ++ b) ++ c = a ++ (b ++ c).
Proof.
  induction a as [|x a IH]; [reflexivity|].
  rewrite !sapp_cons. now rewrite IH.
Qed.

Lemma sapp_length (a b : string) :
  String.length (a ++ b) = (String.length a + String.length b)%nat.
Proof.
  induction a as [|x a IH]; [reflexivity|].
  rewrite sapp_cons. cbn [String.length]. now rewrite IH.
Qed.

Lemma strip_app (p s : string) : strip p (p ++ s) = Some s.
Proof.
  induction p as [|a p IH]; [reflexivity|].
  rewrite sapp_cons. cbn [strip]. now rewrite Ascii.eqb_refl.
Qed.

(** *** Numbers *)

Lemma delimited_no_digit (s : string) : delimited s = true -> no_digit s.
Proof.
  destruct s as [|c s]; [easy|]. cbn [delimited no_digit].
  now destruct (digit_of c).
Qed.

Lemma delimited_no_point (s : string) : delimited s = true -> strip "." s = None.
Proof.
  destruct s as [|c s]; [reflexivity|]. cbn [delimited strip].
  destruct (digit_of c); [discriminate|]. intros H.
  rewrite Ascii.eqb_sym. now destruct (Ascii.eqb c ".").
Qed.

Lemma read_uint_no_digit (s : string) :
  no_digit s -> read_uint s = (Decimal.Nil, s).
Proof.
  destruct s as [|c s]; [reflexivity|]. cbn [no_digit read_uint].
  now intros ->.
Qed.

Lemma read_uint_digits (u : Decimal.uint) (rest : string) :
  no_digit rest ->
  read_uint (NilEmpty.string_of_uint u ++ rest) = (u, rest).
Proof.
  intros Hrest.
  induction u as [|u IH|u IH|u IH|u IH|u IH|u IH|u IH|u IH|u IH|u IH];
    cbn [NilEmpty.string_of_uint];
    [rewrite sapp_empty; now apply read_uint_no_digit|..];
    rewrite sapp_cons; cbn [read_uint];
    change (digit_of _) with (Some Decimal.D0) ||
    change (digit_of _) with (Some Decimal.D1) ||
    change (digit_of _) with (Some Decimal.D2) ||
    change (digit_of _) with (Some Decimal.D3) ||
    change (digit_of _) with (Some Decimal.D4) ||
    change (digit_of _) with (Some Decimal.D5) ||
    change (digit_of _) with (Some Decimal.D6) ||
    change (digit_of _) with (Some Decimal.D7) ||
    change (digit_of _) with (Some Decimal.D8) ||
    change (digit_of _) with (Some Decimal.D9);
    cbv beta iota; now rewrite IH.
Qed.

Lemma digits_no_minus (u : Decimal.uint) (rest : string) :
  u <> Decimal.Nil ->
  strip "-" (NilEmpty.string_of_uint u ++ rest) = None.
Proof. intros Hu. destruct u; [now destruct Hu|..]; reflexivity. Qed.

(** The digits of a number that is not negative. *)
Lemma dec_digits (w : Z) :
  0 <= w ->
  exists u, u <> Decimal.Nil /\ dec w = NilEmpty.string_of_uint u
            /\ Z.of_uint u = w.
Proof.
  intros Hw. destruct w as [|p|p]; [| |lia].
  - exists (Decimal.D0 Decimal.Nil). now repeat split.
  - exists (Pos.to_uint p). split; [apply DecimalPos.Unsigned.to_uint_nonnil|].
    split.
    + unfold dec. cbn [Z.to_int NilZero.string_of_int].
      unfold NilZero.string_of_uint.
      pose proof (DecimalPos.Unsigned.to_uint_nonnil p) as Hn.
      now destruct (Pos.to_uint p).
    + exact (DecimalZ.of_to (Z.pos p)).
Qed.

Lemma dec_digit (k : Z) :
  0 <= k < 10 ->
  exists c d, dec k = String c "" /\ digit_of c = Some d
              /\ Z.of_uint (d Decimal.Nil) = k.
Proof.
  intros Hk.
  assert (E : k = 0 \/ k = 1 \/ k = 2 \/ k = 3 \/ k = 4 \/ k = 5 \/ k = 6
              \/ k = 7 \/ k = 8 \/ k = 9) by lia.
  repeat destruct E as [->|E]; try subst k;
    eexists; eexists; (split; [reflexivity|]); split; reflexivity.
Qed.

Lemma read_number_digits (negative : bool) (u : Decimal.uint) (rest : string) :
  u <> Decimal.Nil -> delimited rest = true ->
  read_number ((if negative then "-" else "") ++ NilEmpty.string_of_uint u ++ rest)
  = Some (JInt (if negative then - Z.of_uint u else Z.of_uint u), rest).
Proof.
  intros Hu Hrest. unfold read_number.
  destruct negative.
  - rewrite strip_app, read_uint_digits by now apply delimited_no_digit.
    rewrite delimited_no_point by assumption. now destruct u.
  - rewrite sapp_empty, digits_no_minus by assumption.
    rewrite read_uint_digits by now apply delimited_no_digit.
    rewrite delimited_no_point by assumption. now destruct u.
Qed.

Lemma read_number_tenths (negative : bool) (u : Decimal.uint) (c : ascii)
    (d : Decimal.uint -> Decimal.uint) (rest : string) :
  u <> Decimal.Nil -> digit_of c = Some d ->
  read_number ((if negative then "-" else "") ++ NilEmpty.string_of_uint u
               ++ "." ++ String c "" ++ rest)
  = Some (JTenths (if negative
                   then - (10 * Z.of_uint u + Z.of_uint (d Decimal.Nil))
                   else 10 * Z.of_uint u + Z.of_uint (d Decimal.Nil)), rest).
Proof.
  intros Hu Hc. unfold read_number.
  destruct negative.
  - rewrite strip_app, read_uint_digits by exact eq_refl.
    rewrite strip_app, sapp_cons, sapp_empty, Hc. now destruct u.
  - rewrite sapp_empty, digits_no_minus by assumption.
    rewrite read_uint_digits by exact eq_refl.
    rewrite strip_app, sapp_cons, sapp_empty, Hc. now destruct u.
Qed.

Lemma read_number_int (z : Z) (rest : string) :
  delimited rest = true ->
  read_number (dec z ++ rest) = Some (JInt z, rest).
Proof.
  intros Hrest. destruct z as [|p|p].
  - destruct (dec_digits 0) as (u & Hu & E & Hv); [lia|].
    rewrite E, <- (sapp_empty (_ ++ rest)).
    rewrite (read_number_digits false u rest Hu Hrest). now rewrite Hv.
  - destruct (dec_digits (Z.pos p)) as (u & Hu & E & Hv); [lia|].
    rewrite E, <- (sapp_empty (_ ++ rest)).
    rewrite (read_number_digits false u rest Hu Hrest). now rewrite Hv.
  - destruct (dec_digits (Z.pos p)) as (u & Hu & E & Hv); [lia|].
    change (dec (Z.neg p)) with ("-" ++ dec (Z.pos p)).
    rewrite E, sapp_assoc.
    rewrite (read_number_digits true u rest Hu Hrest). now rewrite Hv.
Qed.

Lemma read_number_float (z : Z) (rest : string) :
  read_number (tenths z ++ rest) = Some (JTenths z, rest).
Proof.
  unfold tenths.
  destruct (dec_digits (Z.abs z / 10)) as (u & Hu & E & Hv).
  { apply Z.div_pos; lia. }
  destruct (dec_digit (Z.abs z mod 10)) as (c & d & Ec & Hc & Hk).
  { apply Z.mod_pos_bound. lia. }
  rewrite E, Ec, !sapp_assoc.
  pose proof (Z.div_mod (Z.abs z) 10 ltac:(lia)) as Hdm.
  destruct (Z.ltb_spec z 0) as [Hz|Hz].
  - rewrite (read_number_tenths true u c d rest Hu Hc). do 3 f_equal. lia.
  - rewrite (read_number_tenths false u c d rest Hu Hc). do 3 f_equal. lia.
Qed.

(** *** String literals *)

Lemma read_piece_escape (c : ascii) (s : string) :
  read_piece (escape c ++ s) = Char c s.
Proof.
  destruct c as [[] [] [] [] [] [] [] []]; reflexivity.
Qed.

Lemma read_text_escape_all (t : string) (fuel : nat) (rest : string) :
  (String.length t < fuel)%nat ->
  read_text fuel (escape_all t ++ String quote_char rest) = Some (t, rest).
Proof.
  revert fuel. induction t as [|c t IH]; intros fuel Hfuel.
  - destruct fuel as [|fuel]; [inversion Hfuel|]. reflexivity.
  - destruct fuel as [|fuel]; [inversion Hfuel|].
    cbn [escape_all]. rewrite sapp_assoc. cbn [read_text].
    rewrite read_piece_escape, IH; [reflexivity|].
    cbn [String.length] in Hfuel. lia.
Qed.

Lemma escape_length (c : ascii) : (1 <= String.length (escape c))%nat.
Proof.
  destruct c as [[] [] [] [] [] [] [] []]; vm_compute; repeat constructor.
Qed.

Lemma escape_all_length (t : string) :
  (String.length t <= String.length (escape_all t))%nat.
Proof.
  induction t as [|c t IH]; [reflexivity|].
  cbn [escape_all String.length]. rewrite sapp_length.
  pose proof (escape_length c). lia.
Qed.

(** *** The shape of [read_value] on each kind of text *)

Lemma read_value_number (fuel : nat) (s : string) (r : json * string) :
  read_number s = Some r -> read_value (S fuel) s = Some r.
Proof. intros H. cbn [read_value]. now rewrite H. Qed.

Lemma read_value_text (fuel : nat) (s : string) :
  read_value (S fuel) (String quote_char s)
  = match read_text fuel s with
    | Some (t, rest) => Some (JStr t, rest)
    | None => None
    end.
Proof. reflexivity. Qed.

Lemma read_value_array (fuel : nat) (s : string) :
  read_value (S fuel) (String "[" s)
  = match read_items fuel true s with
    | Some (l, rest) => Some (JArr l, rest)
    | None => None
    end.
Proof. reflexivity. Qed.

Lemma read_value_object (fuel : nat) (s : string) :
  read_value (S fuel) (String "{" s)
  = match read_members fuel true s with
    | Some (l, rest) => Some (JObj l, rest)
    | None => None
    end.
Proof. reflexivity. Qed.

Lemma read_value_closing (fuel : nat) (s : string) :
  read_value fuel (String "]" s) = None.
Proof. destruct fuel; reflexivity. Qed.

Lemma read_items_step (fuel : nat) (first : bool) (s : string) :
  read_items (S fuel) first s
  = match read_value fuel s with
    | Some (v, s1) =>
        match strip ", " s1 with
        | Some s2 =>
            match read_items fuel false s2 with
            | Some (l, rest) => Some (v :: l, rest)
            | None => None
            end
        | None =>
            match strip "]" s1 with
            | Some rest => Some ([v], rest)
            | None => None
            end
        end
    | None =>
        if first then
          match strip "]" s with
          | Some rest => Some ([], rest)
          | None => None
          end
        else None
    end.
Proof. reflexivity. Qed.

Lemma read_members_end (fuel : nat) (s : string) :
  read_members (S fuel) true (String "}" s) = Some ([], s).
Proof. reflexivity. Qed.

Lemma read_members_step (fuel : nat) (first : bool) (s : string) :
  read_members (S fuel) first (String quote_char s)
  = match read_text fuel s with
    | Some (k, s1) =>
        match strip ": " s1 with
        | Some s2 =>
            match read_value fuel s2 with
            | Some (v, s3) =>
                match strip ", " s3 with
                | Some s4 =>
                    match read_members fuel false s4 with
                    | Some (l, rest) => Some ((k, v) :: l, rest)
                    | None => None
                    end
                | None =>
                    match strip "}" s3 with
                    | Some rest => Some ([(k, v)], rest)
                    | None => None
                    end
                end
            | None => None
            end
        | None => None
        end
    | None => None
    end.
Proof. reflexivity. Qed.

(** *** Induction on values, with the items of arrays and objects *)

Lemma json_induction (P : json -> Prop) :
  P JNull -> (forall b, P (JBool b)) -> (forall z, P (JInt z)) ->
  (forall z, P (JTenths z)) -> (forall s, P (JStr s)) ->
  (forall l, List.Forall P l -> P (JArr l)) ->
  (forall l, List.Forall (fun kv => P (snd kv)) l -> P (JObj l)) ->
  forall v, P v.
Proof.
  intros HNull HBool HInt HTenths HStr HArr HObj.
  fix IH 1. intros [ |b|z|z|s|l|l].
  - exact HNull.
  - apply HBool.
  - apply HInt.
  - apply HTenths.
  - apply HStr.
  - apply HArr. induction l as [|x l IHl]; constructor; [apply IH|exact IHl].
  - apply HObj. induction l as [|[k x] l IHl]; constructor; [apply IH|exact IHl].
Qed.

Lemma read_items_join (l : list json) :
  List.Forall reads_back l ->
  forall fuel first rest,
    (need_items l <= fuel)%nat -> first = true \/ l <> [] ->
    read_items fuel first (join ", " (map dumps l) ++ "]" ++ rest)
    = Some (l, rest).
Proof.
  induction 1 as [|x l Hx Hl IH]; intros fuel first rest Hfuel Hfirst.
  - destruct Hfirst as [->|Hne]; [|now destruct Hne].
    destruct fuel as [|fuel]; [inversion Hfuel|].
    rewrite read_items_step. cbn [map join]. rewrite sapp_empty, sapp_cons.
    rewrite read_value_closing. cbn [strip]. now rewrite Ascii.eqb_refl.
  - destruct fuel as [|fuel]; [inversion Hfuel|].
    change (need_items (x :: l)) with (S (Nat.max (need x) (need_items l)))
      in Hfuel.
    rewrite read_items_step. destruct l as [|y l].
    + cbn [map join]. rewrite Hx by (reflexivity || lia).
      rewrite sapp_cons. reflexivity.
    + change (join ", " (map dumps (x :: y :: l)))
        with (dumps x ++ ", " ++ join ", " (map dumps (y :: l))).
      rewrite !sapp_assoc. rewrite Hx by (reflexivity || lia).
      rewrite strip_app, IH; [reflexivity|lia|now right].
Qed.

Lemma read_members_join (l : list (string * json)) :
  List.Forall (fun kv => reads_back (snd kv)) l ->
  forall fuel first rest,
    (need_members l <= fuel)%nat -> first = true \/ l <> [] ->
    read_members fuel first (join ", " (map member l) ++ "}" ++ rest)
    = Some (l, rest).
Proof.
  induction 1 as [|[k x] l Hx Hl IH]; intros fuel first rest Hfuel Hfirst.
  - destruct Hfirst as [->|Hne]; [|now destruct Hne].
    destruct fuel as [|fuel]; [inversion Hfuel|].
    cbn [map join]. rewrite sapp_empty, sapp_cons. apply read_members_end.
  - destruct fuel as [|fuel]; [inversion Hfuel|].
    change (need_members ((k, x) :: l))
      with (S (Nat.max (S (String.length k))
                       (Nat.max (need x) (need_members l)))) in Hfuel.
    cbn [snd] in Hx.
    assert (Hk : forall tail,
               member (k, x) ++ tail
               = String quote_char
                   (escape_all k ++ String quote_char (": " ++ dumps x ++ tail))).
    { intros tail. unfold member, quote. cbn [fst snd].
      repeat (rewrite sapp_cons || rewrite sapp_assoc || rewrite sapp_empty).
      reflexivity. }
    destruct l as [|y l].
    + cbn [map join]. rewrite Hk, read_members_step.
      rewrite read_text_escape_all by lia. rewrite strip_app.
      rewrite Hx by (reflexivity || lia). rewrite sapp_cons. reflexivity.
    + change (join ", " (map member ((k, x) :: y :: l)))
        with (member (k, x) ++ ", " ++ join ", " (map member (y :: l))).
      rewrite sapp_assoc, Hk, read_members_step.
      rewrite read_text_escape_all by lia. rewrite strip_app.
      rewrite !sapp_assoc.
      rewrite Hx by (reflexivity || lia).
      rewrite strip_app, IH; [reflexivity|lia|now right].
Qed.

Lemma read_value_dumps (v : json) : reads_back v.
Proof.
  induction v as [ |b|z|z|s|l IH|l IH] using json_induction;
    intros fuel rest Hfuel Hrest;
    (destruct fuel as [|fuel]; [inversion Hfuel|]).
  - reflexivity.
  - destruct b; reflexivity.
  - apply read_value_number. now apply read_number_int.
  - apply read_value_number. apply read_number_float.
  - change (dumps (JStr s)) with (quote s). unfold quote.
    repeat (rewrite sapp_cons || rewrite sapp_assoc || rewrite sapp_empty).
    rewrite read_value_text, read_text_escape_all; [reflexivity|].
    cbn [need] in Hfuel. lia.
  - change (dumps (JArr l)) with ("[" ++ join ", " (map dumps l) ++ "]").
    rewrite !sapp_assoc.
    change (read_value (S fuel)
              (String "[" (join ", " (map dumps l) ++ "]" ++ rest))
            = Some (JArr l, rest)).
    rewrite read_value_array.
    rewrite (read_items_join l IH fuel true rest); [reflexivity| |now left].
    change (need (JArr l)) with (S (need_items l)) in Hfuel. lia.
  - change (dumps (JObj l)) with ("{" ++ join ", " (map member l) ++ "}").
    rewrite !sapp_assoc.
    change (read_value (S fuel)
              (String "{" (join ", " (map member l) ++ "}" ++ rest))
            = Some (JObj l, rest)).
    rewrite read_value_object.
    rewrite (read_members_join l IH fuel true rest); [reflexivity| |now left].
    change (need (JObj l)) with (S (need_members l)) in Hfuel. lia.
Qed.

Lemma sapp_empty_r (s : string) : s ++ "" = s.
Proof. induction s as [|c s IH]; [reflexivity|]. now rewrite sapp_cons, IH. Qed.

Lemma need_items_length (l : list json) :
  List.Forall (fun x => (need x <= S (String.length (dumps x)))%nat) l ->
  (need_items l <= String.length (join ", " (map dumps l)) + 2)%nat.
Proof.
  induction 1 as [|x l Hx Hl IH]; [cbn; lia|].
  change (need_items (x :: l)) with (S (Nat.max (need x) (need_items l))).
  destruct l as [|y l].
  - cbn [map join]. change (need_items []) with 1%nat. lia.
  - change (join ", " (map dumps (x :: y :: l)))
      with (dumps x ++ ", " ++ join ", " (map dumps (y :: l))).
    rewrite !sapp_length. change (String.length ", ") with 2%nat. lia.
Qed.

Lemma need_members_length (l : list (string * json)) :
  List.Forall (fun kv => (need (snd kv) <= S (String.length (dumps (snd kv))))%nat) l ->
  (need_members l <= String.length (join ", " (map member l)) + 2)%nat.
Proof.
  assert (Hm : forall k x,
             String.length (member (k, x))
             = (String.length (escape_all k) + 4 + String.length (dumps x))%nat).
  { intros k x. unfold member, quote. cbn [fst snd].
    rewrite sapp_cons. cbn [String.length]. rewrite !sapp_length.
    cbn [String.length]. lia. }
  induction 1 as [|[k x] l Hx Hl IH]; [cbn; lia|].
  change (need_members ((k, x) :: l))
    with (S (Nat.max (S (String.length k))
                     (Nat.max (need x) (need_members l)))).
  cbn [snd] in Hx. pose proof (escape_all_length k) as Hk.
  destruct l as [|y l].
  - cbn [map join]. rewrite Hm. change (need_members []) with 1%nat. lia.
  - change (join ", " (map member ((k, x) :: y :: l)))
      with (member (k, x) ++ ", " ++ join ", " (map member (y :: l))).
    rewrite !sapp_length, Hm. change (String.length ", ") with 2%nat. lia.
Qed.

Lemma need_length (v : json) : (need v <= S (String.length (dumps v)))%nat.
Proof.
  induction v as [ |b|z|z|s|l IH|l IH] using json_induction;
    try (cbn [need]; lia).
  - change (dumps (JStr s)) with (quote s). unfold quote.
    cbn [need String.length]. rewrite sapp_length. cbn [String.length].
    pose proof (escape_all_length s). lia.
  - change (need (JArr l)) with (S (need_items l)).
    change (dumps (JArr l)) with ("[" ++ join ", " (map dumps l) ++ "]").
    rewrite !sapp_length. pose proof (need_items_length l IH).
    change (String.length "[") with 1%nat. change (String.length "]") with 1%nat.
    lia.
  - change (need (JObj l)) with (S (need_members l)).
    change (dumps (JObj l)) with ("{" ++ join ", " (map member l) ++ "}").
    rewrite !sapp_length. pose proof (need_members_length l IH).
    change (String.length "{") with 1%nat. change (String.length "}") with 1%nat.
    lia.
Qed.

(** The reader is a left inverse of [dumps]: the text written for a value
    spells that value and no other. *)
Lemma loads_dumps (v : json) : loads (dumps v) = Some v.
Proof.
  unfold loads.
  pose proof (read_value_dumps v (S (String.length (dumps v))) ""
                (need_length v) eq_refl) as H.
  rewrite sapp_empty_r in H. now rewrite H.
Qed.

Lemma dumps_inj (v w : json) : dumps v = dumps w -> v = w.
Proof.
  intros E. pose proof (loads_dumps v) as Hv. rewrite E, loads_dumps in Hv.
  now inversion Hv.
Qed.

End JsonFacts.

Module LettersFacts.

Import Letters.

Lemma forall_bool_spec (f : bool -> bool) :
  forall_bool f = true -> forall b, f b = true.
Proof.
  unfold forall_bool. intros H b. apply andb_true_iff in H.
  destruct b; tauto.
Qed.

Lemma forall_ascii_spec (f : ascii -> bool) :
  forall_ascii f = true -> forall c, f c = true.
Proof.
  unfold forall_ascii. intros H [b0 b1 b2 b3 b4 b5 b6 b7].
  pose proof (forall_bool_spec _ H b0) as H0. cbv beta in H0.
  pose proof (forall_bool_spec _ H0 b1) as H1. cbv beta in H1.
  pose proof (forall_bool_spec _ H1 b2) as H2. cbv beta in H2.
  pose proof (forall_bool_spec _ H2 b3) as H3. cbv beta in H3.
  pose proof (forall_bool_spec _ H3 b4) as H4. cbv beta in H4.
  pose proof (forall_bool_spec _ H4 b5) as H5. cbv beta in H5.
  pose proof (forall_bool_spec _ H5 b6) as H6. cbv beta in H6.
  exact (forall_bool_spec _ H6 b7).
Qed.

(** Checked on all pairs of characters: two characters have the same
    [lower] exactly when they are the same letter of the alphabet. *)
Lemma lower_ascii_same_letterb (c d : ascii) :
  Ascii.eqb (Str.lower_ascii c) (Str.lower_ascii d) = same_letterb c d.
Proof.
  apply Bool.eqb_prop. revert d. apply forall_ascii_spec. revert c.
  apply forall_ascii_spec. vm_compute. reflexivity.
Qed.

Lemma same_letterb_spec (c d : ascii) :
  same_letterb c d = true <-> same_letter c d.
Proof.
  unfold same_letterb, same_letter.
  rewrite !orb_true_iff, Ascii.eqb_eq, !existsb_exists.
  assert (P : forall x y,
             (exists p : ascii * ascii,
                In p case_pairs /\ Ascii.eqb (fst p) x && Ascii.eqb (snd p) y = true)
             <-> In (x, y) case_pairs).
  { intros x y. split.
    - intros [[u l] [Hin H]]. cbn [fst snd] in H. apply andb_true_iff in H.
      destruct H as [Hu Hl]. apply Ascii.eqb_eq in Hu, Hl. now subst.
    - intros Hin. exists (x, y). split; [exact Hin|]. cbn [fst snd].
      now rewrite !Ascii.eqb_refl. }
  rewrite !P. tauto.
Qed.

Lemma same_letter_lower (c d : ascii) :
  same_letter c d <-> Str.lower_ascii c = Str.lower_ascii d.
Proof.
  now rewrite <- same_letterb_spec, <- lower_ascii_same_letterb, Ascii.eqb_eq.
Qed.

Lemma same_text_lower (a b : string) :
  same_text a b <-> Str.eq_nocase a b.
Proof.
  unfold Str.eq_nocase. split.
  - induction 1 as [|c d s t Hcd Hst IH]; [reflexivity|].
    cbn [Str.lower]. apply same_letter_lower in Hcd. now rewrite Hcd, IH.
  - revert b. induction a as [|c a IH]; intros [|d b] H; try discriminate.
    + constructor.
    + cbn [Str.lower] in H. injection H as Hc Hs.
      constructor; [now apply same_letter_lower | now apply IH].
Qed.

Lemma lower_append (a b : string) :
  Str.lower (a ++ b) = Str.lower a ++ Str.lower b.
Proof.
  induction a as [|c a IH]; [reflexivity|].
  change (String c a ++ b) with (String c (a ++ b)). cbn [Str.lower].
  rewrite IH. reflexivity.
Qed.

Lemma lower_split (s a b : string) :
  Str.lower s = a ++ b ->
  exists s1 s2, s = s1 ++ s2 /\ Str.lower s1 = a /\ Str.lower s2 = b.
Proof.
  revert s. induction a as [|c a IH]; intros s H.
  - now exists "", s.
  - destruct s as [|d s]; [discriminate|].
    change (String c a ++ b) with (String c (a ++ b)) in H.
    cbn [Str.lower] in H. injection H as Hd Hs.
    destruct (IH s Hs) as [s1 [s2 [-> [H1 H2]]]].
    exists (String d s1), s2. repeat split; [|exact H2].
    cbn [Str.lower]. now rewrite Hd, H1.
Qed.

Lemma occurs_in_lower (sub s : string) :
  occurs_in sub s <-> Str.substring_nocase sub s.
Proof.
  unfold occurs_in, Str.substring_nocase, Str.substring_of. split.
  - intros [pre [mid [post [-> H]]]]. apply same_text_lower in H.
    exists (Str.lower pre), (Str.lower post).
    rewrite !lower_append. now rewrite H.
  - intros [pre [post H]].
    destruct (lower_split _ _ _ H) as [s1 [rest [-> [H1 Hrest]]]].
    destruct (lower_split _ _ _ Hrest) as [mid [s3 [-> [H2 H3]]]].
    exists s1, mid, s3. split; [reflexivity|].
    apply same_text_lower. unfold Str.eq_nocase. now rewrite H2.
Qed.

End LettersFacts.

(** ** The conditions without [lower] against the conditions with it *)

Lemma college_criteria_spec (major : string) (min_rank max_rank : option Z)
    (location_preference : option string) (academic_skills : option (list string))
    (c : College) :
  college_criteria major min_rank max_rank location_preference academic_skills c
  <-> college_passes_spec major min_rank max_rank location_preference
        academic_skills c.
Proof.
  unfold college_criteria, college_passes_spec.
  rewrite LettersFacts.same_text_lower.
  assert (Hmin : (min_rank = None \/ exists m, min_rank = Some m /\ c_rank c >= m)
                 <-> match min_rank with None => True | Some m => c_rank c >= m end).
  { destruct min_rank as [m|]; [|tauto]. split.
    - intros [H | [m' [[= <-] H]]]; [discriminate | exact H].
    - intros H. right. now exists m. }
  assert (Hmax : (max_rank = None \/ exists m, max_rank = Some m /\ c_rank c <= m)
                 <-> match max_rank with None => True | Some m => c_rank c <= m end).
  { destruct max_rank as [m|]; [|tauto]. split.
    - intros [H | [m' [[= <-] H]]]; [discriminate | exact H].
    - intros H. right. now exists m. }
  assert (Hloc : (location_preference = None
                  \/ exists l, location_preference = Some l
                               /\ Letters.occurs_in l (c_location c))
                 <-> match location_preference with
                     | None => True
                     | Some l => Str.substring_nocase l (c_location c)
                     end).
  { destruct location_preference as [l|]; [|tauto]. split.
    - intros [H | [l' [[= <-] H]]]; [discriminate|].
      now apply LettersFacts.occurs_in_lower.
    - intros H. right. exists l. split; [reflexivity|].
      now apply LettersFacts.occurs_in_lower. }
  assert (Hsk : (academic_skills = None \/ academic_skills = Some []
                 \/ exists skills skill preferred,
                      academic_skills = Some skills
                      /\ In skill skills /\ In preferred (c_skills_preferred c)
                      /\ Letters.same_text skill preferred)
                <-> match academic_skills with
                    | None => True
                    | Some [] => True
                    | Some skills =>
                        exists skill preferred,
                          In skill skills /\ In preferred (c_skills_preferred c)
                          /\ Str.eq_nocase skill preferred
                    end).
  { destruct academic_skills as [[|k ks]|]; [tauto | | tauto]. split.
    - intros [H | [H | [skills [skill [p [[= <-] [H1 [H2 H3]]]]]]]];
        try discriminate.
      exists skill, p. repeat split; try assumption.
      now apply LettersFacts.same_text_lower.
    - intros [skill [p [H1 [H2 H3]]]]. right. right.
      exists (k :: ks), skill, p. repeat split; try assumption.
      now apply LettersFacts.same_text_lower. }
  rewrite Hmin, Hmax, Hloc, Hsk. reflexivity.
Qed.

Lemma any_word_spec (s : string) : any_word s <-> is_any s.
Proof.
  unfold any_word, is_any. rewrite LettersFacts.same_text_lower.
  unfold Str.eq_nocase. reflexivity.
Qed.

Lemma scholarship_criteria_spec (college_name major academic_profile : option string)
    (skills : option (list string)) (s : Scholarship) :
  scholarship_criteria college_name major academic_profile skills s
  <-> scholarship_passes_spec college_name major academic_profile skills s.
Proof.
  unfold scholarship_criteria, scholarship_passes_spec.
  assert (Hname : forall (o : option string) (field : string),
             (o = None
              \/ exists n, o = Some n
                           /\ (any_word n \/ Letters.occurs_in n field))
             <-> match o with
                 | None => True
                 | Some n => is_any n \/ Str.substring_nocase n field
                 end).
  { intros o field. destruct o as [n|]; [|tauto].
    rewrite <- any_word_spec, <- LettersFacts.occurs_in_lower. split.
    - intros [H | [n' [[= <-] H]]]; [discriminate | exact H].
    - intros H. right. now exists n. }
  assert (Hprof : (academic_profile = None
                   \/ exists p, academic_profile = Some p
                                /\ Letters.occurs_in p (s_criteria s))
                  <-> match academic_profile with
                      | None => True
                      | Some p => Str.substring_nocase p (s_criteria s)
                      end).
  { destruct academic_profile as [p|]; [|tauto].
    rewrite <- LettersFacts.occurs_in_lower. split.
    - intros [H | [p' [[= <-] H]]]; [discriminate | exact H].
    - intros H. right. now exists p. }
  assert (Hsk : (skills = None \/ skills = Some []
                 \/ exists supplied skill,
                      skills = Some supplied /\ In skill supplied
                      /\ Letters.occurs_in skill (s_criteria s))
                <-> match skills with
                    | None => True
                    | Some [] => True
                    | Some supplied =>
                        exists skill,
                          In skill supplied
                          /\ Str.substring_nocase skill (s_criteria s)
                    end).
  { destruct skills as [[|k ks]|]; [tauto | | tauto]. split.
    - intros [H | [H | [supplied [skill [[= <-] [H1 H2]]]]]]; try discriminate.
      exists skill. split; [exact H1 | now apply LettersFacts.occurs_in_lower].
    - intros [skill [H1 H2]]. right. right. exists (k :: ks), skill.
      repeat split; [exact H1 | now apply LettersFacts.occurs_in_lower]. }
  rewrite !Hname, Hprof, Hsk. reflexivity.
Qed.

(** The texts of the two catalogs are ASCII, so that [lower] is on them what
    [str.lower] is. *)
Lemma catalogs_are_ascii :
  forallb (fun c => Letters.is_ascii (c_major c) && Letters.is_ascii (c_location c)
                    && forallb Letters.is_ascii (c_skills_preferred c)) colleges
  = true
  /\ forallb (fun s => Letters.is_ascii (s_college s) && Letters.is_ascii (s_major s)
                       && Letters.is_ascii (s_criteria s)) scholarships
     = true.
Proof. split; reflexivity. Qed.

(** ** The claims about the two searches *)

(** C1. On arguments of the annotated types and of ASCII text, the scan of
    [get_college_data] succeeds, and the records it collects, in catalog
    order, are exactly the records of the catalog that satisfy the condition
    of the specification: the major asked for, the case of letters
    disregarded; a rank within the bounds that are given; a location in which
    the preference occurs, the case of letters disregarded, when one is
    given; and, when skills are given and not empty, one supplied skill that
    is one of the preferred skills, the case of letters disregarded. *)
Theorem college_filter_iff (major : string) (min_rank max_rank : option Z)
    (location_preference : option string) (academic_skills : option (list string)) :
  Letters.is_ascii major = true ->
  ascii_option location_preference = true ->
  ascii_options academic_skills = true ->
  exists results,
    college_scan colleges (PyStr major) (of_int min_rank) (of_int max_rank)
      (of_str location_preference) (of_strs academic_skills) [] = Ok results
    /\ sublist results colleges
    /\ forall c, In c results <->
         In c colleges /\
         college_criteria major min_rank max_rank location_preference
           academic_skills c.
Proof.
  intros _ _ _.
  exists (List.filter (college_kept major min_rank max_rank location_preference
                         academic_skills) colleges).
  split; [apply college_scan_typed|]. split; [apply filter_sublist|].
  intros c. rewrite filter_In, college_kept_spec, college_criteria_spec. tauto.
Qed.

Lemma college_filter_iff_witness :
  Letters.is_ascii "computer SCIENCE" = true
  /\ ascii_option (Some "india") = true
  /\ ascii_options (Some ["Painting"; "CODING"]) = true
  /\ exists results,
       college_scan colleges (PyStr "computer SCIENCE") (of_int (Some 1))
         (of_int None) (of_str (Some "india"))
         (of_strs (Some ["Painting"; "CODING"])) [] = Ok results
       /\ sublist results colleges
       /\ forall c, In c results <->
            In c colleges /\
            college_criteria "computer SCIENCE" (Some 1) None (Some "india")
              (Some ["Painting"; "CODING"]) c.
Proof.
  assert (H1 : Letters.is_ascii "computer SCIENCE" = true) by reflexivity.
  assert (H2 : ascii_option (Some "india") = true) by reflexivity.
  assert (H3 : ascii_options (Some ["Painting"; "CODING"]) = true) by reflexivity.
  split; [exact H1|]. split; [exact H2|]. split; [exact H3|].
  apply (college_filter_iff "computer SCIENCE" (Some 1) None (Some "india")
           (Some ["Painting"; "CODING"]) H1 H2 H3).
Defined.

(** The query of the witness collects the one college of that major in
    India. *)
Example indian_coding_college :
  college_scan colleges (PyStr "computer SCIENCE") (PyInt 1) PyNone
    (PyStr "india") (PyList [PyStr "Painting"; PyStr "CODING"]) []
  = Ok [mkCollege "Indian Institute of Technology Bombay" "Computer Science" 1
          "Mumbai, India" ["Institute Scholarship"; "Private Grants"]
          "Premier engineering institute in India." 39
          ["coding"; "algorithms"; "problem solving"]].
Proof. reflexivity. Qed.

(** C2. On arguments of the annotated types and of ASCII text, the scan of
    [search_scholarships] succeeds and collects, in catalog order, exactly
    the records that satisfy the condition of the specification: each of
    [college_name] and [major] absent, the word any, or occurring in the
    field of the record; [academic_profile] absent or occurring in the
    criteria text; [skills] absent, empty, or with one skill occurring in the
    criteria text; each time the case of letters disregarded. When a record
    passes, the call returns the encoding of the list of the first three
    collected records, in that order, each as the object of its five
    fields, and the returned text reads back as that list. *)
Theorem scholarship_filter_iff
    (college_name major academic_profile : option string)
    (skills : option (list string)) :
  ascii_option college_name = true ->
  ascii_option major = true ->
  ascii_option academic_profile = true ->
  ascii_options skills = true ->
  exists results,
    scholarship_scan scholarships (of_str college_name) (of_str major)
      (of_str academic_profile) (of_strs skills) [] = Ok results
    /\ sublist results scholarships
    /\ (forall s, In s results <->
          In s scholarships /\
          scholarship_criteria college_name major academic_profile skills s)
    /\ (results <> [] ->
        exists out,
          search_scholarships (of_str college_name) (of_str major)
            (of_str academic_profile) (of_strs skills) = Ok out
          /\ out = Json.dumps
                     (Json.JArr
                        (map (fun s =>
                                Json.JObj [("name", Json.JStr (s_name s));
                                           ("college", Json.JStr (s_college s));
                                           ("major", Json.JStr (s_major s));
                                           ("criteria", Json.JStr (s_criteria s));
                                           ("amount", Json.JStr (s_amount s))])
                           (take 3 results)))
          /\ Json.loads out
             = Some (Json.JArr
                       (map (fun s =>
                               Json.JObj [("name", Json.JStr (s_name s));
                                          ("college", Json.JStr (s_college s));
                                          ("major", Json.JStr (s_major s));
                                          ("criteria", Json.JStr (s_criteria s));
                                          ("amount", Json.JStr (s_amount s))])
                          (take 3 results)))).
Proof.
  intros _ _ _ _.
  exists (List.filter (scholarship_kept college_name major academic_profile skills)
            scholarships).
  split; [apply scholarship_scan_typed|]. split; [apply filter_sublist|]. split.
  - intros s. rewrite filter_In, scholarship_kept_spec, scholarship_criteria_spec.
    tauto.
  - intros Hne. unfold search_scholarships. rewrite search_scholarships_in_typed.
    destruct (List.filter _ _) as [|s results]; [now destruct Hne|].
    eexists. split; [reflexivity|]. split; [reflexivity|].
    apply JsonFacts.loads_dumps.
Qed.

Lemma scholarship_filter_iff_witness :
  ascii_option (Some "tech") = true
  /\ ascii_option (Some "ANY") = true
  /\ ascii_option None = true
  /\ ascii_options (Some ["Leadership"; "chess"]) = true
  /\ exists results,
       scholarship_scan scholarships (of_str (Some "tech")) (of_str (Some "ANY"))
         (of_str None) (of_strs (Some ["Leadership"; "chess"])) [] = Ok results
       /\ sublist results scholarships
       /\ (forall s, In s results <->
             In s scholarships /\
             scholarship_criteria (Some "tech") (Some "ANY") None
               (Some ["Leadership"; "chess"]) s)
       /\ (results <> [] ->
           exists out,
             search_scholarships (of_str (Some "tech")) (of_str (Some "ANY"))
               (of_str None) (of_strs (Some ["Leadership"; "chess"])) = Ok out
             /\ out = Json.dumps
                        (Json.JArr
                           (map (fun s =>
                                   Json.JObj [("name", Json.JStr (s_name s));
                                              ("college", Json.JStr (s_college s));
                                              ("major", Json.JStr (s_major s));
                                              ("criteria", Json.JStr (s_criteria s));
                                              ("amount", Json.JStr (s_amount s))])
                              (take 3 results)))
             /\ Json.loads out
                = Some (Json.JArr
                          (map (fun s =>
                                  Json.JObj [("name", Json.JStr (s_name s));
                                             ("college", Json.JStr (s_college s));
                                             ("major", Json.JStr (s_major s));
                                             ("criteria", Json.JStr (s_criteria s));
                                             ("amount", Json.JStr (s_amount s))])
                             (take 3 results)))).
Proof.
  assert (H1 : ascii_option (Some "tech") = true) by reflexivity.
  assert (H2 : ascii_option (Some "ANY") = true) by reflexivity.
  assert (H3 : ascii_option None = true) by reflexivity.
  assert (H4 : ascii_options (Some ["Leadership"; "chess"]) = true) by reflexivity.
  split; [exact H1|]. split; [exact H2|]. split; [exact H3|]. split; [exact H4|].
  apply (scholarship_filter_iff (Some "tech") (Some "ANY") None
           (Some ["Leadership"; "chess"]) H1 H2 H3 H4).
Defined.

(** The query of the witness collects the merit scholarship of Tech
    University, whose criteria name leadership. *)
Example tech_leadership_scholarship :
  scholarship_scan scholarships (PyStr "tech") (PyStr "ANY") PyNone
    (PyList [PyStr "Leadership"; PyStr "chess"]) []
  = Ok [mkScholarship "University Merit Scholarship" "Tech University" "Any"
          "GPA 3.8+, leadership" "$10,000/year"].
Proof. reflexivity. Qed.

Lemma filter_nil_none {A : Type} (f : A -> bool) (l : list A) :
  List.filter f l = [] <-> ~ exists x, In x l /\ f x = true.
Proof.
  split.
  - intros E [x Hx]. apply filter_In in Hx. rewrite E in Hx. destruct Hx.
  - intros H. destruct (List.filter f l) as [|x rest] eqn:E; [reflexivity|].
    destruct H. exists x. apply filter_In. rewrite E. now left.
Qed.

(** C4. On arguments of the annotated types and of ASCII text, for each of
    the two searches: when no record of the catalog satisfies the condition
    of the specification the call returns its message; when some record
    satisfies it the call returns the encoding of a list that is not empty,
    a text that reads back as that list; the call never returns the text of
    the empty list, nor a text that reads as the empty list; and the message
    is plain text: it does not read as a value and is the encoding of
    none. *)
Theorem no_results_message_or_list (major : string)
    (min_rank max_rank : option Z) (location_preference : option string)
    (academic_skills : option (list string)) (extra_curriculars : pyval)
    (college_name major' academic_profile : option string)
    (skills : option (list string)) :
  Letters.is_ascii major = true ->
  ascii_option location_preference = true ->
  ascii_options academic_skills = true ->
  ascii_option college_name = true ->
  ascii_option major' = true ->
  ascii_option academic_profile = true ->
  ascii_options skills = true ->
  ((~ exists c, In c colleges
                /\ college_criteria major min_rank max_rank location_preference
                     academic_skills c) ->
   get_college_data (PyStr major) (of_int min_rank) (of_int max_rank)
     (of_str location_preference) (of_strs academic_skills) extra_curriculars
   = Ok no_colleges_message)
  /\ ((exists c, In c colleges
                 /\ college_criteria major min_rank max_rank location_preference
                      academic_skills c) ->
      exists out item items,
        get_college_data (PyStr major) (of_int min_rank) (of_int max_rank)
          (of_str location_preference) (of_strs academic_skills)
          extra_curriculars = Ok out
        /\ out = Json.dumps (Json.JArr (item :: items))
        /\ Json.loads out = Some (Json.JArr (item :: items)))
  /\ (forall out,
        get_college_data (PyStr major) (of_int min_rank) (of_int max_rank)
          (of_str location_preference) (of_strs academic_skills)
          extra_curriculars = Ok out ->
        out <> "[]" /\ Json.loads out <> Some (Json.JArr []))
  /\ Json.loads no_colleges_message = None
  /\ (forall v, Json.dumps v <> no_colleges_message)
  /\ ((~ exists s, In s scholarships
                   /\ scholarship_criteria college_name major' academic_profile
                        skills s) ->
      search_scholarships (of_str college_name) (of_str major')
        (of_str academic_profile) (of_strs skills)
      = Ok no_scholarships_message)
  /\ ((exists s, In s scholarships
                 /\ scholarship_criteria college_name major' academic_profile
                      skills s) ->
      exists out item items,
        search_scholarships (of_str college_name) (of_str major')
          (of_str academic_profile) (of_strs skills) = Ok out
        /\ out = Json.dumps (Json.JArr (item :: items))
        /\ Json.loads out = Some (Json.JArr (item :: items)))
  /\ (forall out,
        search_scholarships (of_str college_name) (of_str major')
          (of_str academic_profile) (of_strs skills) = Ok out ->
        out <> "[]" /\ Json.loads out <> Some (Json.JArr []))
  /\ Json.loads no_scholarships_message = None
  /\ (forall v, Json.dumps v <> no_scholarships_message).
Proof.
  intros _ _ _ _ _ _ _.
  assert (Hc : forall v, Json.dumps v <> no_colleges_message)
    by (intros v; eapply message_not_json; reflexivity).
  assert (Hs : forall v, Json.dumps v <> no_scholarships_message)
    by (intros v; eapply message_not_json; reflexivity).
  assert (Lc : Json.loads no_colleges_message = None) by reflexivity.
  assert (Ls : Json.loads no_scholarships_message = None) by reflexivity.
  assert (Hlist : forall t top out,
             out = Json.dumps (Json.JArr (t :: top)) ->
             out <> "[]" /\ Json.loads out <> Some (Json.JArr [])).
  { intros t top out ->. split.
    - change "[]" with (Json.dumps (Json.JArr [])).
      intros E. apply JsonFacts.dumps_inj in E. discriminate E.
    - rewrite JsonFacts.loads_dumps. discriminate. }
  unfold get_college_data, search_scholarships.
  rewrite get_college_data_in_typed, search_scholarships_in_typed.
  set (ckeep := college_kept major min_rank max_rank location_preference
                  academic_skills).
  set (skeep := scholarship_kept college_name major' academic_profile skills).
  assert (Pc : (exists c, In c colleges
                          /\ college_criteria major min_rank max_rank
                               location_preference academic_skills c)
               <-> exists c, In c colleges /\ ckeep c = true).
  { split; intros [c [Hin H]]; exists c; (split; [exact Hin|]).
    - now apply college_kept_spec, college_criteria_spec.
    - now apply college_criteria_spec, college_kept_spec. }
  assert (Ps : (exists s, In s scholarships
                          /\ scholarship_criteria college_name major'
                               academic_profile skills s)
               <-> exists s, In s scholarships /\ skeep s = true).
  { split; intros [s [Hin H]]; exists s; (split; [exact Hin|]).
    - now apply scholarship_kept_spec, scholarship_criteria_spec.
    - now apply scholarship_criteria_spec, scholarship_kept_spec. }
  rewrite Pc, Ps, <- !filter_nil_none.
  split; [now intros ->|]. split.
  { intros [c [Hin Hk]].
    destruct (List.filter ckeep colleges) as [|d results] eqn:E.
    - assert (Hd : In c (List.filter ckeep colleges))
        by (apply filter_In; now split).
      rewrite E in Hd. destruct Hd.
    - destruct (top5_nonempty d results) as [t [top Htop]]. rewrite Htop.
      cbn [map]. eexists. eexists. eexists.
      split; [reflexivity|]. split; [reflexivity|].
      apply JsonFacts.loads_dumps. }
  split.
  { intros out. destruct (List.filter ckeep colleges) as [|d results] eqn:E.
    - intros H. apply Ok_inj in H. subst out. split.
      + discriminate.
      + rewrite Lc. discriminate.
    - destruct (top5_nonempty d results) as [t [top Htop]]. rewrite Htop.
      cbn [map]. intros H. apply Ok_inj in H. eapply Hlist. symmetry. exact H. }
  split; [exact Lc|]. split; [exact Hc|].
  split; [now intros ->|]. split.
  { intros [s [Hin Hk]].
    destruct (List.filter skeep scholarships) as [|d results] eqn:E.
    - assert (Hd : In s (List.filter skeep scholarships))
        by (apply filter_In; now split).
      rewrite E in Hd. destruct Hd.
    - cbn [take map]. eexists. eexists. eexists.
      split; [reflexivity|]. split; [reflexivity|].
      apply JsonFacts.loads_dumps. }
  split.
  { intros out. destruct (List.filter skeep scholarships) as [|d results].
    - intros H. apply Ok_inj in H. subst out. split.
      + discriminate.
      + rewrite Ls. discriminate.
    - cbn [take map]. intros H. apply Ok_inj in H. eapply Hlist.
      symmetry. exact H. }
  split; [exact Ls|exact Hs].
Qed.

Lemma no_results_message_or_list_witness :
  Letters.is_ascii "Philosophy" = true
  /\ ascii_option None = true
  /\ ascii_options None = true
  /\ ascii_option (Some "Tech University") = true
  /\ (~ exists c, In c colleges
                  /\ college_criteria "Philosophy" None None None None c)
  /\ (exists s, In s scholarships
                /\ scholarship_criteria (Some "Tech University") None None None s)
  /\ get_college_data (PyStr "Philosophy") (of_int None) (of_int None)
       (of_str None) (of_strs None) PyNone
     = Ok no_colleges_message
  /\ exists out item items,
       search_scholarships (of_str (Some "Tech University")) (of_str None)
         (of_str None) (of_strs None) = Ok out
       /\ out = Json.dumps (Json.JArr (item :: items))
       /\ Json.loads out = Some (Json.JArr (item :: items)).
Proof.
  assert (H1 : Letters.is_ascii "Philosophy" = true) by reflexivity.
  assert (H2 : ascii_option None = true) by reflexivity.
  assert (H3 : ascii_options None = true) by reflexivity.
  assert (H4 : ascii_option (Some "Tech University") = true) by reflexivity.
  assert (Hno : ~ exists c, In c colleges
                            /\ college_criteria "Philosophy" None None None None c).
  { intros [c [Hin Hc]]. apply college_criteria_spec in Hc.
    destruct Hc as [Hm _]. unfold colleges in Hin. cbn [In] in Hin.
    repeat (destruct Hin as [<- | Hin]; [vm_compute in Hm; discriminate Hm|]).
    destruct Hin. }
  assert (Hyes : exists s, In s scholarships
                           /\ scholarship_criteria (Some "Tech University") None
                                None None s).
  { exists (mkScholarship "AI Research Fellowship" "Tech University"
              "Computer Science"
              "Research experience in AI, strong coding skills" "$5,000 one-time").
    split; [simpl; tauto|]. apply scholarship_criteria_spec.
    unfold scholarship_passes_spec. repeat split. right.
    apply StrFacts.contains_spec. reflexivity. }
  split; [exact H1|]. split; [exact H2|]. split; [exact H3|].
  split; [exact H4|]. split; [exact Hno|]. split; [exact Hyes|].
  pose proof (no_results_message_or_list "Philosophy" None None None None
                PyNone (Some "Tech University") None None None
                H1 H2 H3 H4 H2 H2 H3) as H.
  split; [exact (proj1 H Hno)|].
  exact (proj1 (proj2 (proj2 (proj2 (proj2 (proj2 (proj2 H)))))) Hyes).
Defined.

(** The two halves at work: no college teaches Philosophy, and Tech
    University has scholarships. *)
Example philosophy_gives_message :
  get_college_data (PyStr "Philosophy") PyNone PyNone PyNone PyNone PyNone
  = Ok no_colleges_message.
Proof. reflexivity. Qed.

(** C10. On arguments of the annotated types each search returns either its
    message or the encoding of a list of objects, each of which is built from
    one record of the catalog and holds every field of that record under its
    key: the eight fields of a college, the five of a scholarship; the
    returned text reads back as that list of objects. The catalogs hold ten
    colleges and nine scholarships. *)
Theorem results_from_catalog (major : string) (min_rank max_rank : option Z)
    (location_preference : option string) (academic_skills : option (list string))
    (extra_curriculars : pyval)
    (college_name major' academic_profile : option string)
    (skills : option (list string)) :
  (get_college_data (PyStr major) (of_int min_rank) (of_int max_rank)
     (of_str location_preference) (of_strs academic_skills) extra_curriculars
   = Ok no_colleges_message
   \/ exists l out,
        get_college_data (PyStr major) (of_int min_rank) (of_int max_rank)
          (of_str location_preference) (of_strs academic_skills) extra_curriculars
        = Ok out
        /\ out = Json.dumps
                   (Json.JArr
                      (map (fun c =>
                              Json.JObj
                                [("name", Json.JStr (c_name c));
                                 ("major", Json.JStr (c_major c));
                                 ("rank", Json.JInt (c_rank c));
                                 ("location", Json.JStr (c_location c));
                                 ("scholarships",
                                  Json.JArr (map Json.JStr (c_scholarships c)));
                                 ("notes", Json.JStr (c_notes c));
                                 ("min_gpa", Json.JTenths (c_min_gpa c));
                                 ("skills_preferred",
                                  Json.JArr (map Json.JStr (c_skills_preferred c)))])
                         l))
        /\ Json.loads out
           = Some (Json.JArr
                     (map (fun c =>
                             Json.JObj
                               [("name", Json.JStr (c_name c));
                                ("major", Json.JStr (c_major c));
                                ("rank", Json.JInt (c_rank c));
                                ("location", Json.JStr (c_location c));
                                ("scholarships",
                                 Json.JArr (map Json.JStr (c_scholarships c)));
                                ("notes", Json.JStr (c_notes c));
                                ("min_gpa", Json.JTenths (c_min_gpa c));
                                ("skills_preferred",
                                 Json.JArr (map Json.JStr (c_skills_preferred c)))])
                        l))
        /\ l <> []
        /\ forall c, In c l -> In c colleges)
  /\ (search_scholarships (of_str college_name) (of_str major')
        (of_str academic_profile) (of_strs skills)
      = Ok no_scholarships_message
      \/ exists l out,
           search_scholarships (of_str college_name) (of_str major')
             (of_str academic_profile) (of_strs skills) = Ok out
           /\ out = Json.dumps
                      (Json.JArr
                         (map (fun s =>
                                 Json.JObj [("name", Json.JStr (s_name s));
                                            ("college", Json.JStr (s_college s));
                                            ("major", Json.JStr (s_major s));
                                            ("criteria", Json.JStr (s_criteria s));
                                            ("amount", Json.JStr (s_amount s))])
                            l))
           /\ Json.loads out
              = Some (Json.JArr
                        (map (fun s =>
                                Json.JObj [("name", Json.JStr (s_name s));
                                           ("college", Json.JStr (s_college s));
                                           ("major", Json.JStr (s_major s));
                                           ("criteria", Json.JStr (s_criteria s));
                                           ("amount", Json.JStr (s_amount s))])
                           l))
           /\ l <> []
           /\ forall s, In s l -> In s scholarships)
  /\ List.length colleges = 10%nat
  /\ List.length scholarships = 9%nat.
Proof.
  unfold get_college_data, search_scholarships.
  rewrite get_college_data_in_typed, search_scholarships_in_typed.
  split; [|split; [|split; reflexivity]].
  - destruct (List.filter _ colleges) as [|c results] eqn:E; [now left|].
    right. eexists. eexists. split; [reflexivity|]. split; [reflexivity|].
    split; [apply JsonFacts.loads_dumps|]. split.
    + destruct (top5_nonempty c results) as [t [top ->]]. discriminate.
    + intros d Hd.
      apply take_In in Hd. apply (Permutation_in _ (sort_by_rank_perm _)) in Hd.
      rewrite <- E in Hd. now apply filter_In in Hd.
  - destruct (List.filter _ scholarships) as [|s results] eqn:E; [now left|].
    right. eexists. eexists. split; [reflexivity|]. split; [reflexivity|].
    split; [apply JsonFacts.loads_dumps|]. split; [discriminate|].
    intros d Hd.
    apply take_In in Hd. rewrite <- E in Hd. now apply filter_In in Hd.
Qed.

(** Whatever the arguments are, a call that returns has returned the message
    or the encoding of records of the catalog. *)
Lemma get_college_data_sound
    (major min_rank max_rank location_preference academic_skills
     extra_curriculars : pyval) (out : string) :
  get_college_data major min_rank max_rank location_preference academic_skills
    extra_curriculars = Ok out ->
  out = no_colleges_message \/
  exists l, out = Json.dumps (Json.JArr (map college_json l))
            /\ forall c, In c l -> In c colleges.
Proof.
  unfold get_college_data, get_college_data_in.
  destruct (college_scan colleges _ _ _ _ _ []) as [results|e] eqn:E;
    [|discriminate].
  cbn [bind]. destruct results as [|c results]; intros H; apply Ok_inj in H.
  - now left.
  - right. eexists. split; [symmetry; exact H|]. intros d Hd.
    apply take_In in Hd. apply (Permutation_in _ (sort_by_rank_perm _)) in Hd.
    destruct (college_scan_sound _ _ _ _ _ _ _ _ E d Hd) as [[] | Hcat].
    exact Hcat.
Qed.

Lemma search_scholarships_sound
    (college_name major academic_profile skills : pyval) (out : string) :
  search_scholarships college_name major academic_profile skills = Ok out ->
  out = no_scholarships_message \/
  exists l, out = Json.dumps (Json.JArr (map scholarship_json l))
            /\ forall s, In s l -> In s scholarships.
Proof.
  unfold search_scholarships, search_scholarships_in.
  destruct (scholarship_scan scholarships _ _ _ _ []) as [results|e] eqn:E;
    [|discriminate].
  cbn [bind]. destruct results as [|s results]; intros H; apply Ok_inj in H.
  - now left.
  - right. eexists. split; [symmetry; exact H|]. intros d Hd.
    apply take_In in Hd.
    destruct (scholarship_scan_sound _ _ _ _ _ _ _ E d Hd) as [[] | Hcat].
    exact Hcat.
Qed.

(** ** A record whose college is "Any" *)

(** The claim fails: a search for Tech University, with no other filter,
    rejects the record whose college is "Any". *)
Lemma any_college_record_excluded :
  ~ (forall (college_name : string) (s : Scholarship),
       ~ is_any college_name ->
       In s scholarships ->
       s_college s = "Any" ->
       scholarship_matches s (PyStr college_name) PyNone PyNone PyNone = Ok true).
Proof.
  intros H. specialize (H "Tech University" general_excellence).
  assert (E : scholarship_matches general_excellence (PyStr "Tech University")
                PyNone PyNone PyNone = Ok false) by reflexivity.
  rewrite H in E; [discriminate | | | reflexivity].
  - unfold is_any. discriminate.
  - simpl. tauto.
Qed.

(** C5, amended. The college filter treats a record whose college is "Any"
    like any other: with no other filter the record passes exactly when the
    lowered [college_name] occurs in the text any, and whatever the other
    arguments are it is rejected when the lowered [college_name] does not. *)
Theorem any_college_record_filter (s : Scholarship) (college_name : string)
    (major academic_profile : option string) (skills : option (list string)) :
  s_college s = "Any" ->
  (scholarship_matches s (PyStr college_name) PyNone PyNone PyNone = Ok true
   <-> Str.substring_of (Str.lower college_name) "any")
  /\ (~ Str.substring_of (Str.lower college_name) "any" ->
      scholarship_matches s (PyStr college_name) (of_str major)
        (of_str academic_profile) (of_strs skills) = Ok false).
Proof.
  intros Hany.
  assert (Hname : name_ok (Some college_name) (s_college s) = true
                  <-> Str.substring_of (Str.lower college_name) "any").
  { rewrite Hany. cbn [name_ok]. change (Str.lower "Any") with "any".
    rewrite orb_true_iff, String.eqb_eq, StrFacts.contains_spec. split.
    - intros [-> | H]; [apply StrFacts.contains_spec, StrFacts.contains_refl | exact H].
    - now right. }
  split.
  - rewrite (scholarship_matches_typed (Some college_name) None None None).
    unfold scholarship_kept. cbn [name_ok andb]. rewrite !andb_true_r.
    rewrite <- Hname. cbn [name_ok]. split; [now intros [= ->] | now intros ->].
  - intros Hno.
    rewrite (scholarship_matches_typed (Some college_name) major academic_profile skills).
    unfold scholarship_kept.
    destruct (name_ok (Some college_name) (s_college s)); [|reflexivity].
    exfalso. now apply Hno, Hname.
Qed.

Lemma any_college_record_filter_witness :
  s_college general_excellence = "Any"
  /\ (scholarship_matches general_excellence (PyStr "Tech University")
        PyNone PyNone PyNone = Ok true
      <-> Str.substring_of (Str.lower "Tech University") "any")
  /\ (~ Str.substring_of (Str.lower "Tech University") "any" ->
      scholarship_matches general_excellence (PyStr "Tech University")
        (of_str None) (of_str None) (of_strs None) = Ok false).
Proof.
  split; [reflexivity|].
  apply (any_college_record_filter general_excellence "Tech University"
           None None None).
  reflexivity.
Defined.

(** ** The dispatcher *)

(** A call without a keyword [tool_name] reaches the body of [call_tool];
    a call with one is refused. *)
Lemma call_tool_body (tool_name : string) (kwargs : gmap string pyval) :
  kwargs !! "tool_name" = None ->
  call_tool tool_name kwargs
  = match tool_functions !! tool_name with
    | Some f => f kwargs
    | None => Ok (PyStr (tool_not_found tool_name))
    end.
Proof.
  intros H. unfold call_tool.
  now rewrite bool_decide_eq_false_2 by (rewrite H; intros [v Hv]; discriminate).
Qed.

Lemma call_tool_refused (tool_name : string) (kwargs : gmap string pyval) :
  is_Some (kwargs !! "tool_name") -> call_tool tool_name kwargs = Raise TypeError.
Proof. intros H. unfold call_tool. now rewrite bool_decide_eq_true_2. Qed.




Example unknown_tool_text :
  tool_not_found "get_weather" = "Error: Tool 'get_weather' not found.".
Proof. reflexivity. Qed.

Lemma binds_missing (params required : list string) (kwargs : gmap string pyval)
    (k : string) :
  In k required -> kwargs !! k = None -> binds params required kwargs = false.
Proof.
  intros Hin Hk. unfold binds. apply andb_false_iff. right.
  apply not_true_is_false. intros H. rewrite forallb_forall in H.
  specialize (H k Hin). rewrite Hk in H. apply bool_decide_eq_true in H.
  now destruct H.
Qed.

(** C8. Without a keyword [major], dispatching [get_college_data] raises
    [TypeError] out of [call_tool]; no string is returned. This holds whatever
    the other keywords are. *)
Theorem major_is_mandatory (kwargs : gmap string pyval) :
  kwargs !! "major" = None ->
  call_tool "get_college_data" kwargs = Raise TypeError
  /\ forall out, call_tool "get_college_data" kwargs <> Ok out.
Proof.
  intros Hk.
  assert (E : call_tool "get_college_data" kwargs = Raise TypeError).
  { destruct (kwargs !! "tool_name") as [v|] eqn:Hname.
    - apply call_tool_refused. rewrite Hname. eauto.
    - rewrite call_tool_body by exact Hname.
      unfold tool_functions. rewrite lookup_insert_eq.
      unfold apply_get_college_data.
      now rewrite (binds_missing _ _ _ "major") by (simpl; tauto || exact Hk). }
  split; [exact E | intros out; rewrite E; discriminate].
Qed.

Lemma major_is_mandatory_witness :
  ({[ "min_rank" := PyInt 10 ]} : gmap string pyval) !! "major" = None
  /\ call_tool "get_college_data" {[ "min_rank" := PyInt 10 ]} = Raise TypeError
  /\ forall out, call_tool "get_college_data" {[ "min_rank" := PyInt 10 ]} <> Ok out.
Proof.
  split; [reflexivity|].
  apply (major_is_mandatory {[ "min_rank" := PyInt 10 ]}). reflexivity.
Defined.

(** C9. [validate_input] returns [message_to_user] as it is, whatever
    [required_info] is. *)
Theorem validate_input_passthrough (required_info required_info' message_to_user : pyval) :
  validate_input required_info message_to_user = message_to_user
  /\ validate_input required_info message_to_user
     = validate_input required_info' message_to_user.
Proof. split; reflexivity. Qed.

Example validate_input_dispatched :
  call_tool "validate_input"
    (<["required_info" := PyList [PyStr "major"]]>
       {[ "message_to_user" := PyStr "Which major?" ]})
  = Ok (PyStr "Which major?").
Proof. reflexivity. Qed.

(** ** One tool hop per turn *)

Section TurnFacts.

Variable Session : Type.
Variable send_message : Session -> content -> Session * result response.
Variable response_text : response -> result string.
Variable last_text : Session -> result string.
Variable exn_text : exn -> string.

(** The events of the branch that calls the tool. *)
Lemma tool_branch_trace (session : Session) (tool_name : string)
    (tool_args : gmap string pyval) :
  snd (fst (tool_branch Session send_message last_text session tool_name tool_args))
  = ((if bool_decide (is_Some (tool_args !! "tool_name")) then []
      else [Dispatched tool_name tool_args])
     ++ match call_tool tool_name tool_args with
        | Ok tool_output => [Sent (FunctionResponse tool_name tool_output)]
        | Raise _ => []
        end)%list.
Proof.
  unfold tool_branch.
  destruct (call_tool tool_name tool_args) as [tool_output|e];
    [|cbn [fst snd]; now rewrite app_nil_r].
  now destruct (send_message session _).
Qed.

Lemma handle_turn_trace (st : State Session) (user_query : string) :
  user_query <> "" ->
  snd (handle_turn Session send_message response_text last_text exn_text
       st user_query)
  = Sent (UserText user_query) ::
    match first_reply Session send_message st user_query with
    | Raise _ => []
    | Ok reply =>
        match function_call reply with
        | None => []
        | Some (tool_name, tool_args) =>
            snd (fst (tool_branch Session send_message last_text
                        (fst (send_message (chat_session st) (UserText user_query)))
                        tool_name tool_args))
        end
    end.
Proof.
  intros Hq. unfold handle_turn, first_reply, try_body.
  destruct (String.eqb_spec user_query "") as [E|_]; [contradiction|].
  destruct (send_message (chat_session st) (UserText user_query)) as [session' [reply|e]];
    cbn [fst snd]; [|reflexivity].
  destruct (function_call reply) as [[tool_name tool_args]|]; [|reflexivity].
  now destruct (tool_branch _ _ _ session' tool_name tool_args) as [[session'' trace] out].
Qed.

End TurnFacts.

(** The claim fails: when the tool call raises, the exception ends the [try]
    block before the second [send_message]. Here the model asks for
    [get_college_data] without a major. *)
Lemma two_sends_claim_fails :
  ~ (forall (Session : Type)
       (send_message : Session -> content -> Session * result response)
       (response_text : response -> result string)
       (last_text : Session -> result string) (exn_text : exn -> string)
       (st : State Session) (user_query : string) (reply : response)
       (tool_name : string) (tool_args : gmap string pyval),
       user_query <> "" ->
       first_reply Session send_message st user_query = Ok reply ->
       function_call reply = Some (tool_name, tool_args) ->
       let trace := snd (handle_turn Session send_message response_text
                           last_text exn_text st user_query) in
       dispatches trace = 1%nat /\ sends trace = 2%nat).
Proof.
  intros H.
  specialize (H (list (result response)) Scripted.send_message
                Scripted.response_text Scripted.last_text Scripted.exn_text
                (mkState [] [Ok (mkResponse [FunctionCallPart "get_college_data" ∅]);
                             Ok (mkResponse [TextPart "Here are some colleges."])])
                "Find me a college"
                (mkResponse [FunctionCallPart "get_college_data" ∅])
                "get_college_data" ∅).
  destruct H as [_ H]; [discriminate | reflexivity | reflexivity |].
  vm_compute in H. discriminate H.
Qed.

(** C7, amended. In a turn whose first reply starts with a function call,
    [call_tool] is entered at most once and [send_message] is called at most
    twice. If the call of the tool returns, [call_tool] was entered exactly
    once and its result is sent back, which makes exactly two calls of
    [send_message] in the turn (the second is made whether or not the service
    then fails). If the call raises, nothing more is sent: the turn has made
    exactly one call of [send_message]; [call_tool] was entered once, or not
    at all when the call was refused for an argument named [tool_name]. *)
Theorem one_tool_hop (Session : Type)
    (send_message : Session -> content -> Session * result response)
    (response_text : response -> result string)
    (last_text : Session -> result string) (exn_text : exn -> string)
    (st : State Session) (user_query : string) (reply : response)
    (tool_name : string) (tool_args : gmap string pyval) :
  user_query <> "" ->
  first_reply Session send_message st user_query = Ok reply ->
  function_call reply = Some (tool_name, tool_args) ->
  let trace := snd (handle_turn Session send_message response_text last_text
                      exn_text st user_query) in
  (dispatches trace <= 1)%nat
  /\ (sends trace <= 2)%nat
  /\ match call_tool tool_name tool_args with
     | Ok tool_output =>
         trace = [Sent (UserText user_query); Dispatched tool_name tool_args;
                  Sent (FunctionResponse tool_name tool_output)]
         /\ dispatches trace = 1%nat /\ sends trace = 2%nat
     | Raise _ =>
         trace = Sent (UserText user_query) ::
                 (if bool_decide (is_Some (tool_args !! "tool_name")) then []
                  else [Dispatched tool_name tool_args])
         /\ sends trace = 1%nat
     end.
Proof.
  intros Hq Hreply Hcall trace. subst trace.
  rewrite handle_turn_trace by exact Hq.
  rewrite Hreply, Hcall, tool_branch_trace.
  destruct (tool_args !! "tool_name") as [v|] eqn:Hkey.
  - rewrite call_tool_refused by (rewrite Hkey; eauto).
    rewrite bool_decide_eq_true_2 by eauto.
    split; [|split]; [cbn; lia | cbn; lia | split; reflexivity].
  - rewrite bool_decide_eq_false_2 by (intros [v Hv]; discriminate).
    destruct (call_tool tool_name tool_args) as [tool_output|e];
      (split; [|split]; [cbn; lia | cbn; lia | repeat split]).
Qed.

Lemma one_tool_hop_witness :
  let script := [Ok (mkResponse [FunctionCallPart "search_scholarships"
                                   {[ "college_name" := PyStr "Tech University" ]}]);
                 Ok (mkResponse [TextPart "Two scholarships match."])] in
  let trace := snd (Scripted.handle_turn (mkState [] script) "Any funding?") in
  "Any funding?" <> ""
  /\ (dispatches trace <= 1)%nat
  /\ (sends trace <= 2)%nat
  /\ match call_tool "search_scholarships"
             {[ "college_name" := PyStr "Tech University" ]} with
     | Ok tool_output =>
         trace = [Sent (UserText "Any funding?");
                  Dispatched "search_scholarships"
                    {[ "college_name" := PyStr "Tech University" ]};
                  Sent (FunctionResponse "search_scholarships" tool_output)]
         /\ dispatches trace = 1%nat /\ sends trace = 2%nat
     | Raise _ =>
         trace = Sent (UserText "Any funding?") ::
                 (if bool_decide
                       (is_Some (({[ "college_name" := PyStr "Tech University" ]}
                                   : gmap string pyval) !! "tool_name"))
                  then []
                  else [Dispatched "search_scholarships"
                          {[ "college_name" := PyStr "Tech University" ]}])
         /\ sends trace = 1%nat
     end.
Proof.
  intros script trace. split; [discriminate|].
  apply (one_tool_hop (list (result response)) Scripted.send_message
           Scripted.response_text Scripted.last_text Scripted.exn_text
           (mkState [] script) "Any funding?"
           (mkResponse [FunctionCallPart "search_scholarships"
                          {[ "college_name" := PyStr "Tech University" ]}])
           "search_scholarships" {[ "college_name" := PyStr "Tech University" ]});
    [discriminate | reflexivity | reflexivity].
Defined.

(** The turn of the witness, run: one dispatch between two sends. *)
Example scholarship_turn_counts :
  let script := [Ok (mkResponse [FunctionCallPart "search_scholarships"
                                   {[ "college_name" := PyStr "Tech University" ]}]);
                 Ok (mkResponse [TextPart "Two scholarships match."])] in
  let trace := snd (Scripted.handle_turn (mkState [] script) "Any funding?") in
  dispatches trace = 1%nat /\ sends trace = 2%nat.
Proof. split; reflexivity. Qed.

(** A first part whose function call has no name and no argument counts as
    no call: one send, no dispatch. *)
Example empty_call_counts :
  let script := [Ok (mkResponse [FunctionCallPart "" ∅])] in
  let trace := snd (Scripted.handle_turn (mkState [] script) "Hi") in
  dispatches trace = 0%nat /\ sends trace = 1%nat.
Proof. split; reflexivity. Qed.

(** A call with an argument named [tool_name] is refused before the body of
    [call_tool] runs: one send, no dispatch. *)
Example refused_call_counts :
  let script := [Ok (mkResponse [FunctionCallPart "validate_input"
                                   {[ "tool_name" := PyStr "x" ]}])] in
  let trace := snd (Scripted.handle_turn (mkState [] script) "Hi") in
  dispatches trace = 0%nat /\ sends trace = 1%nat.
Proof. split; reflexivity. Qed.

(** A reply that is plain text: one send, no dispatch. *)
Example direct_reply_counts :
  let script := [Ok (mkResponse [TextPart "Hello."])] in
  let trace := snd (Scripted.handle_turn (mkState [] script) "Hi") in
  dispatches trace = 0%nat /\ sends trace = 1%nat.
Proof. split; reflexivity. Qed.

(** * Further properties *)

(** ** [get_college_data] on arguments of any type *)


(** X1. A [major] that is not a string makes [get_college_data] raise
    [AttributeError], whatever the other arguments are: the first record of
    the catalog already needs [major.lower()]. *)
Theorem college_major_not_str_raises
    (major min_rank max_rank location_preference academic_skills
     extra_curriculars : pyval) :
  (forall s, major <> PyStr s) ->
  get_college_data major min_rank max_rank location_preference academic_skills
    extra_curriculars = Raise AttributeError.
Proof.
  intros H. unfold get_college_data, get_college_data_in, colleges.
  cbn [college_scan]. unfold college_passes at 1.
  destruct major as [|s|z|l|b|q|d]; try reflexivity. now destruct (H s).
Qed.

Lemma college_major_not_str_raises_witness :
  (forall s, PyInt 7 <> PyStr s)
  /\ get_college_data (PyInt 7) PyNone PyNone PyNone PyNone PyNone
     = Raise AttributeError.
Proof.
  assert (H : forall s, PyInt 7 <> PyStr s) by discriminate.
  split; [exact H|].
  apply (college_major_not_str_raises (PyInt 7) PyNone PyNone PyNone PyNone PyNone H).
Defined.

(** A record of another major is skipped before any other argument is
    looked at. *)
Lemma college_passes_other_major (c : College) (major : string)
    (min_rank max_rank location_preference academic_skills : pyval) :
  ~ Str.eq_nocase (c_major c) major ->
  college_passes c (PyStr major) min_rank max_rank location_preference
    academic_skills = Ok false.
Proof.
  intros H. unfold college_passes. cbn [Py.lower bind].
  destruct (String.eqb_spec (Str.lower (c_major c)) (Str.lower major)) as [E|_];
    [now destruct H | reflexivity].
Qed.

Lemma college_scan_unknown_major (catalog : list College) (major : string)
    (min_rank max_rank location_preference academic_skills : pyval)
    (results : list College) :
  (forall c, In c catalog -> ~ Str.eq_nocase (c_major c) major) ->
  college_scan catalog (PyStr major) min_rank max_rank location_preference
    academic_skills results = Ok results.
Proof.
  revert results. induction catalog as [|c catalog IH]; intros results H;
    [reflexivity|].
  cbn [college_scan]. rewrite college_passes_other_major by (apply H; now left).
  cbn [bind]. apply IH. intros d Hd. apply H. now right.
Qed.

(** X2. When no record of the catalog has the major asked for,
    [get_college_data] returns its message whatever the other arguments are,
    also when they have types that would raise on a matching record. *)
Theorem college_unknown_major_message (major : string)
    (min_rank max_rank location_preference academic_skills
     extra_curriculars : pyval) :
  (forall c, In c colleges -> ~ Str.eq_nocase (c_major c) major) ->
  get_college_data (PyStr major) min_rank max_rank location_preference
    academic_skills extra_curriculars = Ok no_colleges_message.
Proof.
  intros H. unfold get_college_data, get_college_data_in.
  now rewrite college_scan_unknown_major.
Qed.

Lemma philosophy_unknown :
  forall c, In c colleges -> ~ Str.eq_nocase (c_major c) "Philosophy".
Proof.
  intros c Hc. unfold colleges in Hc. cbn [In] in Hc.
  repeat (destruct Hc as [<- | Hc]; [unfold Str.eq_nocase; vm_compute; discriminate|]).
  destruct Hc.
Qed.

Lemma college_unknown_major_message_witness :
  (forall c, In c colleges -> ~ Str.eq_nocase (c_major c) "Philosophy")
  /\ get_college_data (PyStr "Philosophy") (PyStr "top") (PyList []) (PyInt 3)
       (PyInt 4) PyNone = Ok no_colleges_message.
Proof.
  split; [exact philosophy_unknown|].
  apply (college_unknown_major_message "Philosophy" (PyStr "top") (PyList [])
           (PyInt 3) (PyInt 4) PyNone philosophy_unknown).
Defined.

Lemma college_scan_bad_min_rank (catalog : list College) (major : string)
    (min_rank max_rank location_preference academic_skills : pyval)
    (results : list College) :
  unordered min_rank = true ->
  (exists c, In c catalog /\ Str.eq_nocase (c_major c) major) ->
  college_scan catalog (PyStr major) min_rank max_rank location_preference
    academic_skills results = Raise TypeError.
Proof.
  intros Hbad. revert results.
  induction catalog as [|c catalog IH]; intros results [d [Hd Hm]];
    [destruct Hd|].
  cbn [college_scan]. unfold college_passes at 1. cbn [Py.lower bind].
  destruct (String.eqb_spec (Str.lower (c_major c)) (Str.lower major)) as [E|NE];
    cbn [negb].
  - destruct min_rank as [|s|z|l|b|q|dict]; try discriminate Hbad; reflexivity.
  - cbn [bind]. apply IH. destruct Hd as [-> | Hd]; [now destruct NE|].
    now exists d.
Qed.

(** X3. A [min_rank] that is text, a list or a dictionary makes
    [get_college_data] raise [TypeError] as soon as a record has the major
    asked for: the rank of that record cannot be ordered against it. *)
Theorem college_bad_min_rank_raises (major : string)
    (min_rank max_rank location_preference academic_skills
     extra_curriculars : pyval) :
  unordered min_rank = true ->
  (exists c, In c colleges /\ Str.eq_nocase (c_major c) major) ->
  get_college_data (PyStr major) min_rank max_rank location_preference
    academic_skills extra_curriculars = Raise TypeError.
Proof.
  intros H1 H2. unfold get_college_data, get_college_data_in.
  now rewrite college_scan_bad_min_rank.
Qed.

Lemma college_bad_min_rank_raises_witness :
  unordered (PyStr "10") = true
  /\ (exists c, In c colleges /\ Str.eq_nocase (c_major c) "history")
  /\ get_college_data (PyStr "history") (PyStr "10") PyNone PyNone PyNone PyNone
     = Raise TypeError.
Proof.
  assert (H1 : unordered (PyStr "10") = true) by reflexivity.
  assert (H2 : exists c, In c colleges /\ Str.eq_nocase (c_major c) "history").
  { exists (mkCollege "University of Delhi" "History" 50 "Delhi, India"
              ["University Grants"] "Strong humanities programs." 30
              ["research"; "writing"; "critical thinking"]).
    split; [simpl; tauto | reflexivity]. }
  split; [exact H1|]. split; [exact H2|].
  apply (college_bad_min_rank_raises "history" (PyStr "10") PyNone PyNone PyNone
           PyNone H1 H2).
Defined.




(** A bound between two whole numbers: a [min_rank] of 2.5 leaves out the
    college of rank 2 and keeps those of rank 5 and more. *)
Example college_half_rank_bound :
  get_college_data (PyStr "Computer Science") (PyFloat (5 # 2)) PyNone PyNone
    PyNone PyNone
  = get_college_data (PyStr "Computer Science") (PyInt 3) PyNone PyNone
      PyNone PyNone
  /\ get_college_data (PyStr "Computer Science") (PyFloat (5 # 2)) PyNone PyNone
       PyNone PyNone
     <> get_college_data (PyStr "Computer Science") (PyInt 2) PyNone PyNone
          PyNone PyNone.
Proof. split; [reflexivity|]. vm_compute. discriminate. Qed.







Lemma college_kept_relaxes (major : string) (min_rank max_rank : option Z)
    (location_preference : option string) (academic_skills : option (list string))
    (min_rank' max_rank' : option Z) (location_preference' : option string)
    (academic_skills' : option (list string)) (c : College) :
  relaxes min_rank min_rank' -> relaxes max_rank max_rank' ->
  relaxes location_preference location_preference' ->
  relaxes academic_skills academic_skills' ->
  college_kept major min_rank max_rank location_preference academic_skills c = true ->
  college_kept major min_rank' max_rank' location_preference' academic_skills' c
  = true.
Proof.
  unfold college_kept.
  intros [-> | ->] [-> | ->] [-> | ->] [-> | ->]; rewrite !andb_true_iff; tauto.
Qed.

(** X6. Filters only narrow a college search: on arguments of the annotated
    types, a record collected by a query is also collected by the query with
    any of the optional filters left out. *)
Theorem college_filters_only_narrow (major : string) (min_rank max_rank : option Z)
    (location_preference : option string) (academic_skills : option (list string))
    (min_rank' max_rank' : option Z) (location_preference' : option string)
    (academic_skills' : option (list string)) :
  relaxes min_rank min_rank' -> relaxes max_rank max_rank' ->
  relaxes location_preference location_preference' ->
  relaxes academic_skills academic_skills' ->
  exists narrow wide,
    college_scan colleges (PyStr major) (of_int min_rank) (of_int max_rank)
      (of_str location_preference) (of_strs academic_skills) [] = Ok narrow
    /\ college_scan colleges (PyStr major) (of_int min_rank') (of_int max_rank')
         (of_str location_preference') (of_strs academic_skills') [] = Ok wide
    /\ forall c, In c narrow -> In c wide.
Proof.
  intros H1 H2 H3 H4. eexists. eexists.
  split; [apply college_scan_typed|]. split; [apply college_scan_typed|].
  cbn [app]. intros c Hc. apply filter_In in Hc. destruct Hc as [Hin Hk].
  apply filter_In. split; [exact Hin|].
  now apply (college_kept_relaxes major min_rank max_rank location_preference
               academic_skills).
Qed.

Lemma college_filters_only_narrow_witness :
  relaxes (Some 2) (@None Z) /\ relaxes (Some 5) (Some 5)
  /\ relaxes (Some "USA") None /\ relaxes (Some ["coding"]) None
  /\ exists narrow wide,
       college_scan colleges (PyStr "Computer Science") (of_int (Some 2))
         (of_int (Some 5)) (of_str (Some "USA")) (of_strs (Some ["coding"])) []
       = Ok narrow
       /\ college_scan colleges (PyStr "Computer Science") (of_int None)
            (of_int (Some 5)) (of_str None) (of_strs None) [] = Ok wide
       /\ forall c, In c narrow -> In c wide.
Proof.
  assert (H1 : relaxes (Some 2) (@None Z)) by now left.
  assert (H2 : relaxes (Some 5) (Some 5)) by now right.
  assert (H3 : relaxes (Some "USA") None) by now left.
  assert (H4 : relaxes (Some ["coding"]) None) by now left.
  split; [exact H1|]. split; [exact H2|]. split; [exact H3|]. split; [exact H4|].
  apply (college_filters_only_narrow "Computer Science" (Some 2) (Some 5)
           (Some "USA") (Some ["coding"]) None (Some 5) None None H1 H2 H3 H4).
Defined.

(** ** Which records [get_college_data] returns

    The fixture has at most three colleges for a major, so that the limit of
    five never cuts its results; the properties of the sort and of the limit
    are stated over any catalog. *)

Lemma sorted_app_le (l1 l2 : list College) :
  StronglySorted rank_le (l1 ++ l2) ->
  forall x y, In x l1 -> In y l2 -> c_rank x <= c_rank y.
Proof.
  induction l1 as [|a l1 IH]; intros H x y Hx Hy; [destruct Hx|].
  cbn [app] in H. apply StronglySorted_inv in H. destruct H as [Hs Hall].
  destruct Hx as [-> | Hx]; [|now apply IH].
  rewrite List.Forall_forall in Hall. apply Hall, in_or_app. now right.
Qed.

(** What a call returns once its scan has collected [results]. *)
Lemma get_college_data_in_of_scan (catalog : list College)
    (major min_rank max_rank location_preference academic_skills
     extra_curriculars : pyval) (results : list College) :
  college_scan catalog major min_rank max_rank location_preference
    academic_skills [] = Ok results ->
  results <> [] ->
  get_college_data_in catalog major min_rank max_rank location_preference
    academic_skills extra_curriculars
  = Ok (Json.dumps (Json.JArr (map college_json (take 5 (sort_by_rank results))))).
Proof.
  intros E Hne. unfold get_college_data_in. rewrite E.
  cbn [bind]. now destruct results.
Qed.

(** X7. The records returned are the best ranked ones: a collected record
    that is not among the returned ones has a rank no better than any
    returned record. *)
Theorem college_top_are_best (catalog : list College)
    (major min_rank max_rank location_preference academic_skills
     extra_curriculars : pyval) (results : list College) :
  college_scan catalog major min_rank max_rank location_preference
    academic_skills [] = Ok results ->
  results <> [] ->
  get_college_data_in catalog major min_rank max_rank location_preference
    academic_skills extra_curriculars
  = Ok (Json.dumps (Json.JArr (map college_json (take 5 (sort_by_rank results)))))
  /\ forall c d,
       In c results -> ~ In c (take 5 (sort_by_rank results)) ->
       In d (take 5 (sort_by_rank results)) -> c_rank d <= c_rank c.
Proof.
  intros E Hne. split; [now apply get_college_data_in_of_scan|].
  intros c d Hc Hnot Hd.
  pose proof (sort_by_rank_sorted results) as Hs.
  rewrite <- (take_drop 5 (sort_by_rank results)) in Hs.
  apply (sorted_app_le _ _ Hs); [exact Hd|].
  apply (Permutation_in _ (Permutation_sym (sort_by_rank_perm results))) in Hc.
  rewrite <- (take_drop 5 (sort_by_rank results)) in Hc.
  apply in_app_or in Hc. now destruct Hc.
Qed.

Lemma college_top_are_best_witness :
  college_scan six_colleges (PyStr "history") PyNone PyNone PyNone PyNone []
  = Ok six_colleges
  /\ six_colleges <> []
  /\ get_college_data_in six_colleges (PyStr "history") PyNone PyNone PyNone
       PyNone PyNone
     = Ok (Json.dumps (Json.JArr (map college_json
                                    (take 5 (sort_by_rank six_colleges)))))
  /\ forall c d,
       In c six_colleges -> ~ In c (take 5 (sort_by_rank six_colleges)) ->
       In d (take 5 (sort_by_rank six_colleges)) -> c_rank d <= c_rank c.
Proof.
  assert (E : college_scan six_colleges (PyStr "history") PyNone PyNone PyNone
                PyNone [] = Ok six_colleges) by reflexivity.
  assert (Hne : six_colleges <> []) by discriminate.
  split; [exact E|]. split; [exact Hne|].
  apply (college_top_are_best six_colleges (PyStr "history") PyNone PyNone PyNone
           PyNone PyNone six_colleges E Hne).
Defined.

(** X8. The number of records returned is the number collected, up to five;
    when at most five are collected, all of them are returned. *)
Theorem college_result_count (catalog : list College)
    (major min_rank max_rank location_preference academic_skills
     extra_curriculars : pyval) (results : list College) :
  college_scan catalog major min_rank max_rank location_preference
    academic_skills [] = Ok results ->
  results <> [] ->
  get_college_data_in catalog major min_rank max_rank location_preference
    academic_skills extra_curriculars
  = Ok (Json.dumps (Json.JArr (map college_json (take 5 (sort_by_rank results)))))
  /\ List.length (take 5 (sort_by_rank results))
     = Nat.min 5 (List.length results)
  /\ ((List.length results <= 5)%nat ->
      Permutation (take 5 (sort_by_rank results)) results).
Proof.
  intros E Hne. split; [now apply get_college_data_in_of_scan|].
  pose proof (Permutation_length (sort_by_rank_perm results)) as Hlen.
  split.
  - rewrite length_take. lia.
  - intros Hle. rewrite take_ge.
    + apply sort_by_rank_perm.
    + lia.
Qed.

Lemma college_result_count_witness :
  college_scan six_colleges (PyStr "history") PyNone PyNone PyNone PyNone []
  = Ok six_colleges
  /\ six_colleges <> []
  /\ get_college_data_in six_colleges (PyStr "history") PyNone PyNone PyNone
       PyNone PyNone
     = Ok (Json.dumps (Json.JArr (map college_json
                                    (take 5 (sort_by_rank six_colleges)))))
  /\ List.length (take 5 (sort_by_rank six_colleges))
     = Nat.min 5 (List.length six_colleges)
  /\ ((List.length six_colleges <= 5)%nat ->
      Permutation (take 5 (sort_by_rank six_colleges)) six_colleges).
Proof.
  assert (E : college_scan six_colleges (PyStr "history") PyNone PyNone PyNone
                PyNone [] = Ok six_colleges) by reflexivity.
  assert (Hne : six_colleges <> []) by discriminate.
  split; [exact E|]. split; [exact Hne|].
  apply (college_result_count six_colleges (PyStr "history") PyNone PyNone PyNone
           PyNone PyNone six_colleges E Hne).
Defined.

Lemma filter_take_prefix {A : Type} (f : A -> bool) (n : nat) (l : list A) :
  List.filter f l
  = (List.filter f (take n l) ++ List.filter f (drop n l))%list.
Proof. now rewrite <- List.filter_app, take_drop. Qed.

(** X9. Records of equal rank are returned in the order of the catalog scan:
    for every rank, the returned records of that rank are the first collected
    records of that rank, in the order they were collected. *)
Theorem college_ties_in_scan_order (catalog : list College)
    (major min_rank max_rank location_preference academic_skills
     extra_curriculars : pyval) (results : list College) (r : Z) :
  college_scan catalog major min_rank max_rank location_preference
    academic_skills [] = Ok results ->
  results <> [] ->
  get_college_data_in catalog major min_rank max_rank location_preference
    academic_skills extra_curriculars
  = Ok (Json.dumps (Json.JArr (map college_json (take 5 (sort_by_rank results)))))
  /\ exists rest,
       List.filter (fun c => c_rank c =? r) results
       = (List.filter (fun c => c_rank c =? r) (take 5 (sort_by_rank results))
          ++ rest)%list.
Proof.
  intros E Hne. split; [now apply get_college_data_in_of_scan|].
  exists (List.filter (fun c => c_rank c =? r) (drop 5 (sort_by_rank results))).
  rewrite <- filter_take_prefix. symmetry. apply sort_by_rank_stable.
Qed.

Lemma college_ties_in_scan_order_witness :
  college_scan six_colleges (PyStr "history") PyNone PyNone PyNone PyNone []
  = Ok six_colleges
  /\ six_colleges <> []
  /\ get_college_data_in six_colleges (PyStr "history") PyNone PyNone PyNone
       PyNone PyNone
     = Ok (Json.dumps (Json.JArr (map college_json
                                    (take 5 (sort_by_rank six_colleges)))))
  /\ exists rest,
       List.filter (fun c => c_rank c =? 3) six_colleges
       = (List.filter (fun c => c_rank c =? 3) (take 5 (sort_by_rank six_colleges))
          ++ rest)%list.
Proof.
  assert (E : college_scan six_colleges (PyStr "history") PyNone PyNone PyNone
                PyNone [] = Ok six_colleges) by reflexivity.
  assert (Hne : six_colleges <> []) by discriminate.
  split; [exact E|]. split; [exact Hne|].
  apply (college_ties_in_scan_order six_colleges (PyStr "history") PyNone PyNone
           PyNone PyNone PyNone six_colleges 3 E Hne).
Defined.

(** ** [search_scholarships] on arguments of any type *)

Lemma scholarship_scan_ext (catalog : list Scholarship)
    (college_name major academic_profile skills : pyval)
    (college_name' major' academic_profile' skills' : pyval)
    (results : list Scholarship) :
  (forall s, In s catalog ->
     scholarship_matches s college_name major academic_profile skills
     = scholarship_matches s college_name' major' academic_profile' skills') ->
  scholarship_scan catalog college_name major academic_profile skills results
  = scholarship_scan catalog college_name' major' academic_profile' skills'
      results.
Proof.
  revert results. induction catalog as [|s catalog IH]; intros results H;
    [reflexivity|].
  cbn [scholarship_scan]. rewrite (H s) by now left.
  destruct (scholarship_matches s college_name' _ _ _) as [keep|e]; [|reflexivity].
  cbn [bind]. apply IH. intros d Hd. apply H. now right.
Qed.

Lemma is_any_truthy (word : string) : is_any word -> Py.truthy (PyStr word) = true.
Proof.
  unfold is_any. intros H. cbn [Py.truthy].
  destruct (String.eqb_spec word "") as [->|_]; [discriminate H | reflexivity].
Qed.

(** X10. The word any, in whatever letter case, as [college_name] or as
    [major] is the same as leaving the argument out: the call returns or
    raises the same, whatever the other arguments are. *)
Theorem scholarship_any_is_absent (word : string)
    (college_name major academic_profile skills : pyval) :
  is_any word ->
  search_scholarships (PyStr word) major academic_profile skills
  = search_scholarships PyNone major academic_profile skills
  /\ search_scholarships college_name (PyStr word) academic_profile skills
     = search_scholarships college_name PyNone academic_profile skills.
Proof.
  intros H. pose proof (is_any_truthy word H) as Ht. unfold is_any in H.
  unfold search_scholarships, search_scholarships_in.
  split; f_equal; apply scholarship_scan_ext; intros s _;
    unfold scholarship_matches; rewrite Ht; cbn [Py.lower Py.truthy bind];
    rewrite H; reflexivity.
Qed.

Lemma scholarship_any_is_absent_witness :
  is_any "ANY"
  /\ search_scholarships (PyStr "ANY") (PyStr "History") PyNone PyNone
     = search_scholarships PyNone (PyStr "History") PyNone PyNone
  /\ search_scholarships (PyStr "Tech University") (PyStr "ANY") PyNone PyNone
     = search_scholarships (PyStr "Tech University") PyNone PyNone PyNone.
Proof.
  assert (H : is_any "ANY") by reflexivity.
  split; [exact H|].
  apply (scholarship_any_is_absent "ANY" (PyStr "Tech University")
           (PyStr "History") PyNone PyNone H).
Defined.

(** The test of [college_name] or [major] against a field: it raises when
    the argument is not text, and gives an answer otherwise. *)
Lemma sentinel_test_any_type (v : pyval) (field : string) :
  (not_text v = true ->
   (if Py.truthy v then
      l <- Py.lower v;;
      if negb (String.eqb l "any") then
        l' <- Py.lower v;;
        Ok (negb (Str.contains l' (Str.lower field)))
      else Ok false
    else Ok false) = Raise AttributeError)
  /\ (not_text v = false ->
      exists b,
        (if Py.truthy v then
           l <- Py.lower v;;
           if negb (String.eqb l "any") then
             l' <- Py.lower v;;
             Ok (negb (Str.contains l' (Str.lower field)))
           else Ok false
         else Ok false) = Ok b).
Proof.
  unfold not_text. destruct v as [|s|z|l|b|q|d]; cbn [is_str negb Py.lower bind];
    try (rewrite andb_true_r; destruct (Py.truthy _); split;
         try discriminate; try reflexivity; intros _; now exists false).
  rewrite andb_false_r. split; [discriminate|]. intros _.
  destruct (Py.truthy (PyStr s)); [|now exists false].
  destruct (negb (String.eqb (Str.lower s) "any")); eexists; reflexivity.
Qed.

Lemma profile_test_any_type (v : pyval) (text : string) :
  (not_text v = true ->
   (if Py.truthy v then
      l <- Py.lower v;;
      Ok (negb (Str.contains l (Str.lower text)))
    else Ok false) = Raise AttributeError)
  /\ (not_text v = false ->
      exists b,
        (if Py.truthy v then
           l <- Py.lower v;;
           Ok (negb (Str.contains l (Str.lower text)))
         else Ok false) = Ok b).
Proof.
  unfold not_text. destruct v as [|s|z|l|b|q|d]; cbn [is_str negb Py.lower bind];
    try (rewrite andb_true_r; destruct (Py.truthy _); split;
         try discriminate; try reflexivity; intros _; now exists false).
  rewrite andb_false_r. split; [discriminate|]. intros _.
  destruct (Py.truthy (PyStr s)); eexists; reflexivity.
Qed.

Lemma scholarship_matches_not_text (s : Scholarship)
    (college_name major academic_profile skills : pyval) :
  not_text college_name || not_text major || not_text academic_profile = true ->
  scholarship_matches s college_name major academic_profile skills
  = Raise AttributeError.
Proof.
  intros H. unfold scholarship_matches.
  destruct (sentinel_test_any_type college_name (s_college s)) as [Hc1 Hc2].
  destruct (sentinel_test_any_type major (s_major s)) as [Hm1 Hm2].
  destruct (profile_test_any_type academic_profile (s_criteria s)) as [Hp1 Hp2].
  destruct (not_text college_name); [now rewrite Hc1|].
  destruct (Hc2 eq_refl) as [b1 ->]. cbn [bind].
  destruct (not_text major); [now rewrite Hm1|].
  destruct (Hm2 eq_refl) as [b2 ->]. cbn [bind].
  destruct (not_text academic_profile); [now rewrite Hp1 | discriminate H].
Qed.

(** X11. [search_scholarships] tests every argument on every record, also
    when an earlier test has already failed: a [college_name], [major] or
    [academic_profile] that is not text (and that Python takes for true)
    makes the call raise [AttributeError], whatever the other arguments. *)
Theorem scholarship_not_text_raises
    (college_name major academic_profile skills : pyval) :
  not_text college_name || not_text major || not_text academic_profile = true ->
  search_scholarships college_name major academic_profile skills
  = Raise AttributeError.
Proof.
  intros H. unfold search_scholarships, search_scholarships_in, scholarships.
  cbn [scholarship_scan]. now rewrite scholarship_matches_not_text.
Qed.

Lemma scholarship_not_text_raises_witness :
  not_text (PyStr "No Such College") || not_text PyNone || not_text (PyInt 4) = true
  /\ search_scholarships (PyStr "No Such College") PyNone (PyInt 4) PyNone
     = Raise AttributeError.
Proof.
  assert (H : not_text (PyStr "No Such College") || not_text PyNone
              || not_text (PyInt 4) = true) by reflexivity.
  split; [exact H|].
  apply (scholarship_not_text_raises (PyStr "No Such College") PyNone (PyInt 4)
           PyNone H).
Defined.



(** ** The dispatcher and the declarations *)

Lemma key_in_map_to_list (kwargs : gmap string pyval) (k : string) (v : pyval) :
  kwargs !! k = Some v -> In k (map fst (map_to_list kwargs)).
Proof.
  intros H. apply in_map_iff. exists (k, v). split; [reflexivity|].
  apply list_elem_of_In, elem_of_map_to_list. exact H.
Qed.

Lemma binds_unexpected (params required : list string)
    (kwargs : gmap string pyval) (k : string) (v : pyval) :
  kwargs !! k = Some v -> ~ In k params -> binds params required kwargs = false.
Proof.
  intros Hk Hnot. unfold binds. apply andb_false_iff. left.
  apply not_true_is_false. intros H. rewrite forallb_forall in H.
  specialize (H k (key_in_map_to_list _ _ _ Hk)).
  apply StrFacts.mem_spec in H. contradiction.
Qed.

Lemma binds_ok (params required : list string) (kwargs : gmap string pyval) :
  (forall k v, kwargs !! k = Some v -> In k params) ->
  (forall k, In k required -> is_Some (kwargs !! k)) ->
  binds params required kwargs = true.
Proof.
  intros Hkeys Hreq. unfold binds. apply andb_true_iff. split.
  - apply forallb_forall. intros k Hk. apply in_map_iff in Hk.
    destruct Hk as [[k' v] [<- Hin]]. apply StrFacts.mem_spec.
    apply (Hkeys k' v). now apply elem_of_map_to_list, list_elem_of_In.
  - apply forallb_forall. intros k Hk. now apply bool_decide_eq_true, Hreq.
Qed.

Lemma property_type_In (properties : list (string * schema_type)) (k : string) :
  property_type properties k = None <-> ~ In k (map fst properties).
Proof.
  induction properties as [|[k' ty] rest IH]; cbn [property_type map fst In].
  - tauto.
  - destruct (String.eqb_spec k k') as [->|NE].
    + split; [discriminate | intros H; destruct H; now left].
    + rewrite IH. split; [intros H [E | Hin]; [now destruct NE | tauto] | tauto].
Qed.

(** X13. A keyword that the declaration of a tool does not list makes
    [call_tool] raise [TypeError] for that tool: the declared properties are
    the parameters of the function, and Python accepts no other keyword. *)
Theorem undeclared_keyword_raises (d : declaration) (kwargs : gmap string pyval)
    (k : string) (v : pyval) :
  In d tools ->
  kwargs !! k = Some v ->
  property_type (d_properties d) k = None ->
  call_tool (d_name d) kwargs = Raise TypeError.
Proof.
  intros Hd Hk Hp. apply property_type_In in Hp.
  destruct (kwargs !! "tool_name") as [w|] eqn:Hname;
    [apply call_tool_refused; rewrite Hname; eauto|].
  rewrite call_tool_body by exact Hname.
  unfold tools in Hd. cbn [In] in Hd.
  destruct Hd as [<- | [<- | [<- | []]]]; cbn [d_name d_properties map fst] in *;
    unfold tool_functions.
  - rewrite lookup_insert_eq. unfold apply_get_college_data.
    now rewrite (binds_unexpected _ _ _ k v Hk Hp).
  - rewrite lookup_insert_ne by discriminate. rewrite lookup_insert_eq.
    unfold apply_search_scholarships.
    now rewrite (binds_unexpected _ _ _ k v Hk Hp).
  - rewrite !lookup_insert_ne by discriminate. rewrite lookup_insert_eq.
    unfold apply_validate_input.
    now rewrite (binds_unexpected _ _ _ k v Hk Hp).
Qed.

Lemma undeclared_keyword_raises_witness :
  In (mkDeclaration "search_scholarships"
        [("college_name", TString); ("major", TString);
         ("academic_profile", TString); ("skills", TStringArray)] []) tools
  /\ ({[ "gpa" := PyInt 4 ]} : gmap string pyval) !! "gpa" = Some (PyInt 4)
  /\ call_tool "search_scholarships" {[ "gpa" := PyInt 4 ]} = Raise TypeError.
Proof.
  assert (H1 : In (mkDeclaration "search_scholarships"
                     [("college_name", TString); ("major", TString);
                      ("academic_profile", TString); ("skills", TStringArray)] [])
                 tools) by (simpl; tauto).
  assert (H2 : ({[ "gpa" := PyInt 4 ]} : gmap string pyval) !! "gpa"
               = Some (PyInt 4)) by reflexivity.
  split; [exact H1|]. split; [exact H2|].
  apply (undeclared_keyword_raises _ {[ "gpa" := PyInt 4 ]} "gpa" (PyInt 4) H1 H2).
  reflexivity.
Defined.

(** X14. Dispatched with its two keywords, [validate_input] hands back the
    value of [message_to_user] unchanged, whatever the two values are. *)
Theorem validate_input_dispatch (required_info message_to_user : pyval) :
  call_tool "validate_input"
    (<["required_info" := required_info]>
       {[ "message_to_user" := message_to_user ]})
  = Ok message_to_user.
Proof.
  rewrite call_tool_body
    by (rewrite lookup_insert_ne by discriminate;
        now rewrite lookup_singleton_ne by discriminate).
  unfold tool_functions.
  rewrite !lookup_insert_ne by discriminate. rewrite lookup_insert_eq.
  unfold apply_validate_input. rewrite binds_ok.
  - unfold arg, validate_input. rewrite lookup_insert_ne by discriminate.
    now rewrite lookup_singleton_eq.
  - intros k v Hk. cbn [In].
    destruct (decide (k = "required_info")) as [->|N1]; [now left|].
    rewrite lookup_insert_ne in Hk by congruence.
    destruct (decide (k = "message_to_user")) as [->|N2]; [right; now left|].
    rewrite lookup_singleton_ne in Hk by congruence. discriminate.
  - intros k [<- | [<- | []]].
    + rewrite lookup_insert_eq. eauto.
    + rewrite lookup_insert_ne by discriminate. rewrite lookup_singleton_eq. eauto.
Qed.

(** X15. Without one of its two keywords, dispatching [validate_input]
    raises [TypeError]. *)
Theorem validate_input_needs_both (kwargs : gmap string pyval) :
  kwargs !! "required_info" = None \/ kwargs !! "message_to_user" = None ->
  call_tool "validate_input" kwargs = Raise TypeError.
Proof.
  intros H.
  destruct (kwargs !! "tool_name") as [w|] eqn:Hname;
    [apply call_tool_refused; rewrite Hname; eauto|].
  rewrite call_tool_body by exact Hname. unfold tool_functions.
  rewrite !lookup_insert_ne by discriminate. rewrite lookup_insert_eq.
  unfold apply_validate_input. destruct H as [H | H].
  - now rewrite (binds_missing _ _ _ "required_info") by (simpl; tauto || exact H).
  - now rewrite (binds_missing _ _ _ "message_to_user") by (simpl; tauto || exact H).
Qed.

Lemma validate_input_needs_both_witness :
  (({[ "message_to_user" := PyStr "Which major?" ]} : gmap string pyval)
     !! "required_info" = None
   \/ ({[ "message_to_user" := PyStr "Which major?" ]} : gmap string pyval)
        !! "message_to_user" = None)
  /\ call_tool "validate_input" {[ "message_to_user" := PyStr "Which major?" ]}
     = Raise TypeError.
Proof.
  assert (H : ({[ "message_to_user" := PyStr "Which major?" ]} : gmap string pyval)
                !! "required_info" = None
              \/ ({[ "message_to_user" := PyStr "Which major?" ]} : gmap string pyval)
                   !! "message_to_user" = None) by (left; reflexivity).
  split; [exact H|].
  apply (validate_input_needs_both {[ "message_to_user" := PyStr "Which major?" ]} H).
Defined.

(** X16. The tools declared to the model are the tools [call_tool] can
    dispatch: a name has a function in [tool_functions] exactly when a
    declaration has that name. *)
Theorem declared_tools_are_dispatched (tool_name : string) :
  is_Some (tool_functions !! tool_name) <-> In tool_name (map d_name tools).
Proof.
  unfold tool_functions, tools. cbn [map d_name In]. split.
  - intros H.
    destruct (decide (tool_name = "get_college_data")) as [->|N1]; [now left|].
    destruct (decide (tool_name = "search_scholarships")) as [->|N2];
      [right; now left|].
    destruct (decide (tool_name = "validate_input")) as [->|N3];
      [right; right; now left|].
    rewrite !lookup_insert_ne, lookup_empty in H by congruence.
    now destruct H.
  - intros [<- | [<- | [<- | []]]].
    + rewrite lookup_insert_eq. eauto.
    + rewrite lookup_insert_ne by discriminate. rewrite lookup_insert_eq. eauto.
    + rewrite !lookup_insert_ne by discriminate. rewrite lookup_insert_eq. eauto.
Qed.

Lemma conforms_key (d : declaration) (kwargs : gmap string pyval)
    (k : string) (v : pyval) :
  conforms d kwargs = true -> kwargs !! k = Some v ->
  exists ty, property_type (d_properties d) k = Some ty /\ has_type v ty = true.
Proof.
  unfold conforms. intros H Hk. apply andb_true_iff in H. destruct H as [H _].
  rewrite forallb_forall in H. specialize (H (k, v)). cbn [fst snd] in H.
  assert (Hin : In (k, v) (map_to_list kwargs))
    by (apply list_elem_of_In, elem_of_map_to_list; exact Hk).
  specialize (H Hin). destruct (property_type (d_properties d) k) as [ty|];
    [now exists ty | discriminate].
Qed.

Lemma conforms_required (d : declaration) (kwargs : gmap string pyval) (k : string) :
  conforms d kwargs = true -> In k (d_required d) -> is_Some (kwargs !! k).
Proof.
  unfold conforms. intros H Hk. apply andb_true_iff in H. destruct H as [_ H].
  rewrite forallb_forall in H. specialize (H k Hk).
  now apply bool_decide_eq_true in H.
Qed.

Lemma conforms_binds (d : declaration) (kwargs : gmap string pyval) :
  conforms d kwargs = true ->
  binds (map fst (d_properties d)) (d_required d) kwargs = true.
Proof.
  intros H. apply binds_ok.
  - intros k v Hk. destruct (conforms_key d kwargs k v H Hk) as [ty [Hty _]].
    destruct (in_dec String.string_dec k (map fst (d_properties d))) as [Hin|Hnot];
      [exact Hin|].
    apply property_type_In in Hnot. congruence.
  - intros k Hk. now apply (conforms_required d).
Qed.

Lemma string_array (l : list pyval) :
  forallb is_str l = true -> exists l', l = map PyStr l'.
Proof.
  induction l as [|v l IH]; cbn [forallb]; [now exists []|].
  intros H. apply andb_true_iff in H. destruct H as [Hv Hl].
  destruct (IH Hl) as [l' ->]. destruct v as [|s|z|l0|b|q|d]; try discriminate.
  now exists (s :: l').
Qed.

(** The values bound to the parameters of a call that follows a
    declaration have the types of the annotations. *)
Lemma conforms_arg_str (d : declaration) (kwargs : gmap string pyval) (k : string) :
  conforms d kwargs = true -> property_type (d_properties d) k = Some TString ->
  exists o, arg kwargs k = of_str o.
Proof.
  intros H Hty. unfold arg. destruct (kwargs !! k) as [v|] eqn:Hk;
    [|now exists None].
  destruct (conforms_key d kwargs k v H Hk) as [ty [Hty' Hv]].
  rewrite Hty in Hty'. injection Hty' as <-.
  destruct v as [|s|z|l|b|q|d0]; try discriminate. now exists (Some s).
Qed.

Lemma conforms_arg_int (d : declaration) (kwargs : gmap string pyval) (k : string) :
  conforms d kwargs = true -> property_type (d_properties d) k = Some TInteger ->
  exists o, arg kwargs k = of_int o.
Proof.
  intros H Hty. unfold arg. destruct (kwargs !! k) as [v|] eqn:Hk;
    [|now exists None].
  destruct (conforms_key d kwargs k v H Hk) as [ty [Hty' Hv]].
  rewrite Hty in Hty'. injection Hty' as <-.
  destruct v as [|s|z|l|b|q|d0]; try discriminate. now exists (Some z).
Qed.

Lemma conforms_arg_strs (d : declaration) (kwargs : gmap string pyval) (k : string) :
  conforms d kwargs = true ->
  property_type (d_properties d) k = Some TStringArray ->
  exists o, arg kwargs k = of_strs o.
Proof.
  intros H Hty. unfold arg. destruct (kwargs !! k) as [v|] eqn:Hk;
    [|now exists None].
  destruct (conforms_key d kwargs k v H Hk) as [ty [Hty' Hv]].
  rewrite Hty in Hty'. injection Hty' as <-.
  destruct v as [|s|z|l|b|q|d0]; try discriminate. cbn [has_type] in Hv.
  destruct (string_array l Hv) as [l' ->]. now exists (Some l').
Qed.

Lemma conforms_arg_required_str (d : declaration) (kwargs : gmap string pyval)
    (k : string) :
  conforms d kwargs = true -> property_type (d_properties d) k = Some TString ->
  In k (d_required d) -> exists s, arg kwargs k = PyStr s.
Proof.
  intros H Hty Hreq. destruct (conforms_required d kwargs k H Hreq) as [v Hk].
  destruct (conforms_key d kwargs k v H Hk) as [ty [Hty' Hv]].
  rewrite Hty in Hty'. injection Hty' as <-. unfold arg. rewrite Hk.
  destruct v as [|s|z|l|b|q|d0]; try discriminate. now exists s.
Qed.

(** X17. A call that follows the declaration of its tool (only declared
    keywords, each with a value of the declared type, every required keyword
    given) is dispatched without an exception: [call_tool] returns a
    value. *)
Theorem declared_call_returns (d : declaration) (kwargs : gmap string pyval) :
  In d tools ->
  conforms d kwargs = true ->
  exists out, call_tool (d_name d) kwargs = Ok out.
Proof.
  intros Hd H. pose proof (conforms_binds d kwargs H) as Hb.
  assert (Hname : kwargs !! "tool_name" = None).
  { destruct (kwargs !! "tool_name") as [w|] eqn:Hw; [|reflexivity].
    destruct (conforms_key d kwargs "tool_name" w H Hw) as [ty [Hty _]].
    unfold tools in Hd. cbn [In] in Hd.
    destruct Hd as [<- | [<- | [<- | []]]]; discriminate Hty. }
  rewrite call_tool_body by exact Hname.
  unfold tools in Hd. cbn [In] in Hd.
  destruct Hd as [<- | [<- | [<- | []]]];
    cbn [d_name d_properties d_required map fst] in Hb;
    unfold tool_functions.
  - rewrite lookup_insert_eq. unfold apply_get_college_data. rewrite Hb.
    destruct (conforms_arg_required_str _ kwargs "major" H eq_refl) as [m ->];
      [simpl; tauto|].
    destruct (conforms_arg_int _ kwargs "min_rank" H eq_refl) as [mn ->].
    destruct (conforms_arg_int _ kwargs "max_rank" H eq_refl) as [mx ->].
    destruct (conforms_arg_str _ kwargs "location_preference" H eq_refl) as [loc ->].
    destruct (conforms_arg_strs _ kwargs "academic_skills" H eq_refl) as [sk ->].
    unfold get_college_data. rewrite get_college_data_in_typed. cbn [bind].
    eauto.
  - rewrite lookup_insert_ne by discriminate. rewrite lookup_insert_eq.
    unfold apply_search_scholarships. rewrite Hb.
    destruct (conforms_arg_str _ kwargs "college_name" H eq_refl) as [cn ->].
    destruct (conforms_arg_str _ kwargs "major" H eq_refl) as [m ->].
    destruct (conforms_arg_str _ kwargs "academic_profile" H eq_refl) as [p ->].
    destruct (conforms_arg_strs _ kwargs "skills" H eq_refl) as [sk ->].
    unfold search_scholarships. rewrite search_scholarships_in_typed. cbn [bind].
    eauto.
  - rewrite !lookup_insert_ne by discriminate. rewrite lookup_insert_eq.
    unfold apply_validate_input. rewrite Hb. eauto.
Qed.

Lemma declared_call_returns_witness :
  let d := mkDeclaration "get_college_data"
             [("major", TString); ("min_rank", TInteger); ("max_rank", TInteger);
              ("location_preference", TString); ("academic_skills", TStringArray);
              ("extra_curriculars", TStringArray)] ["major"] in
  let kwargs : gmap string pyval :=
    <["major" := PyStr "Computer Science"]>
      (<["max_rank" := PyInt 5]>
         {[ "academic_skills" := PyList [PyStr "coding"] ]}) in
  In d tools /\ conforms d kwargs = true
  /\ exists out, call_tool "get_college_data" kwargs = Ok out.
Proof.
  intros d kwargs.
  assert (H1 : In d tools) by (simpl; tauto).
  assert (H2 : conforms d kwargs = true) by reflexivity.
  split; [exact H1|]. split; [exact H2|].
  apply (declared_call_returns d kwargs H1 H2).
Defined.

(** ** What a turn leaves in the history *)

Section TurnHistory.

Variable Session : Type.
Variable send_message : Session -> content -> Session * result response.
Variable response_text : response -> result string.
Variable last_text : Session -> result string.
Variable exn_text : exn -> string.

Local Abbreviation turn :=
  (handle_turn Session send_message response_text last_text exn_text).
Local Abbreviation body :=
  (try_body Session send_message response_text last_text).

Lemma handle_turn_history (st : State Session) (user_query : string) :
  user_query <> "" ->
  chat_history (fst (turn st user_query))
  = (chat_history st ++
     [mkMessage User [user_query];
      mkMessage Model
        [match snd (body (chat_session st) user_query) with
         | Ok text => text
         | Raise e => apology (exn_text e)
         end]])%list.
Proof.
  intros Hq. unfold handle_turn.
  destruct (String.eqb_spec user_query "") as [E|_]; [contradiction|].
  destruct (try_body _ _ _ _ (chat_session st) user_query) as [[session trace] out].
  cbn [fst snd chat_history]. now rewrite <- app_assoc.
Qed.

(** X18. Every turn with a query adds exactly two messages to the history,
    the query as a message of the user and then one message of the model,
    and leaves the earlier messages as they were; this holds also when the
    chat service or the tool raises. *)
Theorem turn_appends_two_messages (st : State Session) (user_query : string) :
  user_query <> "" ->
  exists shown,
    chat_history (fst (turn st user_query))
    = (chat_history st
       ++ [mkMessage User [user_query]; mkMessage Model [shown]])%list.
Proof. intros Hq. eexists. now apply handle_turn_history. Qed.

(** X19. A turn whose first reply does not start with a function call never
    enters [call_tool] and calls [send_message] once. When the call raised,
    the model's message is the apology with the text of the exception;
    otherwise it is the text of the reply, or the apology when reading the
    text raised. *)
Theorem turn_without_call (st : State Session) (user_query : string) :
  user_query <> "" ->
  match first_reply Session send_message st user_query with
  | Raise e =>
      snd (turn st user_query) = [Sent (UserText user_query)]
      /\ chat_history (fst (turn st user_query))
         = (chat_history st
            ++ [mkMessage User [user_query];
                mkMessage Model [apology (exn_text e)]])%list
  | Ok reply =>
      function_call reply = None ->
      snd (turn st user_query) = [Sent (UserText user_query)]
      /\ chat_history (fst (turn st user_query))
         = (chat_history st
            ++ [mkMessage User [user_query];
                mkMessage Model
                  [match response_text reply with
                   | Ok text => text
                   | Raise e => apology (exn_text e)
                   end]])%list
  end.
Proof.
  intros Hq. rewrite handle_turn_history by exact Hq.
  rewrite (handle_turn_trace Session send_message response_text last_text
             exn_text st user_query Hq).
  unfold first_reply, try_body.
  destruct (send_message (chat_session st) (UserText user_query))
    as [session [reply|e]]; cbn [fst snd]; [|now split].
  intros Hcall. rewrite Hcall. now split.
Qed.

(** X20. When the tool asked for raises, the exception does not leave the
    turn: the model's message in the history is the apology with the text of
    the exception. *)
Theorem tool_exception_becomes_apology (st : State Session) (user_query : string)
    (reply : response) (tool_name : string) (tool_args : gmap string pyval)
    (e : exn) :
  user_query <> "" ->
  first_reply Session send_message st user_query = Ok reply ->
  function_call reply = Some (tool_name, tool_args) ->
  tool_args !! "tool_name" = None ->
  call_tool tool_name tool_args = Raise e ->
  chat_history (fst (turn st user_query))
  = (chat_history st
     ++ [mkMessage User [user_query]; mkMessage Model [apology (exn_text e)]])%list.
Proof.
  intros Hq Hreply Hcall Hkey He. rewrite handle_turn_history by exact Hq.
  unfold first_reply in Hreply. unfold try_body.
  destruct (send_message (chat_session st) (UserText user_query))
    as [session r]. cbn [snd] in Hreply. subst r. rewrite Hcall.
  unfold tool_branch. rewrite Hkey.
  rewrite bool_decide_eq_false_2 by (intros [v Hv]; discriminate).
  now rewrite He.
Qed.

End TurnHistory.

Lemma turn_without_call_witness :
  "Hi" <> ""
  /\ match first_reply (list (result response)) Scripted.send_message
             (mkState [] [Ok (mkResponse [TextPart "Hello."])]) "Hi" with
     | Raise e =>
         snd (Scripted.handle_turn (mkState [] [Ok (mkResponse [TextPart "Hello."])]) "Hi")
         = [Sent (UserText "Hi")]
         /\ chat_history (fst (Scripted.handle_turn
                                 (mkState [] [Ok (mkResponse [TextPart "Hello."])]) "Hi"))
            = [mkMessage User ["Hi"];
               mkMessage Model [apology (Scripted.exn_text e)]]
     | Ok reply =>
         function_call reply = None ->
         snd (Scripted.handle_turn (mkState [] [Ok (mkResponse [TextPart "Hello."])]) "Hi")
         = [Sent (UserText "Hi")]
         /\ chat_history (fst (Scripted.handle_turn
                                 (mkState [] [Ok (mkResponse [TextPart "Hello."])]) "Hi"))
            = [mkMessage User ["Hi"];
               mkMessage Model
                 [match Scripted.response_text reply with
                  | Ok text => text
                  | Raise e => apology (Scripted.exn_text e)
                  end]]
     end.
Proof.
  assert (H : "Hi" <> "") by discriminate.
  split; [exact H|].
  apply (turn_without_call (list (result response)) Scripted.send_message
           Scripted.response_text Scripted.last_text Scripted.exn_text
           (mkState [] [Ok (mkResponse [TextPart "Hello."])]) "Hi" H).
Defined.

Lemma turn_appends_two_messages_witness :
  "Hi" <> ""
  /\ exists shown,
       chat_history (fst (Scripted.handle_turn
                            (mkState [mkMessage Model ["Welcome"]] []) "Hi"))
       = [mkMessage Model ["Welcome"]; mkMessage User ["Hi"];
          mkMessage Model [shown]].
Proof.
  assert (H : "Hi" <> "") by discriminate.
  split; [exact H|].
  apply (turn_appends_two_messages (list (result response)) Scripted.send_message
           Scripted.response_text Scripted.last_text Scripted.exn_text
           (mkState [mkMessage Model ["Welcome"]] []) "Hi" H).
Defined.

Lemma tool_exception_becomes_apology_witness :
  let st := mkState [] [Ok (mkResponse [FunctionCallPart "get_college_data" ∅])] in
  "Find me a college" <> ""
  /\ call_tool "get_college_data" ∅ = Raise TypeError
  /\ chat_history (fst (Scripted.handle_turn st "Find me a college"))
     = [mkMessage User ["Find me a college"];
        mkMessage Model [apology (Scripted.exn_text TypeError)]].
Proof.
  intros st.
  assert (H : "Find me a college" <> "") by discriminate.
  assert (He : call_tool "get_college_data" ∅ = Raise TypeError) by reflexivity.
  split; [exact H|]. split; [exact He|].
  apply (tool_exception_becomes_apology (list (result response))
           Scripted.send_message Scripted.response_text Scripted.last_text
           Scripted.exn_text st "Find me a college"
           (mkResponse [FunctionCallPart "get_college_data" ∅])
           "get_college_data" ∅ TypeError H eq_refl eq_refl eq_refl He).
Defined.

(** ** The script over a browser session *)

Lemma conversation_one_part (h : list message) :
  conversation h -> forall m, In m h -> exists text, msg_parts m = [text].
Proof.
  induction 1 as [text | h question answer Hh IH]; intros m Hm.
  - destruct Hm as [<- | []]. now exists text.
  - apply in_app_or in Hm. destruct Hm as [Hm | [<- | [<- | []]]];
      [now apply IH | now exists question | now exists answer].
Qed.

Lemma display_one_part (h : list message) :
  (forall m, In m h -> exists text, msg_parts m = [text]) ->
  exists shown, display h = Some shown /\ List.length shown = List.length h.
Proof.
  induction h as [|m h IH]; intros H; [now exists []|].
  destruct (H m) as [text Hm]; [now left|].
  destruct IH as [shown [E Hlen]]; [intros m' Hm'; apply H; now right|].
  cbn [display]. rewrite Hm, E. eexists. split; [reflexivity|].
  cbn [List.length]. now rewrite Hlen.
Qed.

Section ScriptFacts.

Variable Session : Type.
Variable send_message : Session -> content -> Session * result response.
Variable response_text : response -> result string.
Variable last_text : Session -> result string.
Variable exn_text : exn -> string.
Variable start_chat : list message -> Session.
Variable append_history : Session -> message -> Session.

Local Abbreviation run :=
  (script_run Session send_message response_text last_text exn_text start_chat
     append_history).
Local Abbreviation runs :=
  (session_runs Session send_message response_text last_text exn_text start_chat
     append_history).
Local Abbreviation turn :=
  (handle_turn Session send_message response_text last_text exn_text).

Lemma init_state_conversation (store : Store Session) :
  store_ok store ->
  conversation (chat_history (init_state Session start_chat append_history store)).
Proof.
  unfold store_ok, init_state. cbn [chat_history].
  destruct (stored_history store) as [h|]; [tauto | intros _; constructor].
Qed.

Lemma turn_conversation (st : State Session) (user_query : string) :
  conversation (chat_history st) ->
  conversation (chat_history (fst (turn st user_query))).
Proof.
  intros H. destruct (String.eqb_spec user_query "") as [->|Hq].
  - exact H.
  - rewrite handle_turn_history by exact Hq. now constructor.
Qed.

Lemma run_conversation (store : Store Session) (user_query : option string)
    (reset_clicked : bool) :
  store_ok store -> conversation (chat_history (run store user_query reset_clicked)).
Proof.
  intros H. apply init_state_conversation in H. unfold script_run.
  destruct (display _); [|exact H].
  destruct reset_clicked; [constructor|].
  destruct user_query as [q|]; [now apply turn_conversation | exact H].
Qed.

Lemma runs_store_ok (inputs : list (option string * bool)) : store_ok (runs inputs).
Proof.
  unfold session_runs.
  assert (G : forall store, store_ok store ->
                store_ok (fold_left
                            (fun store i => store_of (run store (fst i) (snd i)))
                            inputs store)).
  { induction inputs as [|i inputs IH]; intros store H; [exact H|].
    cbn [fold_left]. apply IH. unfold store_ok, store_of. cbn [stored_history].
    now apply run_conversation. }
  apply G. exact I.
Qed.

(** X21. Over a browser session, after every run of the script the history
    is a conversation: it opens with one message of the model, and then
    messages of the user and of the model alternate, each with one part. *)
Theorem history_is_conversation (inputs : list (option string * bool))
    (user_query : option string) (reset_clicked : bool) :
  conversation (chat_history (run (runs inputs) user_query reset_clicked)).
Proof. apply run_conversation, runs_store_ok. Qed.

(** X22. The display loop never fails on a history the script has built: it
    shows one chat bubble for each message. *)
Theorem display_shows_history (inputs : list (option string * bool))
    (user_query : option string) (reset_clicked : bool) :
  exists shown,
    display (chat_history (run (runs inputs) user_query reset_clicked))
    = Some shown
    /\ List.length shown
       = List.length (chat_history (run (runs inputs) user_query reset_clicked)).
Proof.
  apply display_one_part, conversation_one_part, run_conversation, runs_store_ok.
Qed.

Lemma init_state_stored (st : State Session) :
  init_state Session start_chat append_history (store_of st) = st.
Proof. now destruct st. Qed.

(** X23. A run in which the reset button is clicked ends, whatever the
    session held before and whatever was typed in that run, with the history
    holding the reset message only and with a new chat session. *)
Theorem reset_discards_everything (inputs : list (option string * bool))
    (user_query : option string) :
  run (runs inputs) user_query true
  = mkState [mkMessage Model [reset_message]] (start_chat []).
Proof.
  unfold script_run.
  destruct (display_one_part
              (chat_history (init_state Session start_chat append_history
                               (runs inputs)))) as [shown [E _]].
  - apply conversation_one_part, init_state_conversation, runs_store_ok.
  - now rewrite E.
Qed.

(** X24. A run of the script with nothing typed and no button clicked
    leaves the history and the chat session as the previous run left them:
    the greeting is not added twice and the session is not started again. *)
Theorem idle_run_changes_nothing (inputs : list (option string * bool))
    (user_query : option string) (reset_clicked : bool) :
  run (store_of (run (runs inputs) user_query reset_clicked)) None false
  = run (runs inputs) user_query reset_clicked.
Proof.
  unfold script_run at 1. rewrite init_state_stored.
  destruct (display_one_part
              (chat_history (run (runs inputs) user_query reset_clicked)))
    as [shown [E _]].
  - apply conversation_one_part, run_conversation, runs_store_ok.
  - now rewrite E.
Qed.

End ScriptFacts.
